(** * Basketball game simulation: scoring functions, game clock and
      timeline orchestration

    A shallow embedding of the TypeScript sources and the properties the
    specification states about them.

    Conventions.
    - A JavaScript [number] that only ever holds an integer (counters, the
      timeline pointer, seconds, rounded readings) is a [Z]; a reading as
      the records store it, which is an infinity when enough digits are
      typed, is a [Num].
    - A [number] that takes fractional values is an exact rational [Q]
      in the scoring functions: there the embedding idealises IEEE doubles
      as rationals, and a non-finite result (a division by zero) is
      [None].  Where the rounding of doubles decides what the code does
      ([parseInt] on long entries, [normalizeValue] off the grid of small
      integers) the number is a binary64 value of module [Double], with
      the arithmetic of the Standard Library's [SpecFloat].
    - [Math.random()] is an argument [u] with [0 <= u < 1].
    - React state is an explicit record; every handler is a function on it;
      a [setTimeout] callback is a pending [Timer] that carries the values
      its closure captured. *)

From Stdlib Require Import ZArith QArith Qround Qabs Qminmax Lia Lqa.
From Stdlib Require Import List String Ascii Bool DecimalString.
From Stdlib Require Floats.SpecFloat.
From stdpp Require Import base option gmap.
Import ListNotations.

Local Open Scope Z_scope.

(** ** JavaScript arithmetic helpers *)

(** [Math.round]: the nearest integer, halves towards +infinity. *)
Definition Math_round (x : Q) : Z := Qfloor (x + (1 # 2))%Q.

(** [Math.floor]. *)
Definition Math_floor (x : Q) : Z := Qfloor x.

Definition Math_max (x y : Q) : Q := Qmax x y.
Definition Math_min (x y : Q) : Q := Qmin x y.
Definition Math_abs (x : Q) : Q := Qabs x.

(** Comparisons of numbers, as booleans. *)
Definition Qltb (x y : Q) : bool := negb (Qle_bool y x).
Definition Qgtb (x y : Q) : bool := Qltb y x.
Definition Qeqb (x y : Q) : bool := Qeq_bool x y.

(** [n.toString()] for an integer [n]. *)
Definition toString (n : Z) : string := NilZero.string_of_int (Z.to_int n).

(** A [number] that holds an integer or an infinity.  [-0] is identified
    with [0]: no operation applied to such a number tells them apart. *)
Inductive Num : Type :=
  | Integer (z : Z)
  | Infinite (negative : bool).

(** ** IEEE 754 binary64 numbers *)

Module Double.

Definition prec : Z := 53.
Definition emax : Z := 1024.

(** A [number] with its rounding. *)
Definition double : Type := SpecFloat.spec_float.


(** The double nearest to an integer, ties to even; an infinity from
    [2^1024 - 2^970] on. *)
Definition ofZ (z : Z) : double :=
  SpecFloat.binary_normalize prec emax z 0 false.

Definition add : double -> double -> double := SpecFloat.SFadd prec emax.
Definition sub : double -> double -> double := SpecFloat.SFsub prec emax.
Definition mul : double -> double -> double := SpecFloat.SFmul prec emax.
Definition div : double -> double -> double := SpecFloat.SFdiv prec emax.

(** [<], [<=] and [===]: every comparison with NaN is false. *)
Definition ltb : double -> double -> bool := SpecFloat.SFltb.
Definition leb : double -> double -> bool := SpecFloat.SFleb.
Definition eqb : double -> double -> bool := SpecFloat.SFeqb.

(** The decimal literal [a / 10^k], for [a] and [10^k] below [2^53]: the
    quotient of two exact doubles is rounded once. *)
Definition decimal (a k : Z) : double := div (ofZ a) (ofZ (10 ^ k)).

(** The exact value of a finite double; [None] for NaN and the
    infinities. *)
Definition toQ (x : double) : option Q :=
  match x with
  | SpecFloat.S754_zero _ => Some 0%Q
  | SpecFloat.S754_finite s m e =>
      let n := SpecFloat.cond_Zopp s (Zpos m) in
      Some (match e with
            | Zneg k => n # (2 ^ k)
            | _ => inject_Z (n * 2 ^ e)
            end)
  | _ => None
  end.

(** The same value, bit for bit ([Object.is], with one NaN). *)
Definition identical (x y : double) : bool :=
  match x, y with
  | SpecFloat.S754_zero s, SpecFloat.S754_zero s' => Bool.eqb s s'
  | SpecFloat.S754_infinity s, SpecFloat.S754_infinity s' => Bool.eqb s s'
  | SpecFloat.S754_nan, SpecFloat.S754_nan => true
  | SpecFloat.S754_finite s m e, SpecFloat.S754_finite s' m' e' =>
      Bool.eqb s s' && Pos.eqb m m' && Z.eqb e e'
  | _, _ => false
  end.

(** A double that holds an integer or an infinity, as a [Num]; [None] is
    NaN. *)
Definition integerValue (x : double) : option Num :=
  match x with
  | SpecFloat.S754_zero _ => Some (Integer 0)
  | SpecFloat.S754_finite s m e =>
      Some (Integer (SpecFloat.cond_Zopp s (Z.shiftl (Zpos m) e)))
  | SpecFloat.S754_infinity s => Some (Infinite s)
  | SpecFloat.S754_nan => None
  end.

End Double.

(** ** PlayerPanel.tsx: the action tags *)

Inductive StatType : Type :=
  | points | assists | rebounds | turnovers | goodDecisions | badDecisions.

Definition StatType_eq_dec (a b : StatType) : {a = b} + {a <> b}.
Proof. decide equality. Defined.

Inductive PlayerStatus : Type := OnCourt | Bench.

(** ** SurveyModal.tsx and SAADisplay.tsx: the shared data types *)

Record SurveyResponses : Type := mkSurveyResponses {
  emotionalArousal : Z;
  momentum : Z;
  flow : Z
}.

Inductive SAALevel : Type := low | moderate | high.

Record SAAResult : Type := mkSAAResult {
  value : Z;
  level : SAALevel
}.

(** The threshold rule every producer of a level repeats:
    [let level = 'moderate'; if (v < 50) level = 'low';
     else if (v > 80) level = 'high']. *)
Definition levelOf (v : Z) : SAALevel :=
  if v <? 50 then low else if v >? 80 then high else moderate.

(** ** utils/calculationUtils.ts *)

Module CalculationUtils.

Definition weights (action : StatType) : Z :=
  match action with
  | points => 10
  | assists => 8
  | rebounds => 6
  | turnovers => -5
  | goodDecisions => 7
  | badDecisions => -6
  end.

Definition calculatePerformanceScore (actions : list StatType) : Z :=
  let rawScore :=
    fold_left (fun total action => total + weights action) actions 0 in
  Z.max 0 (Z.min 100 (rawScore + 50)).

(** [u] is the result of the call to [Math.random()]. *)
Definition calculateSAAValue (responses : SurveyResponses) (u : Q)
  : SAAResult :=
  let baseValue := 35%Q in
  let arousalContribution :=
    (inject_Z (emotionalArousal responses) * 3)%Q in
  let flowContribution :=
    if flow responses <? 4 then
      inject_Z ((4 - flow responses) * 3)
    else if flow responses >? 7 then
      inject_Z ((flow responses - 7) * 2)
    else
      inject_Z (- ((flow responses - 4) * 2)) in
  let momentumFactor :=
    ((15 # 10) - inject_Z (momentum responses) * (1 # 10))%Q in
  let biologicalVariability := (u * 8 - 4)%Q in
  let calculatedValue :=
    (baseValue + arousalContribution * momentumFactor
     + flowContribution + biologicalVariability)%Q in
  let calculatedValue :=
    Math_round (Math_max 30 (Math_min 160 calculatedValue)) in
  {| value := calculatedValue; level := levelOf calculatedValue |}.

(** The quotient is not finite when [fromMax = fromMin]. *)
Definition normalizeValue (value fromMin fromMax toMin toMax : Q)
  : option Q :=
  if Qeqb (fromMax - fromMin) 0 then None
  else Some ((value - fromMin) / (fromMax - fromMin)
             * (toMax - toMin) + toMin)%Q.

Definition calculatePsychologicalState (responses : SurveyResponses)
  : option Q :=
  let izofScore :=
    if (emotionalArousal responses >=? 4)
       && (emotionalArousal responses <=? 7)
    then 100%Q
    else (100 - Math_abs ((55 # 10) - inject_Z (emotionalArousal responses))
                * 15)%Q in
  momentumScore ← normalizeValue (inject_Z (momentum responses)) 1 9 30 100;
  flowScore ← normalizeValue (inject_Z (flow responses)) 1 9 30 100;
  let compositeScore :=
    (izofScore * (4 # 10) + momentumScore * (3 # 10)
     + flowScore * (3 # 10))%Q in
  Some (Math_max 0 (Math_min 100 compositeScore)).

End CalculationUtils.

(** ** components/PerformanceTable.tsx: the efficiency badge *)

Module PerformanceTable.

Record TimelineStats : Type := mkTimelineStats {
  timePoint : Z;
  quarter : Z;
  points : Z;
  assists : Z;
  rebounds : Z;
  turnovers : Z;
  goodDecisions : Z;
  badDecisions : Z;
  performance : Z
}.

Record HollingerScore : Type := mkHollingerScore {
  gameScore : Q;
  maxPossibleScore : Q;
  efficiencyPercentage : option Q;   (* [None] is [null] *)
  hasActions : bool
}.

Definition totalActions (stats : TimelineStats) : Z :=
  points stats + assists stats + rebounds stats + turnovers stats
  + goodDecisions stats + badDecisions stats.

Definition positiveScore (stats : TimelineStats) : Q :=
  (inject_Z (points stats)
   + (7 # 10) * inject_Z (rebounds stats)
   + (7 # 10) * inject_Z (assists stats)
   + (3 # 10) * inject_Z (goodDecisions stats))%Q.

Definition negativeScore (stats : TimelineStats) : Q :=
  (1 * inject_Z (turnovers stats)
   + (7 # 10) * inject_Z (badDecisions stats))%Q.

Definition SIGNIFICANT_CONTRIBUTION_THRESHOLD : Q := 4.

Definition calculateHollingerScore (stats : TimelineStats)
  : HollingerScore :=
  let totalActions := totalActions stats in
  if totalActions =? 0 then
    {| gameScore := 0; maxPossibleScore := 0;
       efficiencyPercentage := None; hasActions := false |}
  else
    let positiveScore := positiveScore stats in
    let negativeScore := negativeScore stats in
    let gameScore := (positiveScore - negativeScore)%Q in
    let scaleFactor := Math_min 1 (inject_Z totalActions / 8) in
    let efficiencyPercentage :=
      if Qle_bool gameScore 0 then
        Math_max 0 (40 + gameScore * 10)
      else if Qltb gameScore SIGNIFICANT_CONTRIBUTION_THRESHOLD then
        let ratio := (gameScore / SIGNIFICANT_CONTRIBUTION_THRESHOLD)%Q in
        let efficiencyPercentage := (40 + ratio * 40)%Q in
        (40 + (efficiencyPercentage - 40) * scaleFactor)%Q
      else
        Math_min 100
          (80 + (gameScore - SIGNIFICANT_CONTRIBUTION_THRESHOLD) * 5) in
    let efficiencyPercentage := inject_Z (Math_round efficiencyPercentage) in
    let efficiencyPercentage :=
      if (totalActions =? 1) && Qgtb gameScore 0
      then Math_min efficiencyPercentage 80
      else efficiencyPercentage in
    let efficiencyPercentage :=
      if Qeqb positiveScore 0 && Qgtb negativeScore 0
      then Math_max 0 (Math_min 30 (30 - negativeScore * 10))
      else efficiencyPercentage in
    {| gameScore := gameScore;
       maxPossibleScore := (positiveScore + negativeScore)%Q;
       efficiencyPercentage := Some efficiencyPercentage;
       hasActions := true |}.

(** The counters of a slot are occurrence counts, so never negative. *)
Definition countsNonNegative (stats : TimelineStats) : Prop :=
  0 <= points stats /\ 0 <= assists stats /\ 0 <= rebounds stats /\
  0 <= turnovers stats /\ 0 <= goodDecisions stats /\
  0 <= badDecisions stats.

End PerformanceTable.

(** ** components/GameClock.tsx *)

Module GameClock.

Inductive PlaybackMode : Type := live | fast | manual.

Record GameClockState : Type := mkGameClockState {
  currentQuarter : Z;
  timeRemaining : Z;
  clockRunning : bool;
  mode : PlaybackMode
}.

Definition QUARTER_TIME : Z := 600.

Definition initialState : GameClockState :=
  {| currentQuarter := 1; timeRemaining := QUARTER_TIME;
     clockRunning := false; mode := live |}.

Definition isManual (m : PlaybackMode) : bool :=
  match m with manual => true | _ => false end.

(** The callback of [setInterval]; [closureMode] is the [clockState.mode]
    of the render that installed the interval. *)
Definition tick (closureMode : PlaybackMode) (prevState : GameClockState)
  : GameClockState :=
  let decrement := match closureMode with live => 1 | _ => 5 end in
  if timeRemaining prevState <=? 0 then
    {| currentQuarter := currentQuarter prevState;
       timeRemaining := timeRemaining prevState;
       clockRunning := false;
       mode := mode prevState |}
  else
    {| currentQuarter := currentQuarter prevState;
       timeRemaining := Z.max 0 (timeRemaining prevState - decrement);
       clockRunning := clockRunning prevState;
       mode := mode prevState |}.

Definition startClock (prevState : GameClockState) : GameClockState :=
  {| currentQuarter := currentQuarter prevState;
     timeRemaining := timeRemaining prevState;
     clockRunning := true;
     mode := mode prevState |}.

Definition pauseClock (prevState : GameClockState) : GameClockState :=
  {| currentQuarter := currentQuarter prevState;
     timeRemaining := timeRemaining prevState;
     clockRunning := false;
     mode := mode prevState |}.

Definition nextQuarter (prevState : GameClockState) : GameClockState :=
  let nextQuarterNum :=
    if currentQuarter prevState >=? 4 then 4
    else currentQuarter prevState + 1 in
  {| currentQuarter := nextQuarterNum;
     timeRemaining := QUARTER_TIME;
     clockRunning := false;
     mode := mode prevState |}.

Definition changeMode (m : PlaybackMode) (prevState : GameClockState)
  : GameClockState :=
  {| currentQuarter := currentQuarter prevState;
     timeRemaining := timeRemaining prevState;
     clockRunning := false;
     mode := m |}.

Definition advanceManualTime (clockState : GameClockState)
  : GameClockState :=
  if isManual (mode clockState) then
    {| currentQuarter := currentQuarter clockState;
       timeRemaining := Z.max 0 (timeRemaining clockState - 30);
       clockRunning := clockRunning clockState;
       mode := mode clockState |}
  else clockState.

Definition canStart (s : GameClockState) : bool :=
  negb (clockRunning s) && (timeRemaining s >? 0).
Definition canPause (s : GameClockState) : bool := clockRunning s.
Definition canAdvance (s : GameClockState) : bool :=
  isManual (mode s) && (timeRemaining s >? 0).

(** What can happen to the clock: the interval fires, or a button is
    pressed. *)
Inductive Event : Type :=
  | Tick
  | ClickStart
  | ClickPause
  | ClickNextQuarter
  | ClickMode (m : PlaybackMode)
  | ClickAdvance.

(** The interval is installed exactly while the clock runs in a mode other
    than manual; a button acts only when rendered and not disabled. *)
Definition enabled (s : GameClockState) (e : Event) : bool :=
  match e with
  | Tick => clockRunning s && negb (isManual (mode s))
  | ClickStart => canStart s
  | ClickPause => canPause s
  | ClickNextQuarter => true
  | ClickMode _ => true
  | ClickAdvance => canAdvance s
  end.

Definition step (s : GameClockState) (e : Event) : GameClockState :=
  if enabled s e then
    match e with
    | Tick => tick (mode s) s
    | ClickStart => startClock s
    | ClickPause => pauseClock s
    | ClickNextQuarter => nextQuarter s
    | ClickMode m => changeMode m s
    | ClickAdvance => advanceManualTime s
    end
  else s.

Definition run (s : GameClockState) (es : list Event) : GameClockState :=
  fold_left step es s.

Inductive reachable : GameClockState -> Prop :=
  | reachable_init : reachable initialState
  | reachable_step s e : reachable s -> reachable (step s e).

End GameClock.

(** ** components/SAAInputModal.tsx *)

Module SAAInputModal.

Definition isDigit (c : ascii) : bool :=
  let n := nat_of_ascii c in (48 <=? n)%nat && (n <=? 57)%nat.

Definition digitValue (c : ascii) : Z := Z.of_nat (nat_of_ascii c) - 48.

Definition isWhiteSpace (c : ascii) : bool :=
  let n := nat_of_ascii c in
  (n =? 32)%nat || ((9 <=? n)%nat && (n <=? 13)%nat).

Fixpoint allDigits (s : string) : bool :=
  match s with
  | EmptyString => true
  | String c s' => isDigit c && allDigits s'
  end.

(** [/^\d+$/.test(value)] *)
Definition digitsOnly (s : string) : bool :=
  match s with
  | EmptyString => false
  | String _ _ => allDigits s
  end.

Definition isEmpty (s : string) : bool :=
  match s with EmptyString => true | String _ _ => false end.

Fixpoint trimStart (s : string) : string :=
  match s with
  | String c s' => if isWhiteSpace c then trimStart s' else s
  | EmptyString => EmptyString
  end.

Fixpoint parseDigits (acc : Z) (s : string) : Z :=
  match s with
  | String c s' =>
      if isDigit c then parseDigits (acc * 10 + digitValue c) s' else acc
  | EmptyString => acc
  end.

(** [parseInt(s, 10)]: leading white space, an optional sign, then the
    longest prefix of decimal digits.  The result is a [number]: the
    double nearest to the integer the digits denote, so that integer
    itself below [2^53], a rounded one beyond, and an infinity from
    [2^1024 - 2^970] on; [None] is NaN.  (ECMAScript lets an engine zero
    the digits after the 20th before it rounds; the engines in use round
    the exact value.) *)
Definition parseInt (s : string) : option Num :=
  let s := trimStart s in
  let '(sign, s) :=
    match s with
    | String "-"%char s' => (-1, s')
    | String "+"%char s' => (1, s')
    | _ => (1, s)
    end in
  match s with
  | String c _ =>
      if isDigit c
      then Double.integerValue (Double.ofZ (sign * parseDigits 0 s))
      else None
  | EmptyString => None
  end.

Record State : Type := mkState {
  saaValue : string;
  isInvalid : bool
}.

Definition initialState : State :=
  {| saaValue := EmptyString; isInvalid := false |}.

Definition handleChange (value : string) (st : State) : State :=
  if isEmpty value || digitsOnly value then
    {| saaValue := value; isInvalid := false |}
  else st.

(** [u] is the result of the call to [Math.random()]. *)
Definition generateRandomValue (u : Q) (st : State) : State :=
  let randomValue := Math_floor (u * inject_Z (160 - 35 + 1)) + 35 in
  {| saaValue := toString randomValue; isInvalid := false |}.

(** The level of a parsed reading; every comparison with NaN is false. *)
Definition levelOfNumber (numericValue : option Num) : SAALevel :=
  match numericValue with
  | Some (Integer v) => levelOf v
  | Some (Infinite false) => high
  | Some (Infinite true) => low
  | None => moderate
  end.

(** The new state and the arguments of the call to [onSubmit], if any. *)
Definition handleSubmit (st : State)
  : State * option (option Num * SAALevel) :=
  if isEmpty (saaValue st) then
    ({| saaValue := saaValue st; isInvalid := true |}, None)
  else
    let numericValue := parseInt (saaValue st) in
    let level := levelOfNumber numericValue in
    ({| saaValue := EmptyString; isInvalid := isInvalid st |},
     Some (numericValue, level)).

(** The inline message is rendered exactly when [isInvalid] holds. *)
Definition showsInlineMessage (st : State) : bool := isInvalid st.

Inductive Event : Type :=
  | Change (value : string)
  | Random (u : Q)
  | Submit.

Definition step (st : State) (e : Event) : State :=
  match e with
  | Change v => handleChange v st
  | Random u => generateRandomValue u st
  | Submit => fst (handleSubmit st)
  end.

(** A draw of [Math.random()] lies in [0, 1). *)
Definition validEvent (e : Event) : Prop :=
  match e with
  | Random u => (0 <= u)%Q /\ (u < 1)%Q
  | _ => True
  end.

Inductive reachable : State -> Prop :=
  | reachable_init : reachable initialState
  | reachable_step st e :
      reachable st -> validEvent e -> reachable (step st e).

End SAAInputModal.

(** Printing a reading and parsing it back gives the reading. *)
Definition toString_roundtrips (n : Z) : bool :=
  SAAInputModal.digitsOnly (toString n)
  && match SAAInputModal.parseInt (toString n) with
     | Some (Integer m) => m =? n
     | _ => false
     end.

(** ** components/SurveyModal.tsx

    The current version of the modal: [handleSubmit] calls [onSubmit] only,
    and the Cancel button calls [onClose]. *)

Module SurveyModal.

(** [keyof SurveyResponses] *)
Inductive Question : Type := askEmotionalArousal | askMomentum | askFlow.

Definition initialResponses : SurveyResponses :=
  {| emotionalArousal := 5; momentum := 5; flow := 5 |}.

Definition handleChange (question : Question) (v : Z)
    (prev : SurveyResponses) : SurveyResponses :=
  match question with
  | askEmotionalArousal =>
      {| emotionalArousal := v; momentum := momentum prev;
         flow := flow prev |}
  | askMomentum =>
      {| emotionalArousal := emotionalArousal prev; momentum := v;
         flow := flow prev |}
  | askFlow =>
      {| emotionalArousal := emotionalArousal prev;
         momentum := momentum prev; flow := v |}
  end.

(** The radio buttons offer the values 1 to 9. *)
Definition offered (v : Z) : Prop := 1 <= v <= 9.

End SurveyModal.

(** ** components/PlayerPanel.tsx (the timeline version) *)

Module PlayerPanel.

Record PlayerInfo : Type := mkPlayerInfo {
  name : string;
  age : Z;
  jerseyNumber : Z;
  status : PlayerStatus
}.

Record CompleteTimelineData : Type := mkCompleteTimelineData {
  timelinePoint : Z;
  stats : StatType -> Z;                (* [Record<StatType, number>] *)
  surveyResponses : option SurveyResponses;
  saaValue : option (option Num);       (* [null], or a number or NaN *)
  saaLevel : option SAALevel
}.

Record State : Type := mkState {
  playerInfo : PlayerInfo;
  statsByTimeline : gmap Z (StatType -> Z);
  isSurveyOpen : bool;
  isSAAInputOpen : bool;
  tempSurveyResponses : option SurveyResponses
}.

Definition zeroStats : StatType -> Z := fun _ => 0.

Definition initialState : State :=
  {| playerInfo :=
       {| name := "Player 7"; age := 22; jerseyNumber := 7;
          status := OnCourt |};
     statsByTimeline :=
       list_to_map
         [(1, zeroStats); (2, zeroStats); (3, zeroStats); (4, zeroStats);
          (5, zeroStats); (6, zeroStats); (7, zeroStats)];
     isSurveyOpen := false;
     isSAAInputOpen := false;
     tempSurveyResponses := None |}.

Definition withPlayerInfo (st : State) (i : PlayerInfo) : State :=
  {| playerInfo := i; statsByTimeline := statsByTimeline st;
     isSurveyOpen := isSurveyOpen st;
     isSAAInputOpen := isSAAInputOpen st;
     tempSurveyResponses := tempSurveyResponses st |}.

Definition withStats (st : State) (m : gmap Z (StatType -> Z)) : State :=
  {| playerInfo := playerInfo st; statsByTimeline := m;
     isSurveyOpen := isSurveyOpen st;
     isSAAInputOpen := isSAAInputOpen st;
     tempSurveyResponses := tempSurveyResponses st |}.

Definition setPlayerStatus (newStatus : PlayerStatus) (st : State) : State :=
  let prev := playerInfo st in
  withPlayerInfo st
    {| name := name prev; age := age prev;
       jerseyNumber := jerseyNumber prev; status := newStatus |}.

Definition toggleStatus (st : State) : State :=
  setPlayerStatus
    (match status (playerInfo st) with OnCourt => Bench | Bench => OnCourt end)
    st.

(** [timelineStats[statType] += 1] on a copy of the slot's counters.  For
    a pointer without a slot the source stores a NaN counter; the pointer
    stays within 1..7, so that branch leaves the map as it is here. *)
Definition logAction (currentTimelinePoint : Z) (statType : StatType)
    (st : State) : State :=
  let prev := statsByTimeline st in
  match prev !! currentTimelinePoint with
  | Some timelineStats =>
      withStats st
        (<[currentTimelinePoint :=
             fun t => if StatType_eq_dec t statType
                      then timelineStats t + 1 else timelineStats t]> prev)
  | None => st
  end.

Definition startSaveFlow (st : State) : State :=
  {| playerInfo := playerInfo st; statsByTimeline := statsByTimeline st;
     isSurveyOpen := true;
     isSAAInputOpen := isSAAInputOpen st;
     tempSurveyResponses := tempSurveyResponses st |}.

(** The synchronous part; the caller schedules the 100 ms timeout that
    runs [openSAAInput]. *)
Definition handleSurveySubmit (responses : SurveyResponses) (st : State)
  : State :=
  {| playerInfo := playerInfo st; statsByTimeline := statsByTimeline st;
     isSurveyOpen := false;
     isSAAInputOpen := isSAAInputOpen st;
     tempSurveyResponses := Some responses |}.

Definition openSAAInput (st : State) : State :=
  {| playerInfo := playerInfo st; statsByTimeline := statsByTimeline st;
     isSurveyOpen := isSurveyOpen st;
     isSAAInputOpen := true;
     tempSurveyResponses := tempSurveyResponses st |}.

(** The new state and the argument of [onTimelineDataPush]. *)
Definition handleSAASubmit (currentTimelinePoint : Z)
    (v : option Num) (lvl : SAALevel) (st : State)
  : State * CompleteTimelineData :=
  let currentTimelineData :=
    default zeroStats (statsByTimeline st !! currentTimelinePoint) in
  let completeData :=
    {| timelinePoint := currentTimelinePoint;
       stats := currentTimelineData;
       surveyResponses := tempSurveyResponses st;
       saaValue := Some v;
       saaLevel := Some lvl |} in
  ({| playerInfo := playerInfo st;
      statsByTimeline :=
        <[currentTimelinePoint := zeroStats]> (statsByTimeline st);
      isSurveyOpen := isSurveyOpen st;
      isSAAInputOpen := false;
      tempSurveyResponses := None |},
   completeData).

Definition handleCancel (st : State) : State :=
  {| playerInfo := playerInfo st; statsByTimeline := statsByTimeline st;
     isSurveyOpen := false;
     isSAAInputOpen := false;
     tempSurveyResponses := None |}.

Definition isSaveDisabled (currentTimelinePoint : Z) : bool :=
  currentTimelinePoint >=? 7.

End PlayerPanel.

(** ** components/EventBlockGenerator.tsx *)

Module EventBlockGenerator.

Record EventData : Type := mkEventData {
  timelinePoint : Z;
  quarter : Z;
  timestamp : option Z;        (* [None]: an undefined value let through *)
  actions : list StatType;
  surveyResponses : option SurveyResponses;
  saaValue : option (option Num);
  saaLevel : option SAALevel
}.

(** [Partial<EventData>]: every field may be missing. *)
Record PartialEventData : Type := mkPartialEventData {
  p_timelinePoint : option Z;
  p_quarter : option Z;
  p_timestamp : option Z;
  p_actions : option (list StatType);
  p_surveyResponses : option SurveyResponses;
  p_saaValue : option Z;
  p_saaLevel : option SAALevel
}.

Definition emptyPartial : PartialEventData :=
  {| p_timelinePoint := None; p_quarter := None; p_timestamp := None;
     p_actions := None; p_surveyResponses := None; p_saaValue := None;
     p_saaLevel := None |}.

Record State : Type := mkState {
  isSurveyOpen : bool;
  showSAA : bool;
  selectedDuration : Q;
  saaData : option SAAResult;
  isGenerating : bool;
  currentEventData : option PartialEventData
}.

Definition initialState : State :=
  {| isSurveyOpen := false; showSAA := false;
     selectedDuration := 25 # 10; saaData := None;
     isGenerating := false; currentEventData := None |}.

Definition possibleActions : list StatType :=
  [points; assists; rebounds; turnovers; goodDecisions; badDecisions].

Definition weights : list Q :=
  [3 # 10; 2 # 10; 2 # 10; 1 # 10; 1 # 10; 1 # 10]%Q.

(** The inner loop: the first tag whose cumulative weight reaches
    [randomValue]. *)
Fixpoint selectAction (randomValue cumulativeWeight : Q)
    (choices : list (StatType * Q)) : option StatType :=
  match choices with
  | [] => None
  | (action, w) :: rest =>
      let cumulativeWeight := (cumulativeWeight + w)%Q in
      if Qle_bool randomValue cumulativeWeight then Some action
      else selectAction randomValue cumulativeWeight rest
  end.

(** [rnd 0] is the draw for the number of actions, [rnd (i + 1)] the draw
    of the [i]-th selection. *)
Definition generateRandomActions (rnd : nat -> Q) : list StatType :=
  let numActions := Math_floor (rnd 0%nat * 3) + 3 in
  flat_map
    (fun i =>
       match selectAction (rnd (S i)) 0 (combine possibleActions weights) with
       | Some action => [action]
       | None => []
       end)
    (seq 0 (Z.to_nat numActions)).

(** The variant of the reading kept inside this component. *)
Definition calculateSAAValue (responses : SurveyResponses) (u : Q)
  : SAAResult :=
  let baseValue := 30%Q in
  let arousalContribution := (inject_Z (emotionalArousal responses) * 2)%Q in
  let momentumContribution :=
    (inject_Z (momentum responses) * (15 # 10))%Q in
  let flowContribution := (inject_Z (flow responses) * 3)%Q in
  let randomFactor := (u * 10 - 5)%Q in
  let calculatedValue :=
    Math_round (baseValue + arousalContribution + momentumContribution
                + flowContribution + randomFactor) in
  {| value := calculatedValue; level := levelOf calculatedValue |}.

(** [generateEventBlock], run to the point where the survey opens.
    Returns the new state and the tags passed one by one to [logAction],
    or [None] when the guard returns at once.  The source waits 500 ms
    after each [logAction] and 1 s before it opens the survey; the
    embedding runs the block as one step, so it covers the runs in which
    no other event and no timeout falls into these waits. *)
Definition generateEventBlock (timelinePoint currentQuarter now : Z)
    (rnd : nat -> Q) (st : State) : State * option (list StatType) :=
  if isGenerating st then (st, None)
  else
    let actions := generateRandomActions rnd in
    ({| isSurveyOpen := true;
        showSAA := showSAA st;
        selectedDuration := selectedDuration st;
        saaData := saaData st;
        isGenerating := true;
        currentEventData :=
          Some {| p_timelinePoint := Some timelinePoint;
                  p_quarter := Some currentQuarter;
                  p_timestamp := Some now;
                  p_actions := Some actions;
                  p_surveyResponses := None;
                  p_saaValue := None;
                  p_saaLevel := None |} |},
     Some actions).

(** What the 2 s timeout of [handleSurveySubmit] closes over. *)
Record Commit : Type := mkCommit {
  c_responses : SurveyResponses;
  c_saaResult : SAAResult;
  c_currentEventData : option PartialEventData;
  c_timelinePoint : Z;
  c_currentQuarter : Z;
  c_selectedDuration : Q
}.

(** The synchronous part of [handleSurveySubmit] and the closure of the
    timeout it sets. *)
Definition handleSurveySubmit (timelinePoint currentQuarter : Z)
    (responses : SurveyResponses) (u : Q) (st : State) : State * Commit :=
  let saaResult := calculateSAAValue responses u in
  let prev := default emptyPartial (currentEventData st) in
  ({| isSurveyOpen := isSurveyOpen st;
      showSAA := true;
      selectedDuration := selectedDuration st;
      saaData := Some saaResult;
      isGenerating := isGenerating st;
      currentEventData :=
        Some {| p_timelinePoint := p_timelinePoint prev;
                p_quarter := p_quarter prev;
                p_timestamp := p_timestamp prev;
                p_actions := p_actions prev;
                p_surveyResponses := Some responses;
                p_saaValue := Some (value saaResult);
                p_saaLevel := Some (level saaResult) |} |},
   {| c_responses := responses;
      c_saaResult := saaResult;
      c_currentEventData := currentEventData st;
      c_timelinePoint := timelinePoint;
      c_currentQuarter := currentQuarter;
      c_selectedDuration := selectedDuration st |}).

(** The body of the 2 s timeout: the seconds passed to [advanceGameTime]
    and the argument of [onEventGenerated], if it is called. *)
Definition commit (c : Commit) : Z * option EventData :=
  let timeAdvancement := Math_round (c_selectedDuration c * 60) in
  (timeAdvancement,
   match c_currentEventData c with
   | Some currentEventData =>
       Some {| timelinePoint := c_timelinePoint c;
               quarter := c_currentQuarter c;
               timestamp := p_timestamp currentEventData;
               actions := default [] (p_actions currentEventData);
               surveyResponses := Some (c_responses c);
               saaValue := Some (Some (Integer (value (c_saaResult c))));
               saaLevel := Some (level (c_saaResult c)) |}
   | None => None
   end).

(** The inner timeout: [setShowSAA(false); setIsGenerating(false)]. *)
Definition reset (st : State) : State :=
  {| isSurveyOpen := isSurveyOpen st;
     showSAA := false;
     selectedDuration := selectedDuration st;
     saaData := saaData st;
     isGenerating := false;
     currentEventData := currentEventData st |}.

(** [onClose] of the survey: [setIsSurveyOpen(false)]. *)
Definition closeSurvey (st : State) : State :=
  {| isSurveyOpen := false;
     showSAA := showSAA st;
     selectedDuration := selectedDuration st;
     saaData := saaData st;
     isGenerating := isGenerating st;
     currentEventData := currentEventData st |}.

Definition setSelectedDuration (d : Q) (st : State) : State :=
  {| isSurveyOpen := isSurveyOpen st;
     showSAA := showSAA st;
     selectedDuration := d;
     saaData := saaData st;
     isGenerating := isGenerating st;
     currentEventData := currentEventData st |}.

End EventBlockGenerator.

(** ** App.tsx (the version that mounts the panel and the generator) *)

Module App.

Record State : Type := mkState {
  currentQuarter : Z;
  timelineEvents : list EventBlockGenerator.EventData;
  currentTimelinePoint : Z
}.

Definition initialState : State :=
  {| currentQuarter := 1; timelineEvents := []; currentTimelinePoint := 1 |}.

Definition handleQuarterChange (q : Z) (st : State) : State :=
  {| currentQuarter := q;
     timelineEvents := timelineEvents st;
     currentTimelinePoint := currentTimelinePoint st |}.

Definition advanceTimelinePoint (st : State) : State :=
  let prev := currentTimelinePoint st in
  let nextPoint := Z.min (prev + 1) 7 in
  {| currentQuarter := currentQuarter st;
     timelineEvents := timelineEvents st;
     currentTimelinePoint := nextPoint |}.

Definition pushEvent (eventData : EventBlockGenerator.EventData)
    (st : State) : State :=
  {| currentQuarter := currentQuarter st;
     timelineEvents := timelineEvents st ++ [eventData];
     currentTimelinePoint := currentTimelinePoint st |}.

Definition handleEventGenerated (eventData : EventBlockGenerator.EventData)
    (st : State) : State :=
  advanceTimelinePoint (pushEvent eventData st).

(** [Object.entries(stats)] in the order the counters were created, each
    tag repeated [count] times. *)
Definition statsToActions (stats : StatType -> Z) : list StatType :=
  flat_map (fun type => repeat type (Z.to_nat (stats type)))
    [points; assists; rebounds; turnovers; goodDecisions; badDecisions].

(** The synchronous part; the caller schedules the 100 ms timeout that
    runs [advanceTimelinePoint]. *)
Definition handleCompleteTimelineDataPush
    (completeData : PlayerPanel.CompleteTimelineData) (now : Z)
    (st : State) : State :=
  let newEventData :=
    {| EventBlockGenerator.timelinePoint :=
         PlayerPanel.timelinePoint completeData;
       EventBlockGenerator.quarter := currentQuarter st;
       EventBlockGenerator.timestamp := Some now;
       EventBlockGenerator.actions :=
         statsToActions (PlayerPanel.stats completeData);
       EventBlockGenerator.surveyResponses :=
         PlayerPanel.surveyResponses completeData;
       EventBlockGenerator.saaValue := PlayerPanel.saaValue completeData;
       EventBlockGenerator.saaLevel := PlayerPanel.saaLevel completeData |}
  in
  pushEvent newEventData st.

End App.

(** ** The mounted page: the components, their pending timeouts and the
       user's events *)

Module Simulation.

Inductive Timer : Type :=
  | OpenSAAInput                        (* PlayerPanel, 100 ms *)
  | AdvanceTimelinePoint                (* App, 100 ms *)
  | GeneratorCommit (c : EventBlockGenerator.Commit)   (* 2 s *)
  | GeneratorReset.                     (* 2 s, set by the commit *)

Definition isGeneratorTimer (t : Timer) : bool :=
  match t with
  | GeneratorCommit _ | GeneratorReset => true
  | _ => false
  end.

Record State : Type := mkState {
  app : App.State;
  panel : PlayerPanel.State;
  panelSurvey : SurveyResponses;
  saaInput : SAAInputModal.State;
  generator : EventBlockGenerator.State;
  generatorSurvey : SurveyResponses;
  timers : list Timer;
  advancedSeconds : list Z      (* the calls of [advanceGameTime] *)
}.

Definition initialState : State :=
  {| app := App.initialState;
     panel := PlayerPanel.initialState;
     panelSurvey := SurveyModal.initialResponses;
     saaInput := SAAInputModal.initialState;
     generator := EventBlockGenerator.initialState;
     generatorSurvey := SurveyModal.initialResponses;
     timers := [];
     advancedSeconds := [] |}.

Definition withApp (s : State) (a : App.State) : State :=
  {| app := a; panel := panel s; panelSurvey := panelSurvey s;
     saaInput := saaInput s; generator := generator s;
     generatorSurvey := generatorSurvey s; timers := timers s;
     advancedSeconds := advancedSeconds s |}.

Definition withPanel (s : State) (p : PlayerPanel.State) : State :=
  {| app := app s; panel := p; panelSurvey := panelSurvey s;
     saaInput := saaInput s; generator := generator s;
     generatorSurvey := generatorSurvey s; timers := timers s;
     advancedSeconds := advancedSeconds s |}.

Definition withPanelSurvey (s : State) (r : SurveyResponses) : State :=
  {| app := app s; panel := panel s; panelSurvey := r;
     saaInput := saaInput s; generator := generator s;
     generatorSurvey := generatorSurvey s; timers := timers s;
     advancedSeconds := advancedSeconds s |}.

Definition withSaaInput (s : State) (m : SAAInputModal.State) : State :=
  {| app := app s; panel := panel s; panelSurvey := panelSurvey s;
     saaInput := m; generator := generator s;
     generatorSurvey := generatorSurvey s; timers := timers s;
     advancedSeconds := advancedSeconds s |}.

Definition withGenerator (s : State) (g : EventBlockGenerator.State)
  : State :=
  {| app := app s; panel := panel s; panelSurvey := panelSurvey s;
     saaInput := saaInput s; generator := g;
     generatorSurvey := generatorSurvey s; timers := timers s;
     advancedSeconds := advancedSeconds s |}.

Definition withGeneratorSurvey (s : State) (r : SurveyResponses) : State :=
  {| app := app s; panel := panel s; panelSurvey := panelSurvey s;
     saaInput := saaInput s; generator := generator s;
     generatorSurvey := r; timers := timers s;
     advancedSeconds := advancedSeconds s |}.

Definition withTimers (s : State) (ts : list Timer) : State :=
  {| app := app s; panel := panel s; panelSurvey := panelSurvey s;
     saaInput := saaInput s; generator := generator s;
     generatorSurvey := generatorSurvey s; timers := ts;
     advancedSeconds := advancedSeconds s |}.

Definition withAdvancedSeconds (s : State) (l : list Z) : State :=
  {| app := app s; panel := panel s; panelSurvey := panelSurvey s;
     saaInput := saaInput s; generator := generator s;
     generatorSurvey := generatorSurvey s; timers := timers s;
     advancedSeconds := l |}.

Definition setTimeout (t : Timer) (s : State) : State :=
  withTimers s (timers s ++ [t]).

Definition pointer (s : State) : Z := App.currentTimelinePoint (app s).
Definition history (s : State) : list EventBlockGenerator.EventData :=
  App.timelineEvents (app s).

Inductive Event : Type :=
  (* PlayerPanel and the two modals it mounts *)
  | PanelToggleStatus
  | PanelLogAction (statType : StatType)
  | PanelSave
  | PanelSurveyChange (q : SurveyModal.Question) (v : Z)
  | PanelSurveySubmit
  | PanelSurveyCancel
  | SAAChange (text : string)
  | SAARandom (u : Q)
  | SAASubmit (now : Z)
  | SAACancel
  (* EventBlockGenerator and the survey it mounts *)
  | GeneratorSelectDuration (d : Q)
  | GeneratorClick (now : Z) (rnd : nat -> Q)
  | GeneratorSurveyChange (q : SurveyModal.Question) (v : Z)
  | GeneratorSurveySubmit (u : Q)
  | GeneratorSurveyCancel
  (* GameClock reports a quarter *)
  | QuarterChange (q : Z)
  (* the [n]-th pending timeout fires *)
  | TimerFires (n : nat).

(** A control acts only while it is rendered and not disabled. *)
Definition enabled (s : State) (e : Event) : bool :=
  match e with
  | PanelToggleStatus | PanelLogAction _ => true
  | PanelSave => negb (PlayerPanel.isSaveDisabled (pointer s))
  | PanelSurveyChange _ _ | PanelSurveySubmit | PanelSurveyCancel =>
      PlayerPanel.isSurveyOpen (panel s)
  | SAAChange _ | SAARandom _ | SAASubmit _ | SAACancel =>
      PlayerPanel.isSAAInputOpen (panel s)
  | GeneratorSelectDuration _ | GeneratorClick _ _ =>
      negb (EventBlockGenerator.isGenerating (generator s))
  | GeneratorSurveyChange _ _ | GeneratorSurveySubmit _
  | GeneratorSurveyCancel =>
      EventBlockGenerator.isSurveyOpen (generator s)
  | QuarterChange _ => true
  | TimerFires n => bool_decide (n < length (timers s))%nat
  end.

Definition fire (t : Timer) (s : State) : State :=
  match t with
  | OpenSAAInput => withPanel s (PlayerPanel.openSAAInput (panel s))
  | AdvanceTimelinePoint => withApp s (App.advanceTimelinePoint (app s))
  | GeneratorCommit c =>
      let '(timeAdvancement, eventData) := EventBlockGenerator.commit c in
      let s := withAdvancedSeconds s (advancedSeconds s ++ [timeAdvancement]) in
      let s :=
        match eventData with
        | Some ev => withApp s (App.handleEventGenerated ev (app s))
        | None => s
        end in
      setTimeout GeneratorReset s
  | GeneratorReset =>
      withGenerator s (EventBlockGenerator.reset (generator s))
  end.

Definition handle (s : State) (e : Event) : State :=
  match e with
  | PanelToggleStatus => withPanel s (PlayerPanel.toggleStatus (panel s))
  | PanelLogAction a =>
      withPanel s (PlayerPanel.logAction (pointer s) a (panel s))
  | PanelSave => withPanel s (PlayerPanel.startSaveFlow (panel s))
  | PanelSurveyChange q v =>
      withPanelSurvey s (SurveyModal.handleChange q v (panelSurvey s))
  | PanelSurveySubmit =>
      setTimeout OpenSAAInput
        (withPanel s
           (PlayerPanel.handleSurveySubmit (panelSurvey s) (panel s)))
  | PanelSurveyCancel | SAACancel =>
      withPanel s (PlayerPanel.handleCancel (panel s))
  | SAAChange text =>
      withSaaInput s (SAAInputModal.handleChange text (saaInput s))
  | SAARandom u =>
      withSaaInput s (SAAInputModal.generateRandomValue u (saaInput s))
  | SAASubmit now =>
      let '(m, submitted) := SAAInputModal.handleSubmit (saaInput s) in
      let s := withSaaInput s m in
      match submitted with
      | Some (v, lvl) =>
          let '(p, completeData) :=
            PlayerPanel.handleSAASubmit (pointer s) v lvl (panel s) in
          setTimeout AdvanceTimelinePoint
            (withApp (withPanel s p)
               (App.handleCompleteTimelineDataPush completeData now (app s)))
      | None => s
      end
  | GeneratorSelectDuration d =>
      withGenerator s
        (EventBlockGenerator.setSelectedDuration d (generator s))
  | GeneratorClick now rnd =>
      let '(g, logged) :=
        EventBlockGenerator.generateEventBlock
          (pointer s) (App.currentQuarter (app s)) now rnd (generator s) in
      match logged with
      | Some actions =>
          let p :=
            fold_left (fun p a => PlayerPanel.logAction (pointer s) a p)
              actions (panel s) in
          withGenerator
            (withPanel s (PlayerPanel.setPlayerStatus Bench p)) g
      | None => s
      end
  | GeneratorSurveyChange q v =>
      withGeneratorSurvey s
        (SurveyModal.handleChange q v (generatorSurvey s))
  | GeneratorSurveySubmit u =>
      let '(g, c) :=
        EventBlockGenerator.handleSurveySubmit
          (pointer s) (App.currentQuarter (app s))
          (generatorSurvey s) u (generator s) in
      setTimeout (GeneratorCommit c) (withGenerator s g)
  | GeneratorSurveyCancel =>
      withGenerator s (EventBlockGenerator.closeSurvey (generator s))
  | QuarterChange q => withApp s (App.handleQuarterChange q (app s))
  | TimerFires n =>
      match timers s !! n with
      | Some t => fire t (withTimers s (delete n (timers s)))
      | None => s
      end
  end.

Definition step (s : State) (e : Event) : State :=
  if enabled s e then handle s e else s.

Definition run (s : State) (es : list Event) : State := fold_left step es s.

Inductive reachable : State -> Prop :=
  | reachable_init : reachable initialState
  | reachable_step s e : reachable s -> reachable (step s e).

(** The states of the orchestration, read off the flags. *)

(** The generator accepts a start trigger. *)
Definition generatorIdle (s : State) : bool :=
  negb (EventBlockGenerator.isGenerating (generator s)).

(** A generator cycle waits for the survey: the survey is open and no
    answer has been submitted yet. *)
Definition generatorAwaitingSurvey (s : State) : bool :=
  EventBlockGenerator.isGenerating (generator s)
  && EventBlockGenerator.isSurveyOpen (generator s)
  && forallb (fun t => negb (isGeneratorTimer t)) (timers s).

Definition panelAwaitingSurvey (s : State) : bool :=
  PlayerPanel.isSurveyOpen (panel s).
Definition panelAwaitingBiometric (s : State) : bool :=
  PlayerPanel.isSAAInputOpen (panel s).
Definition panelIdle (s : State) : bool :=
  negb (PlayerPanel.isSurveyOpen (panel s))
  && negb (PlayerPanel.isSAAInputOpen (panel s)).

(** One full cycle of the generator: start, answer the survey, dismiss
    it, let the two timeouts run. *)
Definition generatorCycle (now : Z) : list Event :=
  [GeneratorClick now (fun _ => 0%Q);
   GeneratorSurveySubmit 0;
   GeneratorSurveyCancel;
   TimerFires 0;
   TimerFires 0].

Definition generatorCycles (n : nat) : list Event :=
  flat_map generatorCycle (map Z.of_nat (seq 0 n)).

(** A cycle is marked as running, its survey is closed, and no timeout
    of the generator is pending. *)
Definition generatorStuck (s : State) : bool :=
  EventBlockGenerator.isGenerating (generator s)
  && negb (EventBlockGenerator.isSurveyOpen (generator s))
  && forallb (fun t => negb (isGeneratorTimer t)) (timers s).

End Simulation.

(** ** The specification's wording, for comparison with the code *)

Module Spec.

Definition occurrences (tag : StatType) (actions : list StatType) : Z :=
  Z.of_nat (count_occ StatType_eq_dec actions tag).

(** The weighted sum with the stated weights
    {scorePoint:+10, assist:+8, rebound:+6, turnover:-5,
     goodDecision:+7, badDecision:-6}. *)
Definition weightedSum (actions : list StatType) : Z :=
  10 * occurrences points actions
  + 8 * occurrences assists actions
  + 6 * occurrences rebounds actions
  - 5 * occurrences turnovers actions
  + 7 * occurrences goodDecisions actions
  - 6 * occurrences badDecisions actions.

(** [<50] low, [>80] high, else moderate. *)
Definition levelConsistent (r : SAAResult) : Prop :=
  (level r = low <-> value r < 50) /\
  (level r = high <-> value r > 80) /\
  (level r = moderate <-> 50 <= value r <= 80).

(** Each rating of a survey answer is an integer in 1..9. *)
Definition ratingsInRange (r : SurveyResponses) : Prop :=
  1 <= emotionalArousal r <= 9 /\ 1 <= momentum r <= 9 /\
  1 <= flow r <= 9.

(** A draw of [Math.random()]. *)
Definition unitDraw (u : Q) : Prop := (0 <= u)%Q /\ (u < 1)%Q.

(** The integer a text of decimal digits denotes, in positional
    notation. *)
Fixpoint decimalValue (s : string) : Z :=
  match s with
  | EmptyString => 0
  | String c s' =>
      (Z.of_nat (nat_of_ascii c) - 48) * 10 ^ Z.of_nat (String.length s')
      + decimalValue s'
  end.

(** A non-negative integer, or +Infinity. *)
Definition nonNegative (n : Num) : Prop :=
  match n with
  | Integer z => 0 <= z
  | Infinite negative => negative = false
  end.

End Spec.

(** ** components/GameClock.tsx: the derived display values *)

Module GameClockDisplay.

(** [s.padStart(targetLength, c)] for a pad of one character. *)
Definition padStart (targetLength : nat) (padChar : ascii) (s : string)
  : string :=
  String.append
    (string_of_list_ascii (repeat padChar (targetLength - String.length s)))
    s.

(** [Math.floor(clockState.timeRemaining / 60)] *)
Definition minutes (clockState : GameClock.GameClockState) : Z :=
  GameClock.timeRemaining clockState / 60.

(** [clockState.timeRemaining % 60]: the remainder has the sign of the
    dividend. *)
Definition seconds (clockState : GameClock.GameClockState) : Z :=
  Z.rem (GameClock.timeRemaining clockState) 60.

Definition formattedTime (clockState : GameClock.GameClockState) : string :=
  String.append (padStart 2 "0" (toString (minutes clockState)))
    (String ":" (padStart 2 "0" (toString (seconds clockState)))).

(** Reading a displayed [MM:SS] back as a number of seconds. *)
Definition readBack (display : string) : option Z :=
  match SAAInputModal.parseInt (substring 0 2 display),
        SAAInputModal.parseInt (substring 3 2 display) with
  | Some (Integer m), Some (Integer sec) => Some (m * 60 + sec)
  | _, _ => None
  end.

Definition displayRoundTrips (t : Z) : bool :=
  let st := {| GameClock.currentQuarter := 1; GameClock.timeRemaining := t;
               GameClock.clockRunning := false;
               GameClock.mode := GameClock.live |} in
  (String.length (formattedTime st) =? 5)%nat
  && match readBack (formattedTime st) with
     | Some t' => t' =? t
     | None => false
     end.

End GameClockDisplay.

(** The seconds one tick takes off in a mode. *)
Definition tickDecrement (m : GameClock.PlaybackMode) : Z :=
  match m with GameClock.live => 1 | _ => 5 end.

(** ** components/PerformanceTable.tsx: the rows of the table *)

Module PerformanceRows.

(** [Array.from({ length: 7 }, (_, index) => ...)] *)
Definition defaultRow (index : nat) : PerformanceTable.TimelineStats :=
  {| PerformanceTable.timePoint := Z.of_nat index + 1;
     PerformanceTable.quarter := 0;
     PerformanceTable.points := 0;
     PerformanceTable.assists := 0;
     PerformanceTable.rebounds := 0;
     PerformanceTable.turnovers := 0;
     PerformanceTable.goodDecisions := 0;
     PerformanceTable.badDecisions := 0;
     PerformanceTable.performance := 0 |}.

Definition initialRows : list PerformanceTable.TimelineStats :=
  map defaultRow (seq 0 7).

(** [event.actions.forEach(action => { actionCounts[action]++ })] *)
Definition countActions (actions : list StatType) : StatType -> Z :=
  fold_left
    (fun (actionCounts : StatType -> Z) action =>
       fun t => if StatType_eq_dec t action
                then actionCounts t + 1 else actionCounts t)
    actions (fun _ => 0).

Definition rowOf (event : EventBlockGenerator.EventData)
  : PerformanceTable.TimelineStats :=
  let actionCounts := countActions (EventBlockGenerator.actions event) in
  let performanceScore :=
    CalculationUtils.calculatePerformanceScore
      (EventBlockGenerator.actions event) in
  {| PerformanceTable.timePoint := EventBlockGenerator.timelinePoint event;
     PerformanceTable.quarter := EventBlockGenerator.quarter event;
     PerformanceTable.points := actionCounts points;
     PerformanceTable.assists := actionCounts assists;
     PerformanceTable.rebounds := actionCounts rebounds;
     PerformanceTable.turnovers := actionCounts turnovers;
     PerformanceTable.goodDecisions := actionCounts goodDecisions;
     PerformanceTable.badDecisions := actionCounts badDecisions;
     PerformanceTable.performance := performanceScore |}.

Definition inTable (event : EventBlockGenerator.EventData) : bool :=
  (EventBlockGenerator.timelinePoint event >=? 1)
  && (EventBlockGenerator.timelinePoint event <=? 7).

(** One pass of [timelineEvents.forEach]. *)
Definition place (timelineStats : list PerformanceTable.TimelineStats)
    (event : EventBlockGenerator.EventData)
  : list PerformanceTable.TimelineStats :=
  if inTable event then
    let statsIndex := Z.to_nat (EventBlockGenerator.timelinePoint event - 1) in
    <[statsIndex := rowOf event]> timelineStats
  else timelineStats.

Definition timelineStats (timelineEvents : list EventBlockGenerator.EventData)
  : list PerformanceTable.TimelineStats :=
  fold_left place timelineEvents initialRows.

Definition calculateTotal (stats : PerformanceTable.TimelineStats) : Z :=
  PerformanceTable.points stats + PerformanceTable.assists stats
  + PerformanceTable.rebounds stats + PerformanceTable.turnovers stats
  + PerformanceTable.goodDecisions stats
  + PerformanceTable.badDecisions stats.

(** [currentTimelinePoint || (timelineEvents.length > 0 ? last : 1)] *)
Definition activeTimelinePoint (currentTimelinePoint : Z)
    (timelineEvents : list EventBlockGenerator.EventData) : Z :=
  if currentTimelinePoint =? 0 then
    match last timelineEvents with
    | Some event => EventBlockGenerator.timelinePoint event
    | None => 1
    end
  else currentTimelinePoint.

(** The aggregate record of the TOTAL row. *)
Definition totalStats (rows : list PerformanceTable.TimelineStats)
  : PerformanceTable.TimelineStats :=
  let sum (field : PerformanceTable.TimelineStats -> Z) :=
    fold_left (fun sum point => sum + field point) rows 0 in
  {| PerformanceTable.timePoint := 0;
     PerformanceTable.quarter := 0;
     PerformanceTable.points := sum PerformanceTable.points;
     PerformanceTable.assists := sum PerformanceTable.assists;
     PerformanceTable.rebounds := sum PerformanceTable.rebounds;
     PerformanceTable.turnovers := sum PerformanceTable.turnovers;
     PerformanceTable.goodDecisions := sum PerformanceTable.goodDecisions;
     PerformanceTable.badDecisions := sum PerformanceTable.badDecisions;
     PerformanceTable.performance := 0 |}.

(** The earlier version of the table: positive actions over all actions. *)
Definition calculateEfficiency (stats : PerformanceTable.TimelineStats) : Z :=
  let positiveActions :=
    PerformanceTable.points stats + PerformanceTable.assists stats
    + PerformanceTable.rebounds stats + PerformanceTable.goodDecisions stats in
  let totalActions := calculateTotal stats in
  if totalActions =? 0 then 0
  else Math_round (inject_Z positiveActions / inject_Z totalActions * 100).

(** The last event recorded for a slot, if any. *)
Definition lastFor (slot : Z)
    (timelineEvents : list EventBlockGenerator.EventData)
  : option EventBlockGenerator.EventData :=
  last (filter (fun event => EventBlockGenerator.timelinePoint event = slot)
          timelineEvents).

End PerformanceRows.

(** ** components/CorrelationDashboard.tsx: the plotted series *)

Module CorrelationDashboard.

(** [event.surveyResponses || { emotionalArousal: 0, momentum: 0, flow: 0 }] *)
Definition surveyOf (event : EventBlockGenerator.EventData)
  : SurveyResponses :=
  default {| emotionalArousal := 0; momentum := 0; flow := 0 |}
    (EventBlockGenerator.surveyResponses event).

(** A reading that is truthy: present, not NaN and not 0. *)
Definition truthy (v : option (option Num)) : option Num :=
  match v with
  | Some (Some (Integer z)) => if z =? 0 then None else Some (Integer z)
  | Some (Some (Infinite negative)) => Some (Infinite negative)
  | _ => None
  end.

Definition izofOf (event : EventBlockGenerator.EventData) : option Q :=
  CalculationUtils.normalizeValue
    (inject_Z (emotionalArousal (surveyOf event))) 1 9 0 100.

Definition momentumOf (event : EventBlockGenerator.EventData) : option Q :=
  CalculationUtils.normalizeValue
    (inject_Z (momentum (surveyOf event))) 1 9 0 100.

Definition flowOf (event : EventBlockGenerator.EventData) : option Q :=
  CalculationUtils.normalizeValue
    (inject_Z (flow (surveyOf event))) 1 9 0 100.

(** [event.saaValue ? normalizeValue(event.saaValue, 30, 160, 0, 100) : 0];
    an infinite reading gives an infinite, so non-finite, result. *)
Definition saaOf (event : EventBlockGenerator.EventData) : option Q :=
  match truthy (EventBlockGenerator.saaValue event) with
  | Some (Integer z) =>
      CalculationUtils.normalizeValue (inject_Z z) 30 160 0 100
  | Some (Infinite _) => None
  | None => Some 0%Q
  end.

Definition originalMomentumOf (event : EventBlockGenerator.EventData) : Z :=
  momentum (surveyOf event).

Definition originalFlowOf (event : EventBlockGenerator.EventData) : Z :=
  flow (surveyOf event).

Record CorrelationDataPoint : Type := mkCorrelationDataPoint {
  timePoint : string;
  quarter : Z;
  izof : option Q;
  momentum : option Q;
  flow : option Q;
  saa : option Q;
  performanceScore : Z;
  originalIzof : Z;
  originalMomentum : Z;
  originalFlow : Z;
  originalSaa : Num
}.

Definition correlationPoint (event : EventBlockGenerator.EventData)
  : CorrelationDataPoint :=
  {| timePoint :=
       String "T" (toString (EventBlockGenerator.timelinePoint event));
     quarter := EventBlockGenerator.quarter event;
     izof := izofOf event;
     momentum := momentumOf event;
     flow := flowOf event;
     saa := saaOf event;
     performanceScore :=
       CalculationUtils.calculatePerformanceScore
         (EventBlockGenerator.actions event);
     originalIzof := emotionalArousal (surveyOf event);
     originalMomentum := originalMomentumOf event;
     originalFlow := originalFlowOf event;
     originalSaa :=
       default (Integer 0) (truthy (EventBlockGenerator.saaValue event)) |}.

Definition correlationData
    (timelineEvents : list EventBlockGenerator.EventData)
  : list CorrelationDataPoint :=
  map correlationPoint timelineEvents.

(** The four normalised series of a point lie in the chart's Y domain. *)
Definition withinChart (point : CorrelationDataPoint) : Prop :=
  forall series,
    In series [izof point; momentum point; flow point; saa point] ->
    exists y, series = Some y /\ (0 <= y)%Q /\ (y <= 100)%Q.

End CorrelationDashboard.

(** ** Runs of the page with the values the controls can produce *)

Module Flows.

Definition durationOffered (d : Q) : Prop :=
  In d [1; 15 # 10; 2; 25 # 10; 3; 35 # 10]%Q.

(** The parameters of an event are values the page can produce: a radio
    button of the survey, an option of the duration selector, a draw of
    [Math.random()], a quarter reported by the clock. *)
Definition validEvent (e : Simulation.Event) : Prop :=
  match e with
  | Simulation.PanelSurveyChange _ v
  | Simulation.GeneratorSurveyChange _ v => SurveyModal.offered v
  | Simulation.SAARandom u | Simulation.GeneratorSurveySubmit u => Spec.unitDraw u
  | Simulation.GeneratorClick _ rnd => forall i, Spec.unitDraw (rnd i)
  | Simulation.GeneratorSelectDuration d => durationOffered d
  | Simulation.QuarterChange q => 1 <= q <= 4
  | _ => True
  end.

Inductive reachable : Simulation.State -> Prop :=
  | reachable_init : reachable Simulation.initialState
  | reachable_step s e :
      reachable s -> validEvent e -> reachable (Simulation.step s e).

(** What every record of the history satisfies on such a run. *)
Definition recordComplete (r : EventBlockGenerator.EventData) : Prop :=
  1 <= EventBlockGenerator.timelinePoint r <= 7
  /\ 1 <= EventBlockGenerator.quarter r <= 4
  /\ (forall a, EventBlockGenerator.surveyResponses r = Some a ->
                Spec.ratingsInRange a)
  /\ exists n,
       EventBlockGenerator.saaValue r = Some (Some n)
       /\ Spec.nonNegative n
       /\ EventBlockGenerator.saaLevel r
          = Some (SAAInputModal.levelOfNumber (Some n)).

Definition commitComplete (t : Simulation.Timer) : Prop :=
  match t with
  | Simulation.GeneratorCommit c =>
      1 <= EventBlockGenerator.c_timelinePoint c <= 7
      /\ 1 <= EventBlockGenerator.c_currentQuarter c <= 4
      /\ Spec.ratingsInRange (EventBlockGenerator.c_responses c)
      /\ 0 <= value (EventBlockGenerator.c_saaResult c)
      /\ level (EventBlockGenerator.c_saaResult c)
         = levelOf (value (EventBlockGenerator.c_saaResult c))
      /\ durationOffered (EventBlockGenerator.c_selectedDuration c)
  | _ => True
  end.

Definition secondsOffered (secs : Z) : Prop :=
  In secs [60; 90; 120; 150; 180; 210].

Definition entryClean (m : SAAInputModal.State) : Prop :=
  SAAInputModal.isEmpty (SAAInputModal.saaValue m)
  || SAAInputModal.digitsOnly (SAAInputModal.saaValue m) = true.

Record invariant (s : Simulation.State) : Prop := mkInvariant {
  inv_pointer : 1 <= Simulation.pointer s <= 7;
  inv_quarter : 1 <= App.currentQuarter (Simulation.app s) <= 4;
  inv_panelSurvey : Spec.ratingsInRange (Simulation.panelSurvey s);
  inv_generatorSurvey : Spec.ratingsInRange (Simulation.generatorSurvey s);
  inv_temp :
    forall a,
      PlayerPanel.tempSurveyResponses (Simulation.panel s) = Some a ->
      Spec.ratingsInRange a;
  inv_entry : entryClean (Simulation.saaInput s);
  inv_duration :
    durationOffered
      (EventBlockGenerator.selectedDuration (Simulation.generator s));
  inv_timers : Forall commitComplete (Simulation.timers s);
  inv_history : Forall recordComplete (Simulation.history s);
  inv_advanced : Forall secondsOffered (Simulation.advancedSeconds s)
}.

(** The save flow of the panel, from the Save button to the advance of
    the pointer, with [text] typed as the reading. *)
Definition panelSaveFlow (text : string) (now : Z) : list Simulation.Event :=
  [Simulation.PanelSave;
   Simulation.PanelSurveySubmit;
   Simulation.TimerFires 0;
   Simulation.SAAChange text;
   Simulation.SAASubmit now;
   Simulation.TimerFires 0].



(** A cycle of the generator with its two timeouts. *)
Definition generatorFlow (now : Z) (rnd : nat -> Q) (u : Q)
  : list Simulation.Event :=
  [Simulation.GeneratorClick now rnd;
   Simulation.GeneratorSurveySubmit u;
   Simulation.TimerFires 0;
   Simulation.TimerFires 0].

(** The counters of a slot, zero when the slot is missing. *)
Definition counters (s : Simulation.State) (slot : Z) : StatType -> Z :=
  default PlayerPanel.zeroStats
    (PlayerPanel.statsByTimeline (Simulation.panel s) !! slot).

(** The pending timeouts that will advance the pointer. *)
Fixpoint pendingAdvances (ts : list Simulation.Timer) : Z :=
  match ts with
  | [] => 0
  | Simulation.AdvanceTimelinePoint :: ts => 1 + pendingAdvances ts
  | _ :: ts => pendingAdvances ts
  end.

(** Every slot 1..7 has counters, no other slot has, and no counter is
    negative. *)
Definition slotsKept (m : gmap Z (StatType -> Z)) : Prop :=
  (forall slot, is_Some (m !! slot) <-> 1 <= slot <= 7)
  /\ (forall slot c t, m !! slot = Some c -> 0 <= c t).

End Flows.

(** Equality of action tags is decidable. *)
#[global] Instance StatType_eq_decision : EqDecision StatType :=
  StatType_eq_dec.

(** ** Decision procedures over the nine ratings *)

Module Checks.

Definition ratings : list Z := map Z.of_nat (seq 1 9).

Definition answers : list SurveyResponses :=
  flat_map
    (fun a => flat_map
       (fun m => map (fun f => {| emotionalArousal := a; momentum := m;
                                  flow := f |}) ratings)
       ratings)
    ratings.

Definition inOptimalZone (r : SurveyResponses) : bool :=
  (4 <=? emotionalArousal r) && (emotionalArousal r <=? 7)
  && (momentum r =? 9) && (flow r =? 9).

(** The psychological-state score of [r] is at least 31, at most 100, and
    100 exactly in the optimal zone. *)
Definition psychologicalStateChecked (r : SurveyResponses) : bool :=
  match CalculationUtils.calculatePsychologicalState r with
  | Some score =>
      Qle_bool 31 score && Qle_bool score 100
      && Bool.eqb (Qeq_bool score 100) (inOptimalZone r)
  | None => false
  end.

End Checks.

(** ** utils/calculationUtils.ts: [normalizeValue] in double arithmetic *)

Module InDoubles.

Definition normalizeValue (value fromMin fromMax toMin toMax : Double.double)
  : Double.double :=
  Double.add
    (Double.mul
       (Double.div (Double.sub value fromMin) (Double.sub fromMax fromMin))
       (Double.sub toMax toMin))
    toMin.

(** The ranges of the calls in the repository, as
    [(fromMin, fromMax, toMin, toMax)]: the survey series and the reading
    of the dashboard, and the two scores of [calculatePsychologicalState]. *)
Definition callSites : list (Z * Z * Z * Z) :=
  [(1, 9, 0, 100); (30, 160, 0, 100); (1, 9, 30, 100)].

(** A call with integer arguments. *)
Definition onIntegers (v fromMin fromMax toMin toMax : Z) : Double.double :=
  normalizeValue (Double.ofZ v) (Double.ofZ fromMin) (Double.ofZ fromMax)
    (Double.ofZ toMin) (Double.ofZ toMax).

(** To the target range and back. *)
Definition roundTrip (v fromMin fromMax toMin toMax : Z) : Double.double :=
  normalizeValue (onIntegers v fromMin fromMax toMin toMax)
    (Double.ofZ toMin) (Double.ofZ toMax)
    (Double.ofZ fromMin) (Double.ofZ fromMax).


End InDoubles.

(** ** Decision procedures over the call sites of [normalizeValue] *)

Module DoubleChecks.

(** The integers from [lo], [n] of them. *)
Definition range (lo : Z) (n : nat) : list Z :=
  map (fun k => lo + Z.of_nat k) (seq 0 n).

(** The inputs inside the source range of a call site. *)
Definition sourceRange (site : Z * Z * Z * Z) : list Z :=
  let '(fromMin, fromMax, _, _) := site in
  range fromMin (Z.to_nat (fromMax - fromMin + 1)).


(** The result for [v] is inside the target range, and an end point for
    an end point. *)
Definition within (site : Z * Z * Z * Z) (v : Z) : bool :=
  let '(fromMin, fromMax, toMin, toMax) := site in
  let out := InDoubles.onIntegers v fromMin fromMax toMin toMax in
  Double.leb (Double.ofZ toMin) out && Double.leb out (Double.ofZ toMax)
  && (if v =? fromMin then Double.identical out (Double.ofZ toMin) else true)
  && (if v =? fromMax then Double.identical out (Double.ofZ toMax) else true).

(** A rating comes back from the chart as itself. *)
Definition ratingReturns (toMin rating : Z) : bool :=
  Double.identical (InDoubles.roundTrip rating 1 9 toMin 100)
    (Double.ofZ rating).

(** The readings that come back one unit in the last place lower. *)
Definition losesOneUlp (reading : Z) : bool :=
  (reading =? 114) || (reading =? 116) || (reading =? 123)
  || (reading =? 125).

Definition readingReturns (reading : Z) : bool :=
  let back := InDoubles.roundTrip reading 30 160 0 100 in
  if losesOneUlp reading then
    match Double.toQ back with
    | Some q => Qeq_bool q (inject_Z reading - (1 # 2 ^ 46))
    | None => false
    end
  else Double.identical back (Double.ofZ reading).

End DoubleChecks.

(** * Properties *)

(** ** Arithmetic helpers *)

Lemma Qfloor_below (x : Q) (z : Z) : (x < inject_Z z)%Q -> Qfloor x < z.
Proof.
  intros H. rewrite Zlt_Qlt.
  apply Qle_lt_trans with (y := x); [apply Qfloor_le | exact H].
Qed.

Lemma Math_round_bounds (x : Q) (lo hi : Z) :
  (inject_Z lo <= x)%Q -> (x <= inject_Z hi)%Q -> lo <= Math_round x <= hi.
Proof.
  intros Hlo Hhi. unfold Math_round. split.
  - rewrite <- (Qfloor_Z lo). apply Qfloor_resp_le. lra.
  - assert (H : Qfloor (x + (1 # 2)) < hi + 1); [|lia].
    apply Qfloor_below. rewrite inject_Z_plus.
    change (inject_Z 1) with 1%Q. lra.
Qed.

Lemma Math_clamp_bounds (lo hi x : Q) :
  (lo <= hi)%Q ->
  (lo <= Math_max lo (Math_min hi x))%Q /\ (Math_max lo (Math_min hi x) <= hi)%Q.
Proof.
  intros H. unfold Math_max, Math_min. split.
  - apply Q.le_max_l.
  - apply Q.max_lub; [exact H | apply Q.le_min_l].
Qed.

Lemma levelOf_consistent (v : Z) :
  Spec.levelConsistent {| value := v; level := levelOf v |}.
Proof.
  unfold Spec.levelConsistent, levelOf; simpl.
  destruct (Z.ltb_spec v 50), (Z.gtb_spec v 80);
    repeat split; intros; try discriminate; try lia; try reflexivity.
Qed.

Lemma inject_Z_between (z lo hi : Z) :
  lo <= z <= hi -> (inject_Z lo <= inject_Z z)%Q /\ (inject_Z z <= inject_Z hi)%Q.
Proof. intros [H1 H2]. split; rewrite <- Zle_Qle; assumption. Qed.

Lemma Qltb_true (x y : Q) : Qltb x y = true <-> (x < y)%Q.
Proof.
  unfold Qltb. rewrite negb_true_iff. split.
  - intros H. apply Qnot_le_lt. intros Hle.
    apply Qle_bool_iff in Hle. congruence.
  - intros H. destruct (Qle_bool y x) eqn:E; [|reflexivity].
    apply Qle_bool_iff in E. lra.
Qed.

(** ** Integers as doubles *)

Lemma digits2_pos_bounds (m : positive) :
  2 ^ (Zpos (SpecFloat.digits2_pos m) - 1) <= Zpos m
  < 2 ^ Zpos (SpecFloat.digits2_pos m).
Proof.
  induction m as [m IH|m IH|]; cbn [SpecFloat.digits2_pos].
  - rewrite Pos2Z.inj_succ.
    replace (Z.succ (Z.pos (SpecFloat.digits2_pos m)) - 1)
      with (Z.succ (Z.pos (SpecFloat.digits2_pos m) - 1)) by lia.
    rewrite !Z.pow_succ_r by lia. lia.
  - rewrite Pos2Z.inj_succ.
    replace (Z.succ (Z.pos (SpecFloat.digits2_pos m)) - 1)
      with (Z.succ (Z.pos (SpecFloat.digits2_pos m) - 1)) by lia.
    rewrite !Z.pow_succ_r by lia. lia.
  - simpl. lia.
Qed.

Lemma iter_xO_spec (k m : positive) :
  Zpos (Pos.iter xO m k) = Zpos m * 2 ^ Zpos k
  /\ SpecFloat.digits2_pos (Pos.iter xO m k)
     = (SpecFloat.digits2_pos m + k)%positive.
Proof.
  induction k as [|k IH] using Pos.peano_ind.
  - simpl. split; lia.
  - rewrite Pos.iter_succ. destruct IH as [IHv IHd].
    cbn [SpecFloat.digits2_pos]. rewrite IHd. split; [|lia].
    rewrite Pos2Z.inj_xO, IHv, Pos2Z.inj_succ, Z.pow_succ_r by lia. lia.
Qed.

Lemma shr_zero (mrs : SpecFloat.shr_record) (e n : Z) :
  n = 0 -> SpecFloat.shr mrs e n = (mrs, e).
Proof. intros ->. reflexivity. Qed.

(** A mantissa of 53 bits with an exponent in range is not rounded. *)
Lemma round_aligned (s : bool) (m : positive) (e : Z) :
  Zpos (SpecFloat.digits2_pos m) = 53 -> -1074 <= e <= 971 ->
  SpecFloat.binary_round_aux Double.prec Double.emax s (Zpos m) e
    SpecFloat.loc_Exact
  = SpecFloat.S754_finite s m e.
Proof.
  intros Hd He. unfold SpecFloat.binary_round_aux, SpecFloat.shr_fexp.
  cbn [SpecFloat.Zdigits2 SpecFloat.shr_record_of_loc].
  rewrite shr_zero.
  2:{ unfold SpecFloat.fexp, SpecFloat.emin, Double.prec, Double.emax. lia. }
  cbn [SpecFloat.shr_m SpecFloat.loc_of_shr_record SpecFloat.round_nearest_even
       SpecFloat.Zdigits2 SpecFloat.shr_record_of_loc].
  rewrite shr_zero.
  2:{ unfold SpecFloat.fexp, SpecFloat.emin, Double.prec, Double.emax. lia. }
  cbn [SpecFloat.shr_m].
  destruct (Z.leb_spec e (Double.emax - Double.prec)) as [_|H]; [reflexivity|].
  unfold Double.prec, Double.emax in H. lia.
Qed.

(** An integer below [2^53] in absolute value is a double. *)
Lemma ofZ_exact (z : Z) :
  Z.abs z < 2 ^ 53 ->
  Double.integerValue (Double.ofZ z) = Some (Integer z).
Proof.
  intros Hz.
  assert (Hpos : forall (s : bool) (m : positive),
            Zpos m < 2 ^ 53 ->
            Double.integerValue
              (SpecFloat.binary_round Double.prec Double.emax s m 0)
            = Some (Integer (SpecFloat.cond_Zopp s (Zpos m)))).
  { intros s m Hm.
    pose proof (digits2_pos_bounds m) as [Hlo Hhi].
    assert (Hd : Zpos (SpecFloat.digits2_pos m) <= 53).
    { destruct (Z.le_gt_cases (Zpos (SpecFloat.digits2_pos m)) 53) as [H|H];
        [exact H|].
      assert (2 ^ 53 <= 2 ^ (Zpos (SpecFloat.digits2_pos m) - 1))
        by (apply Z.pow_le_mono_r; lia).
      lia. }
    unfold SpecFloat.binary_round, SpecFloat.shl_align.
    replace (SpecFloat.fexp Double.prec Double.emax
               (Zpos (SpecFloat.digits2_pos m) + 0))
      with (Zpos (SpecFloat.digits2_pos m) - 53)
      by (unfold SpecFloat.fexp, SpecFloat.emin, Double.prec, Double.emax; lia).
    destruct (Zpos (SpecFloat.digits2_pos m) - 53 - 0) as [|k|k] eqn:Ek;
      [|lia|].
    - rewrite round_aligned by lia.
      cbn [Double.integerValue]. rewrite Z.shiftl_0_r. reflexivity.
    - destruct (iter_xO_spec k m) as [Hv Hdig].
      rewrite round_aligned;
        [|rewrite Hdig, Pos2Z.inj_add; lia | lia].
      cbn [Double.integerValue]. do 3 f_equal.
      replace (Zpos (SpecFloat.digits2_pos m) - 53) with (- Zpos k) by lia.
      rewrite Z.shiftl_opp_r, Hv, Z.shiftr_div_pow2 by lia.
      apply Z.div_mul. lia. }
  unfold Double.ofZ, SpecFloat.binary_normalize.
  destruct z as [|m|m].
  - reflexivity.
  - apply (Hpos false m). lia.
  - apply (Hpos true m). lia.
Qed.

Lemma shr_1_nonneg (mrs : SpecFloat.shr_record) :
  0 <= SpecFloat.shr_m mrs -> 0 <= SpecFloat.shr_m (SpecFloat.shr_1 mrs).
Proof.
  destruct mrs as [m r s]. destruct m as [|[p|p|]|p]; simpl; lia.
Qed.

Lemma iter_shr_1_nonneg (n : positive) (mrs : SpecFloat.shr_record) :
  0 <= SpecFloat.shr_m mrs ->
  0 <= SpecFloat.shr_m (SpecFloat.iter_pos SpecFloat.shr_1 n mrs).
Proof.
  revert mrs.
  induction n as [n IH|n IH|]; intros mrs H; cbn [SpecFloat.iter_pos].
  - apply IH, IH, shr_1_nonneg, H.
  - apply IH, IH, H.
  - apply shr_1_nonneg, H.
Qed.

Lemma shr_fexp_nonneg (m e : Z) (l : SpecFloat.location) :
  0 <= m ->
  0 <= SpecFloat.shr_m
         (fst (SpecFloat.shr_fexp Double.prec Double.emax m e l)).
Proof.
  intros Hm. unfold SpecFloat.shr_fexp, SpecFloat.shr.
  assert (H0 : 0 <= SpecFloat.shr_m (SpecFloat.shr_record_of_loc m l))
    by (destruct l as [|[]]; exact Hm).
  destruct (SpecFloat.fexp _ _ _ - e); cbn [fst]; [exact H0 | | exact H0].
  apply iter_shr_1_nonneg, H0.
Qed.

(** Rounding keeps the sign and never yields NaN. *)
Lemma round_aux_sign (s : bool) (m e : Z) (l : SpecFloat.location) :
  0 <= m ->
  match SpecFloat.binary_round_aux Double.prec Double.emax s m e l with
  | SpecFloat.S754_zero s' | SpecFloat.S754_infinity s'
  | SpecFloat.S754_finite s' _ _ => s' = s
  | SpecFloat.S754_nan => False
  end.
Proof.
  intros Hm. unfold SpecFloat.binary_round_aux.
  pose proof (shr_fexp_nonneg m e l Hm) as H1.
  destruct (SpecFloat.shr_fexp Double.prec Double.emax m e l) as [mrs' e'].
  cbn [fst] in H1.
  assert (H2 : 0 <= SpecFloat.round_nearest_even (SpecFloat.shr_m mrs')
                      (SpecFloat.loc_of_shr_record mrs')).
  { unfold SpecFloat.round_nearest_even.
    destruct (SpecFloat.loc_of_shr_record mrs') as [|[]];
      [| destruct (Z.even _) | |]; lia. }
  pose proof (shr_fexp_nonneg _ e' SpecFloat.loc_Exact H2) as H3.
  destruct (SpecFloat.shr_fexp Double.prec Double.emax _ e' SpecFloat.loc_Exact)
    as [mrs'' e''].
  cbn [fst] in H3.
  destruct (SpecFloat.shr_m mrs'') as [|p|p]; [reflexivity | | lia].
  destruct (e'' <=? Double.emax - Double.prec); reflexivity.
Qed.

(** The double nearest to a non-negative integer is a non-negative
    integer or +Infinity. *)
Lemma ofZ_nonneg (z : Z) :
  0 <= z ->
  exists n, Double.integerValue (Double.ofZ z) = Some n /\ Spec.nonNegative n.
Proof.
  intros Hz. unfold Double.ofZ, SpecFloat.binary_normalize.
  destruct z as [|m|m];
    [exists (Integer 0); split; [reflexivity | simpl; lia] | | lia].
  unfold SpecFloat.binary_round.
  destruct (SpecFloat.shl_align m 0 _) as [mz ez].
  pose proof (round_aux_sign false (Zpos mz) ez SpecFloat.loc_Exact) as H.
  destruct (SpecFloat.binary_round_aux _ _ false (Zpos mz) ez SpecFloat.loc_Exact)
    as [s|s| |s m' e'].
  - eexists. split; [reflexivity | simpl; lia].
  - eexists. split; [reflexivity | simpl; apply H; lia].
  - exfalso. apply H. lia.
  - eexists. split; [reflexivity|]. rewrite H by lia. simpl.
    apply Z.shiftl_nonneg. lia.
Qed.

(** ** calculatePerformanceScore *)

Lemma fold_weights (actions : list StatType) (acc : Z) :
  fold_left (fun total action => total + CalculationUtils.weights action)
    actions acc
  = acc + Spec.weightedSum actions.
Proof.
  revert acc. induction actions as [|a actions IH]; intros acc.
  - unfold Spec.weightedSum, Spec.occurrences. simpl. lia.
  - simpl fold_left. rewrite IH.
    unfold Spec.weightedSum, Spec.occurrences.
    destruct a; simpl; lia.
Qed.

(** C2: for every sequence of action tags the performance score is
    [max(0, min(100, 50 + weighted sum))] with the stated weights; so it
    lies in [0,100], six turnovers give exactly 20, and
    [scorePoint, assist, rebound] gives exactly 74. *)
Theorem performance_score_clamped_weighted_sum (actions : list StatType) :
  CalculationUtils.calculatePerformanceScore actions
    = Z.max 0 (Z.min 100 (50 + Spec.weightedSum actions))
  /\ 0 <= CalculationUtils.calculatePerformanceScore actions <= 100
  /\ CalculationUtils.calculatePerformanceScore (repeat turnovers 6) = 20
  /\ CalculationUtils.calculatePerformanceScore [points; assists; rebounds]
     = 74.
Proof.
  unfold CalculationUtils.calculatePerformanceScore.
  repeat split; try reflexivity; try lia.
  rewrite fold_weights. f_equal. f_equal. lia.
Qed.

(** ** calculateSAAValue, both variants *)

Lemma utils_saa_range (r : SurveyResponses) (u : Q) :
  30 <= value (CalculationUtils.calculateSAAValue r u) <= 160.
Proof.
  unfold CalculationUtils.calculateSAAValue; simpl.
  apply Math_round_bounds;
    apply (Math_clamp_bounds 30 160); reflexivity || discriminate.
Qed.

Lemma generator_saa_range (r : SurveyResponses) (u : Q) :
  Spec.ratingsInRange r -> Spec.unitDraw u ->
  32 <= value (EventBlockGenerator.calculateSAAValue r u) <= 94.
Proof.
  intros (Ha & Hm & Hf) [Hu0 Hu1].
  apply inject_Z_between in Ha, Hm, Hf.
  destruct Ha as [Ha1 Ha2], Hm as [Hm1 Hm2], Hf as [Hf1 Hf2].
  change (inject_Z 1) with 1%Q in *. change (inject_Z 9) with 9%Q in *.
  unfold EventBlockGenerator.calculateSAAValue; simpl.
  unfold Math_round. split.
  - rewrite <- (Qfloor_Z 32). apply Qfloor_resp_le.
    change (inject_Z 32) with 32%Q. lra.
  - assert (H : Qfloor
                  (30 + inject_Z (emotionalArousal r) * 2
                   + inject_Z (momentum r) * (15 # 10)
                   + inject_Z (flow r) * 3 + (u * 10 - 5) + (1 # 2))%Q < 94);
      [|lia].
    apply Qfloor_below. change (inject_Z 94) with 94%Q. lra.
Qed.

(** C3: for ratings in 1..9 and every draw of the random term, both
    variants of the reading return a value in [30,160], and the level is
    low exactly below 50, high exactly above 80, moderate otherwise. *)
Theorem saa_value_in_range_and_level_consistent
    (r : SurveyResponses) (u : Q) :
  Spec.ratingsInRange r -> Spec.unitDraw u ->
  (30 <= value (CalculationUtils.calculateSAAValue r u) <= 160
   /\ Spec.levelConsistent (CalculationUtils.calculateSAAValue r u))
  /\
  (30 <= value (EventBlockGenerator.calculateSAAValue r u) <= 160
   /\ Spec.levelConsistent (EventBlockGenerator.calculateSAAValue r u)).
Proof.
  intros Hr Hu. split; split.
  - apply utils_saa_range.
  - apply levelOf_consistent.
  - pose proof (generator_saa_range r u Hr Hu). lia.
  - apply levelOf_consistent.
Qed.

Lemma saa_value_in_range_and_level_consistent_witness :
  let r := {| emotionalArousal := 8; momentum := 2; flow := 9 |} in
  (30 <= value (CalculationUtils.calculateSAAValue r (1 # 2)) <= 160
   /\ Spec.levelConsistent (CalculationUtils.calculateSAAValue r (1 # 2)))
  /\
  (30 <= value (EventBlockGenerator.calculateSAAValue r (1 # 2)) <= 160
   /\ Spec.levelConsistent (EventBlockGenerator.calculateSAAValue r (1 # 2))).
Proof.
  apply (saa_value_in_range_and_level_consistent
           {| emotionalArousal := 8; momentum := 2; flow := 9 |} (1 # 2)).
  - unfold Spec.ratingsInRange; simpl; lia.
  - split; [discriminate | reflexivity].
Defined.

(** ** normalizeValue and calculatePsychologicalState *)

Lemma normalizeValue_some (v fromMin fromMax toMin toMax : Q) :
  ~ (fromMax == fromMin)%Q ->
  CalculationUtils.normalizeValue v fromMin fromMax toMin toMax
  = Some ((v - fromMin) / (fromMax - fromMin) * (toMax - toMin) + toMin)%Q.
Proof.
  intros Hne. unfold CalculationUtils.normalizeValue, Qeqb.
  destruct (Qeq_bool (fromMax - fromMin) 0) eqn:E; [|reflexivity].
  apply Qeq_bool_iff in E. exfalso. apply Hne. lra.
Qed.

Section Rescale.

Variables fromMin fromMax toMin toMax : Q.
Hypothesis source_ordered : (fromMin < fromMax)%Q.
Hypothesis target_ordered : (toMin < toMax)%Q.

Let rescale (v : Q) : Q :=
  ((v - fromMin) / (fromMax - fromMin) * (toMax - toMin) + toMin)%Q.

Lemma rescale_below (v : Q) : (v < fromMin)%Q -> (rescale v < toMin)%Q.
Proof using source_ordered target_ordered.
  intros Hv. unfold rescale.
  assert (Hk : ((v - fromMin) / (fromMax - fromMin) < 0)%Q).
  { apply Qlt_shift_div_r; lra. }
  assert (Hm : ((v - fromMin) / (fromMax - fromMin) * (toMax - toMin)
                < 0 * (toMax - toMin))%Q).
  { apply Qmult_lt_compat_r; lra. }
  lra.
Qed.

Lemma rescale_above (v : Q) : (fromMax < v)%Q -> (toMax < rescale v)%Q.
Proof using source_ordered target_ordered.
  intros Hv. unfold rescale.
  assert (Hk : (1 < (v - fromMin) / (fromMax - fromMin))%Q).
  { apply Qlt_shift_div_l; lra. }
  assert (Hm : (1 * (toMax - toMin)
                < (v - fromMin) / (fromMax - fromMin) * (toMax - toMin))%Q).
  { apply Qmult_lt_compat_r; lra. }
  lra.
Qed.

End Rescale.

(** *** [normalizeValue] in double arithmetic *)

Lemma identical_eq (x y : Double.double) :
  Double.identical x y = true -> x = y.
Proof.
  destruct x as [s|s| |s m e], y as [s'|s'| |s' m' e']; simpl;
    try discriminate; try reflexivity.
  - intros H. apply Bool.eqb_prop in H. congruence.
  - intros H. apply Bool.eqb_prop in H. congruence.
  - rewrite !andb_true_iff. intros [[Hs Hm] He].
    apply Bool.eqb_prop in Hs. apply Pos.eqb_eq in Hm. apply Z.eqb_eq in He.
    congruence.
Qed.

Lemma range_covers (f : Z -> bool) (lo : Z) (n : nat) (v : Z) :
  forallb f (DoubleChecks.range lo n) = true ->
  lo <= v < lo + Z.of_nat n -> f v = true.
Proof.
  intros Hall Hv. rewrite forallb_forall in Hall. apply Hall.
  unfold DoubleChecks.range. apply in_map_iff.
  exists (Z.to_nat (v - lo)). split; [lia | apply in_seq; lia].
Qed.

Lemma sourceRange_covers (f : Z -> bool) (fromMin fromMax toMin toMax v : Z) :
  forallb f (DoubleChecks.sourceRange (fromMin, fromMax, toMin, toMax)) = true ->
  fromMin <= v <= fromMax -> f v = true.
Proof.
  intros Hall Hv. apply (range_covers f _ _ v Hall). lia.
Qed.





(** C10: the psychological-state score is a finite number in [0,100] for
    every survey answer, in particular for ratings in 1..9. *)
Theorem psychological_state_in_range (r : SurveyResponses) :
  exists score,
    CalculationUtils.calculatePsychologicalState r = Some score
    /\ (0 <= score)%Q /\ (score <= 100)%Q.
Proof.
  unfold CalculationUtils.calculatePsychologicalState.
  rewrite !normalizeValue_some by discriminate. simpl.
  eexists. split; [reflexivity|].
  apply (Math_clamp_bounds 0 100). discriminate.
Qed.

(** ** calculateHollingerScore *)

(** C6: the efficiency is [null] exactly when the slot's total action
    count (points + assists + rebounds + turnovers + goodDecisions +
    badDecisions) is zero; with at least one action it is a percentage. *)
Theorem efficiency_null_iff_no_actions (stats : PerformanceTable.TimelineStats) :
  let total :=
    PerformanceTable.points stats + PerformanceTable.assists stats
    + PerformanceTable.rebounds stats + PerformanceTable.turnovers stats
    + PerformanceTable.goodDecisions stats
    + PerformanceTable.badDecisions stats in
  (PerformanceTable.efficiencyPercentage
     (PerformanceTable.calculateHollingerScore stats) = None
   <-> total = 0)
  /\ (total <> 0 ->
      exists p,
        PerformanceTable.efficiencyPercentage
          (PerformanceTable.calculateHollingerScore stats) = Some p).
Proof.
  cbv zeta.
  unfold PerformanceTable.calculateHollingerScore.
  change (PerformanceTable.points stats + PerformanceTable.assists stats
          + PerformanceTable.rebounds stats + PerformanceTable.turnovers stats
          + PerformanceTable.goodDecisions stats
          + PerformanceTable.badDecisions stats)
    with (PerformanceTable.totalActions stats).
  destruct (Z.eqb_spec (PerformanceTable.totalActions stats) 0) as [E|E];
    cbn [PerformanceTable.efficiencyPercentage].
  - split; [split; [intros _; exact E | reflexivity] | intros H; contradiction].
  - split; [split; [discriminate | intros H; contradiction]|].
    intros _. eexists. reflexivity.
Qed.

Lemma efficiency_null_iff_no_actions_witness :
  exists p,
    PerformanceTable.efficiencyPercentage
      (PerformanceTable.calculateHollingerScore
         (PerformanceTable.mkTimelineStats 1 1 1 0 0 0 0 0 0)) = Some p.
Proof.
  apply (proj2 (efficiency_null_iff_no_actions
                  (PerformanceTable.mkTimelineStats 1 1 1 0 0 0 0 0 0))).
  simpl. lia.
Defined.




(** ** GameClock *)

Lemma clock_step_time_nonneg (s : GameClock.GameClockState) (e : GameClock.Event) :
  0 <= GameClock.timeRemaining s ->
  0 <= GameClock.timeRemaining (GameClock.step s e).
Proof.
  intros H. unfold GameClock.step.
  destruct (GameClock.enabled s e); [|exact H].
  destruct e; simpl.
  - unfold GameClock.tick.
    destruct (GameClock.timeRemaining s <=? 0); simpl; lia.
  - exact H.
  - exact H.
  - unfold GameClock.QUARTER_TIME. lia.
  - exact H.
  - unfold GameClock.advanceManualTime.
    destruct (GameClock.isManual (GameClock.mode s)); simpl; lia.
Qed.

Lemma clock_time_nonneg (s : GameClock.GameClockState) :
  GameClock.reachable s -> 0 <= GameClock.timeRemaining s.
Proof.
  induction 1 as [|s e _ IH].
  - simpl. unfold GameClock.QUARTER_TIME. lia.
  - apply clock_step_time_nonneg. exact IH.
Qed.

Lemma clock_run_reachable (s : GameClock.GameClockState)
    (es : list GameClock.Event) :
  GameClock.reachable s -> GameClock.reachable (GameClock.run s es).
Proof.
  revert s. induction es as [|e es IH]; intros s Hs; simpl.
  - exact Hs.
  - apply IH. apply GameClock.reachable_step. exact Hs.
Qed.

Lemma fast_tick_state (s : GameClock.GameClockState) :
  GameClock.clockRunning s = true ->
  GameClock.mode s = GameClock.fast ->
  0 < GameClock.timeRemaining s ->
  GameClock.step s GameClock.Tick
  = {| GameClock.currentQuarter := GameClock.currentQuarter s;
       GameClock.timeRemaining := GameClock.timeRemaining s - 5;
       GameClock.clockRunning := true;
       GameClock.mode := GameClock.fast |}
    \/ GameClock.timeRemaining s < 5
       /\ GameClock.timeRemaining (GameClock.step s GameClock.Tick) = 0.
Proof.
  intros Hrun Hmode Hpos.
  unfold GameClock.step, GameClock.enabled, GameClock.tick.
  rewrite Hrun, Hmode. simpl.
  destruct (Z.leb_spec (GameClock.timeRemaining s) 0) as [H|H]; [lia|].
  destruct (Z.le_gt_cases 5 (GameClock.timeRemaining s)) as [H5|H5].
  - left. rewrite Z.max_r by lia. reflexivity.
  - right. simpl. lia.
Qed.

(** While enough time remains, [n] ticks in fast mode take [5 * n]
    seconds off and leave the clock running in fast mode. *)
Lemma fast_ticks (n : nat) (s : GameClock.GameClockState) :
  GameClock.clockRunning s = true ->
  GameClock.mode s = GameClock.fast ->
  5 * Z.of_nat n <= GameClock.timeRemaining s ->
  let s' := GameClock.run s (repeat GameClock.Tick n) in
  GameClock.timeRemaining s' = GameClock.timeRemaining s - 5 * Z.of_nat n
  /\ GameClock.clockRunning s' = true
  /\ GameClock.mode s' = GameClock.fast.
Proof.
  revert s. induction n as [|n IH]; intros s Hrun Hmode Htime.
  - simpl. repeat split; [lia | assumption | assumption].
  - cbn [repeat GameClock.run fold_left].
    destruct (fast_tick_state s Hrun Hmode) as [Hstep|[Hlt _]]; [lia| |lia].
    rewrite Hstep.
    match goal with
    | |- context [fold_left GameClock.step _ ?t] =>
        specialize (IH t eq_refl eq_refl)
    end.
    cbn [GameClock.timeRemaining] in IH.
    unfold GameClock.run in IH.
    destruct IH as (Ht & Hr & Hm); [lia|].
    cbv zeta. rewrite Ht. repeat split; [lia | assumption | assumption].
Qed.

(** C8: while the clock runs in fast mode every tick takes 5 seconds off
    the remaining time, clamped at 0; five ticks from 600 seconds leave
    575; and the remaining time is negative in no reachable clock state. *)
Theorem fast_clock_ticks_by_five :
  (forall s,
     GameClock.reachable s ->
     GameClock.clockRunning s = true ->
     GameClock.mode s = GameClock.fast ->
     GameClock.timeRemaining (GameClock.step s GameClock.Tick)
     = Z.max 0 (GameClock.timeRemaining s - 5))
  /\
  (forall s,
     GameClock.timeRemaining s = 600 ->
     GameClock.clockRunning s = true ->
     GameClock.mode s = GameClock.fast ->
     GameClock.timeRemaining (GameClock.run s (repeat GameClock.Tick 5))
     = 575)
  /\
  (forall s, GameClock.reachable s -> 0 <= GameClock.timeRemaining s).
Proof.
  split; [|split].
  - intros s Hs Hrun Hmode.
    pose proof (clock_time_nonneg s Hs) as Hnn.
    unfold GameClock.step, GameClock.enabled, GameClock.tick.
    rewrite Hrun, Hmode. simpl.
    destruct (Z.leb_spec (GameClock.timeRemaining s) 0); simpl; lia.
  - intros s Htime Hrun Hmode.
    destruct (fast_ticks 5 s Hrun Hmode) as (Ht & _ & _); lia.
  - exact clock_time_nonneg.
Qed.

Lemma fast_clock_ticks_by_five_witness :
  let s0 :=
    GameClock.run GameClock.initialState
      [GameClock.ClickMode GameClock.fast; GameClock.ClickStart] in
  GameClock.timeRemaining (GameClock.step s0 GameClock.Tick) = 595
  /\ GameClock.timeRemaining (GameClock.run s0 (repeat GameClock.Tick 5))
     = 575
  /\ 0 <= GameClock.timeRemaining s0.
Proof.
  split; [|split].
  - apply (proj1 fast_clock_ticks_by_five).
    + apply clock_run_reachable, GameClock.reachable_init.
    + reflexivity.
    + reflexivity.
  - apply (proj1 (proj2 fast_clock_ticks_by_five)); reflexivity.
  - apply (proj2 (proj2 fast_clock_ticks_by_five)).
    apply clock_run_reachable, GameClock.reachable_init.
Defined.

(** ** SAAInputModal *)

Lemma parseInt_digit_head (c : ascii) (s : string) :
  SAAInputModal.isDigit c = true ->
  SAAInputModal.parseInt (String c s)
  = Double.integerValue
      (Double.ofZ (1 * SAAInputModal.parseDigits 0 (String c s))).
Proof.
  intros H.
  destruct c as [[] [] [] [] [] [] [] []];
    vm_compute in H; try discriminate H; reflexivity.
Qed.

Lemma digitValue_nonneg (c : ascii) :
  SAAInputModal.isDigit c = true -> 0 <= SAAInputModal.digitValue c.
Proof.
  unfold SAAInputModal.isDigit, SAAInputModal.digitValue.
  intros H. apply andb_true_iff in H. destruct H as [H _].
  apply Nat.leb_le in H. lia.
Qed.

Lemma parseDigits_nonneg (s : string) (acc : Z) :
  0 <= acc -> 0 <= SAAInputModal.parseDigits acc s.
Proof.
  revert acc. induction s as [|c s IH]; intros acc Hacc; simpl.
  - exact Hacc.
  - destruct (SAAInputModal.isDigit c) eqn:E; [|exact Hacc].
    apply IH. pose proof (digitValue_nonneg c E). lia.
Qed.

(** The accumulator loop computes the positional value of the digits. *)
Lemma parseDigits_decimalValue (s : string) (acc : Z) :
  SAAInputModal.allDigits s = true ->
  SAAInputModal.parseDigits acc s
  = acc * 10 ^ Z.of_nat (String.length s) + Spec.decimalValue s.
Proof.
  revert acc. induction s as [|c s IH]; intros acc Hall.
  - simpl. lia.
  - cbn [SAAInputModal.allDigits] in Hall.
    apply andb_true_iff in Hall. destruct Hall as [Hc Hs].
    cbn [SAAInputModal.parseDigits Spec.decimalValue String.length].
    rewrite Hc, (IH _ Hs). unfold SAAInputModal.digitValue.
    rewrite Nat2Z.inj_succ, Z.pow_succ_r by lia. ring.
Qed.

Lemma parseInt_digitsOnly (s : string) :
  SAAInputModal.digitsOnly s = true ->
  SAAInputModal.parseInt s
  = Double.integerValue (Double.ofZ (Spec.decimalValue s))
  /\ 0 <= Spec.decimalValue s.
Proof.
  destruct s as [|c s]; [discriminate|].
  unfold SAAInputModal.digitsOnly. intros Hall.
  pose proof Hall as Hc. cbn [SAAInputModal.allDigits] in Hc.
  apply andb_true_iff in Hc. destruct Hc as [Hc _].
  rewrite (parseInt_digit_head c s Hc).
  pose proof (parseDigits_decimalValue (String c s) 0 Hall) as Hv.
  pose proof (parseDigits_nonneg (String c s) 0 ltac:(lia)) as Hpos.
  rewrite Z.mul_1_l, Hv in *. rewrite Z.mul_0_l, Z.add_0_l in *.
  split; [reflexivity | exact Hpos].
Qed.

(** What [parseInt] makes of an entry of digits. *)
Lemma parseInt_entry (s : string) :
  SAAInputModal.digitsOnly s = true ->
  exists n,
    SAAInputModal.parseInt s = Some n
    /\ Double.integerValue (Double.ofZ (Spec.decimalValue s)) = Some n
    /\ Spec.nonNegative n
    /\ (Spec.decimalValue s < 2 ^ 53 -> n = Integer (Spec.decimalValue s)).
Proof.
  intros Hd. destruct (parseInt_digitsOnly s Hd) as [Hparse Hpos].
  destruct (ofZ_nonneg _ Hpos) as (n & Hn & Hnn).
  exists n. rewrite Hparse. split; [exact Hn|]. split; [exact Hn|].
  split; [exact Hnn|].
  intros Hsmall. rewrite ofZ_exact in Hn by lia. congruence.
Qed.

Lemma levelOfNumber_consistent (n : Num) (v : Z) :
  n = Integer v ->
  Spec.levelConsistent
    {| value := v; level := SAAInputModal.levelOfNumber (Some n) |}.
Proof. intros ->. apply levelOf_consistent. Qed.

Lemma toString_table (n : Z) :
  35 <= n <= 160 ->
  SAAInputModal.digitsOnly (toString n) = true
  /\ SAAInputModal.parseInt (toString n) = Some (Integer n).
Proof.
  intros Hn.
  assert (Hall : forallb (fun k => toString_roundtrips (35 + Z.of_nat k))
                   (seq 0 126) = true) by (vm_compute; reflexivity).
  rewrite forallb_forall in Hall.
  specialize (Hall (Z.to_nat (n - 35))).
  replace (35 + Z.of_nat (Z.to_nat (n - 35))) with n in Hall by lia.
  assert (Hin : In (Z.to_nat (n - 35)) (seq 0 126)) by (apply in_seq; lia).
  specialize (Hall Hin). unfold toString_roundtrips in Hall.
  apply andb_true_iff in Hall. destruct Hall as [Hd Hp]. split; [exact Hd|].
  destruct (SAAInputModal.parseInt (toString n)) as [[m|]|];
    try discriminate.
  apply Z.eqb_eq in Hp. congruence.
Qed.

Lemma randomValue_in_range (u : Q) :
  Spec.unitDraw u ->
  35 <= Math_floor (u * inject_Z (160 - 35 + 1)) + 35 <= 160.
Proof.
  intros [H0 H1]. unfold Math_floor.
  change (inject_Z (160 - 35 + 1)) with 126%Q.
  assert (Hlo : 0 <= Qfloor (u * 126)).
  { rewrite <- (Qfloor_Z 0). apply Qfloor_resp_le.
    change (inject_Z 0) with 0%Q. lra. }
  assert (Hhi : Qfloor (u * 126) < 126).
  { apply Qfloor_below. change (inject_Z 126) with 126%Q. lra. }
  lia.
Qed.

Lemma entry_is_empty_or_digits (st : SAAInputModal.State) :
  SAAInputModal.reachable st ->
  SAAInputModal.isEmpty (SAAInputModal.saaValue st)
  || SAAInputModal.digitsOnly (SAAInputModal.saaValue st) = true.
Proof.
  induction 1 as [|st e _ IH Hvalid].
  - reflexivity.
  - destruct e as [text|u|]; simpl.
    + unfold SAAInputModal.handleChange.
      destruct (SAAInputModal.isEmpty text || SAAInputModal.digitsOnly text)
        eqn:E; [exact E | exact IH].
    + apply orb_true_iff. right. apply toString_table.
      apply randomValue_in_range. exact Hvalid.
    + unfold SAAInputModal.handleSubmit.
      destruct (SAAInputModal.isEmpty (SAAInputModal.saaValue st)) eqn:E;
        simpl; [rewrite E|]; reflexivity.
Qed.

(** C4 as stated fails: the typed entry 5 is submitted, outside [35,160]. *)
Lemma biometric_capture_range_counterexample :
  ~ (forall st v lvl,
       SAAInputModal.reachable st ->
       snd (SAAInputModal.handleSubmit st) = Some (Some (Integer v), lvl) ->
       35 <= v <= 160).
Proof.
  intros H.
  specialize (H (SAAInputModal.step SAAInputModal.initialState
                   (SAAInputModal.Change "5")) 5 low).
  assert (Hr : 35 <= 5 <= 160); [|lia].
  apply H.
  - apply SAAInputModal.reachable_step;
      [apply SAAInputModal.reachable_init | exact I].
  - vm_compute. reflexivity.
Qed.

(** Submitting the empty entry reaches neither the panel nor the history. *)
Lemma empty_entry_submit_commits_nothing (s : Simulation.State) (now : Z) :
  SAAInputModal.saaValue (Simulation.saaInput s) = EmptyString ->
  Simulation.history (Simulation.step s (Simulation.SAASubmit now))
  = Simulation.history s
  /\ Simulation.panel (Simulation.step s (Simulation.SAASubmit now))
     = Simulation.panel s
  /\ Simulation.timers (Simulation.step s (Simulation.SAASubmit now))
     = Simulation.timers s.
Proof.
  intros Hempty. unfold Simulation.step.
  destruct (Simulation.enabled s (Simulation.SAASubmit now));
    [|repeat split; reflexivity].
  cbn [Simulation.handle]. unfold SAAInputModal.handleSubmit.
  rewrite Hempty. repeat split; reflexivity.
Qed.

(** C4, amended: the entry only ever holds the empty text or decimal
    digits (any other text is refused by the change handler, silently);
    submitting the empty entry shows the inline message and submits
    nothing, so nothing is committed.  A non-empty entry is submitted
    without a range check as what [parseInt] makes of its digits: the
    double nearest to their decimal value, which is a non-negative
    integer or +Infinity, and that decimal value itself when it is below
    [2^53]; the level follows the <50 / >80 thresholds.  A value from the
    Random button is in [35,160].  The entry 9007199254740993 is submitted
    as 9007199254740992, and a 1 followed by 309 zeros as +Infinity with
    level high. *)
Theorem biometric_capture_submission (st : SAAInputModal.State) :
  SAAInputModal.reachable st ->
  (SAAInputModal.isEmpty (SAAInputModal.saaValue st)
   || SAAInputModal.digitsOnly (SAAInputModal.saaValue st) = true)
  /\ (forall text,
        SAAInputModal.isEmpty text || SAAInputModal.digitsOnly text = false ->
        SAAInputModal.handleChange text st = st)
  /\ (SAAInputModal.saaValue st = EmptyString ->
      snd (SAAInputModal.handleSubmit st) = None
      /\ SAAInputModal.showsInlineMessage
           (fst (SAAInputModal.handleSubmit st)) = true
      /\ forall s now,
           Simulation.saaInput s = st ->
           Simulation.history (Simulation.step s (Simulation.SAASubmit now))
           = Simulation.history s
           /\ Simulation.panel (Simulation.step s (Simulation.SAASubmit now))
              = Simulation.panel s
           /\ Simulation.timers (Simulation.step s (Simulation.SAASubmit now))
              = Simulation.timers s)
  /\ (SAAInputModal.saaValue st <> EmptyString ->
      exists n,
        snd (SAAInputModal.handleSubmit st)
        = Some (Some n, SAAInputModal.levelOfNumber (Some n))
        /\ Double.integerValue
             (Double.ofZ (Spec.decimalValue (SAAInputModal.saaValue st)))
           = Some n
        /\ Spec.nonNegative n
        /\ (Spec.decimalValue (SAAInputModal.saaValue st) < 2 ^ 53 ->
            n = Integer (Spec.decimalValue (SAAInputModal.saaValue st)))
        /\ (forall v,
              n = Integer v ->
              Spec.levelConsistent
                {| value := v;
                   level := SAAInputModal.levelOfNumber (Some n) |}))
  /\ (forall u,
        Spec.unitDraw u ->
        exists v,
          snd (SAAInputModal.handleSubmit
                 (SAAInputModal.generateRandomValue u st))
          = Some (Some (Integer v), levelOf v)
          /\ 35 <= v <= 160)
  /\ snd (SAAInputModal.handleSubmit
            (SAAInputModal.handleChange "9007199254740993" st))
     = Some (Some (Integer 9007199254740992), high)
  /\ snd (SAAInputModal.handleSubmit
            (SAAInputModal.handleChange
               (String "1" (string_of_list_ascii (repeat "0"%char 309))) st))
     = Some (Some (Infinite false), high).
Proof.
  intros Hreach.
  pose proof (entry_is_empty_or_digits st Hreach) as Hinv.
  split; [exact Hinv|]. split; [|split; [|split; [|split; [|split]]]].
  - intros text Htext. unfold SAAInputModal.handleChange.
    rewrite Htext. reflexivity.
  - intros Hempty. split; [|split].
    + unfold SAAInputModal.handleSubmit. rewrite Hempty. reflexivity.
    + unfold SAAInputModal.handleSubmit. rewrite Hempty. reflexivity.
    + intros s now Hs. apply empty_entry_submit_commits_nothing.
      rewrite Hs. exact Hempty.
  - intros Hne. unfold SAAInputModal.handleSubmit.
    destruct (SAAInputModal.saaValue st) as [|c s] eqn:E; [contradiction|].
    cbn [SAAInputModal.isEmpty snd].
    cbn [SAAInputModal.isEmpty orb] in Hinv.
    destruct (parseInt_entry _ Hinv) as (n & Hparse & Hn & Hnn & Hexact).
    exists n. rewrite Hparse. split; [reflexivity|]. split; [exact Hn|].
    split; [exact Hnn|]. split; [exact Hexact|].
    intros v Hv. apply levelOfNumber_consistent. exact Hv.
  - intros u Hu.
    pose proof (randomValue_in_range u Hu) as Hrange.
    destruct (toString_table _ Hrange) as [Hd Hp].
    exists (Math_floor (u * inject_Z (160 - 35 + 1)) + 35).
    split; [|exact Hrange].
    unfold SAAInputModal.handleSubmit, SAAInputModal.generateRandomValue.
    cbn [SAAInputModal.saaValue].
    destruct (toString (Math_floor (u * inject_Z (160 - 35 + 1)) + 35))
      as [|c s] eqn:E; [discriminate Hd|].
    cbn [SAAInputModal.isEmpty snd]. rewrite Hp. reflexivity.
  - vm_compute. reflexivity.
  - vm_compute. reflexivity.
Qed.

Lemma biometric_capture_submission_witness :
  let st := SAAInputModal.step SAAInputModal.initialState
              (SAAInputModal.Change "120") in
  exists n,
    snd (SAAInputModal.handleSubmit st)
    = Some (Some n, SAAInputModal.levelOfNumber (Some n))
    /\ n = Integer 120.
Proof.
  destruct (biometric_capture_submission
              (SAAInputModal.step SAAInputModal.initialState
                 (SAAInputModal.Change "120")))
    as (_ & _ & _ & Hsubmit & _).
  - apply SAAInputModal.reachable_step;
      [apply SAAInputModal.reachable_init | exact I].
  - destruct Hsubmit as (n & Hn & _ & _ & Hexact & _); [discriminate|].
    exists n. split; [exact Hn|]. apply Hexact. vm_compute. reflexivity.
Defined.

(** ** The orchestration: pointer, history and cancel *)

Lemma pointer_step (s : Simulation.State) (e : Simulation.Event) :
  1 <= Simulation.pointer s <= 7 ->
  1 <= Simulation.pointer (Simulation.step s e) <= 7.
Proof.
  intros H. unfold Simulation.step.
  destruct (Simulation.enabled s e); [|exact H].
  destruct e; simpl; try exact H.
  - destruct (SAAInputModal.handleSubmit (Simulation.saaInput s))
      as [m [[v lvl]|]]; simpl; exact H.
  - unfold EventBlockGenerator.generateEventBlock.
    destruct (EventBlockGenerator.isGenerating (Simulation.generator s));
      simpl; exact H.
  - destruct (Simulation.timers s !! n) as [t|]; [|exact H].
    destruct t; simpl; unfold Simulation.pointer in *; simpl; try lia.
    unfold EventBlockGenerator.commit.
    destruct (EventBlockGenerator.c_currentEventData c); simpl; lia.
Qed.

(** The timeline pointer stays within 1..7. *)
Lemma pointer_within_timeline (s : Simulation.State) :
  Simulation.reachable s -> 1 <= Simulation.pointer s <= 7.
Proof.
  induction 1 as [|s e _ IH].
  - simpl. unfold Simulation.pointer. simpl. lia.
  - apply pointer_step. exact IH.
Qed.

(** C1: seven generator cycles fill the history with the points 1..7 and
    leave the pointer at 7 with the generator ready; the start trigger of
    the generator is not gated on the pointer, and one more cycle appends
    an eighth record, again for point 7. *)
Theorem generator_appends_eighth_record :
  let s7 := Simulation.run Simulation.initialState
              (Simulation.generatorCycles 7) in
  Simulation.pointer s7 = 7
  /\ length (Simulation.history s7) = 7%nat
  /\ Simulation.generatorIdle s7 = true
  /\ Simulation.timers s7 = []
  /\ Simulation.enabled s7 (Simulation.GeneratorClick 7 (fun _ => 0%Q)) = true
  /\ Simulation.enabled s7 Simulation.PanelSave = false
  /\ let s8 := Simulation.run s7 (Simulation.generatorCycle 7) in
     length (Simulation.history s8) = 8%nat
     /\ Simulation.pointer s8 = 7
     /\ map EventBlockGenerator.timelinePoint (Simulation.history s8)
        = [1; 2; 3; 4; 5; 6; 7; 7].
Proof. vm_compute. repeat split; reflexivity. Qed.

Lemma forallb_lookup {A} (f : A -> bool) (l : list A) (n : nat) (x : A) :
  forallb f l = true -> l !! n = Some x -> f x = true.
Proof.
  intros Hall Hx. rewrite forallb_forall in Hall. apply Hall.
  apply list_elem_of_In. eapply list_elem_of_lookup_2. exact Hx.
Qed.

Lemma forallb_delete {A} (f : A -> bool) (l : list A) (n : nat) :
  forallb f l = true -> forallb f (delete n l) = true.
Proof.
  revert n. induction l as [|x l IH]; intros n H; [destruct n; exact H|].
  simpl in H. apply andb_true_iff in H. destruct H as [Hx Hl].
  destruct n; simpl; [exact Hl|].
  rewrite Hx. simpl. apply IH. exact Hl.
Qed.

Lemma forallb_snoc {A} (f : A -> bool) (l : list A) (x : A) :
  forallb f l = true -> f x = true -> forallb f (l ++ [x]) = true.
Proof.
  intros Hl Hx. rewrite forallb_app. simpl. rewrite Hl, Hx. reflexivity.
Qed.

Lemma generatorStuck_inv (s : Simulation.State) :
  Simulation.generatorStuck s = true <->
  EventBlockGenerator.isGenerating (Simulation.generator s) = true
  /\ EventBlockGenerator.isSurveyOpen (Simulation.generator s) = false
  /\ forallb (fun t => negb (Simulation.isGeneratorTimer t))
       (Simulation.timers s) = true.
Proof.
  unfold Simulation.generatorStuck.
  rewrite !andb_true_iff, negb_true_iff. tauto.
Qed.

(** Once stuck, always stuck: no event clears [isGenerating]. *)
Lemma generatorStuck_step (s : Simulation.State) (e : Simulation.Event) :
  Simulation.generatorStuck s = true ->
  Simulation.generatorStuck (Simulation.step s e) = true.
Proof.
  intros Hs. pose proof Hs as Hs'.
  apply generatorStuck_inv in Hs'. destruct Hs' as (Hgen & Hclosed & Htimers).
  unfold Simulation.step.
  destruct (Simulation.enabled s e) eqn:Hen; [|exact Hs].
  destruct e; simpl in Hen; simpl;
    try (rewrite Hgen in Hen; discriminate Hen);
    try (rewrite Hclosed in Hen; discriminate Hen);
    try exact Hs.
  - apply generatorStuck_inv; simpl. repeat split; try assumption.
    apply forallb_snoc; [assumption | reflexivity].
  - destruct (SAAInputModal.handleSubmit (Simulation.saaInput s))
      as [m [[v lvl]|]]; [|exact Hs].
    apply generatorStuck_inv; simpl. repeat split; try assumption.
    apply forallb_snoc; [assumption | reflexivity].
  - destruct (Simulation.timers s !! n) as [t|] eqn:Ht; [|exact Hs].
    pose proof (forallb_lookup _ _ _ _ Htimers Ht) as Hnot.
    destruct t; try discriminate Hnot;
      apply generatorStuck_inv; simpl; repeat split; try assumption;
      apply forallb_delete; assumption.
Qed.

Lemma generatorStuck_run (es : list Simulation.Event) (s : Simulation.State) :
  Simulation.generatorStuck s = true ->
  Simulation.generatorStuck (Simulation.run s es) = true.
Proof.
  revert s. induction es as [|e es IH]; intros s Hs; simpl.
  - exact Hs.
  - apply IH. apply generatorStuck_step. exact Hs.
Qed.

(** In the save flow of the panel a cancel closes both modals and touches
    neither the history nor the pointer. *)
Lemma panel_cancel_returns_to_idle (s : Simulation.State) (e : Simulation.Event) :
  e = Simulation.PanelSurveyCancel \/ e = Simulation.SAACancel ->
  Simulation.enabled s e = true ->
  Simulation.panelIdle (Simulation.step s e) = true
  /\ Simulation.history (Simulation.step s e) = Simulation.history s
  /\ Simulation.pointer (Simulation.step s e) = Simulation.pointer s.
Proof.
  intros He Hen. unfold Simulation.step. rewrite Hen.
  destruct He as [-> | ->]; repeat split; reflexivity.
Qed.

(** C5, on the generator: cancelling its survey leaves the history as it
    is, but the cycle stays marked as running; whatever happens next, the
    generator never accepts a start trigger again. *)
Theorem generator_cancel_never_returns_to_idle (s : Simulation.State) :
  Simulation.generatorAwaitingSurvey s = true ->
  let s' := Simulation.step s Simulation.GeneratorSurveyCancel in
  Simulation.history s' = Simulation.history s
  /\ forall es,
       Simulation.generatorIdle (Simulation.run s' es) = false
       /\ forall now rnd,
            Simulation.step (Simulation.run s' es)
              (Simulation.GeneratorClick now rnd)
            = Simulation.run s' es.
Proof.
  intros Hwait. cbv zeta.
  unfold Simulation.generatorAwaitingSurvey in Hwait.
  rewrite !andb_true_iff in Hwait. destruct Hwait as [[Hgen Hopen] Htimers].
  assert (Hstuck : Simulation.generatorStuck
                     (Simulation.step s Simulation.GeneratorSurveyCancel)
                   = true).
  { unfold Simulation.step. simpl. rewrite Hopen.
    apply generatorStuck_inv. simpl. repeat split; assumption. }
  split.
  - unfold Simulation.step. simpl. rewrite Hopen. reflexivity.
  - intros es.
    pose proof (generatorStuck_run es _ Hstuck) as Hrun.
    set (t := Simulation.run
                (Simulation.step s Simulation.GeneratorSurveyCancel) es) in *.
    clearbody t.
    apply generatorStuck_inv in Hrun. destruct Hrun as (Hg & _ & _).
    split.
    + unfold Simulation.generatorIdle. rewrite Hg. reflexivity.
    + intros now rnd. unfold Simulation.step, Simulation.enabled.
      rewrite Hg. reflexivity.
Qed.

Lemma generator_cancel_never_returns_to_idle_witness :
  let s := Simulation.run Simulation.initialState
             [Simulation.GeneratorClick 0 (fun _ => 0%Q)] in
  let s' := Simulation.step s Simulation.GeneratorSurveyCancel in
  Simulation.history s' = Simulation.history s
  /\ forall es,
       Simulation.generatorIdle (Simulation.run s' es) = false
       /\ forall now rnd,
            Simulation.step (Simulation.run s' es)
              (Simulation.GeneratorClick now rnd)
            = Simulation.run s' es.
Proof.
  apply (generator_cancel_never_returns_to_idle
           (Simulation.run Simulation.initialState
              [Simulation.GeneratorClick 0 (fun _ => 0%Q)])).
  vm_compute. reflexivity.
Defined.

(** * Further properties of the code *)

(** ** GameClock: bounds, ticks, display *)

Lemma clock_step_bounds (s : GameClock.GameClockState) (e : GameClock.Event) :
  0 <= GameClock.timeRemaining s <= 600 /\ 1 <= GameClock.currentQuarter s <= 4 ->
  0 <= GameClock.timeRemaining (GameClock.step s e) <= 600
  /\ 1 <= GameClock.currentQuarter (GameClock.step s e) <= 4.
Proof.
  intros [Ht Hq]. unfold GameClock.step.
  destruct (GameClock.enabled s e); [|split; assumption].
  destruct e; simpl; try (split; assumption).
  - unfold GameClock.tick.
    destruct (GameClock.timeRemaining s <=? 0), (GameClock.mode s);
      simpl; lia.
  - unfold GameClock.QUARTER_TIME.
    destruct (Z.geb_spec (GameClock.currentQuarter s) 4); lia.
  - unfold GameClock.advanceManualTime.
    destruct (GameClock.isManual (GameClock.mode s)); simpl; lia.
Qed.

Lemma clock_bounds (s : GameClock.GameClockState) :
  GameClock.reachable s ->
  0 <= GameClock.timeRemaining s <= 600
  /\ 1 <= GameClock.currentQuarter s <= 4.
Proof.
  induction 1 as [|s e _ IH].
  - simpl. unfold GameClock.QUARTER_TIME. lia.
  - apply clock_step_bounds. exact IH.
Qed.

(** X1: in every reachable clock state the remaining time is between 0 and
    600 seconds and the quarter between 1 and 4. *)
Theorem clock_state_in_bounds (s : GameClock.GameClockState) :
  GameClock.reachable s ->
  0 <= GameClock.timeRemaining s <= 600
  /\ 1 <= GameClock.currentQuarter s <= 4.
Proof.
  induction 1 as [|s e _ [Ht Hq]].
  - cbn [GameClock.initialState GameClock.timeRemaining
         GameClock.currentQuarter].
    unfold GameClock.QUARTER_TIME. lia.
  - apply clock_step_bounds. split; [exact Ht | exact Hq].
Qed.

Lemma clock_state_in_bounds_witness :
  let s := GameClock.run GameClock.initialState
             [GameClock.ClickNextQuarter; GameClock.ClickMode GameClock.manual;
              GameClock.ClickAdvance] in
  0 <= GameClock.timeRemaining s <= 600
  /\ 1 <= GameClock.currentQuarter s <= 4.
Proof.
  apply clock_state_in_bounds.
  apply clock_run_reachable, GameClock.reachable_init.
Defined.

(** X2: only the Next Quarter button raises the remaining time or changes
    the quarter: every other event leaves the quarter as it is and the
    remaining time where it is or lower. *)
Theorem clock_time_only_restored_by_next_quarter
    (s : GameClock.GameClockState) (e : GameClock.Event) :
  e <> GameClock.ClickNextQuarter ->
  GameClock.timeRemaining (GameClock.step s e) <= GameClock.timeRemaining s
  /\ GameClock.currentQuarter (GameClock.step s e) = GameClock.currentQuarter s.
Proof.
  intros Hne. unfold GameClock.step.
  destruct (GameClock.enabled s e) eqn:Hen; [|split; [lia | reflexivity]].
  destruct e; simpl; try (split; [lia | reflexivity]).
  - unfold GameClock.tick.
    destruct (Z.leb_spec (GameClock.timeRemaining s) 0), (GameClock.mode s);
      simpl; split; try lia; reflexivity.
  - contradiction.
  - simpl in Hen. unfold GameClock.canAdvance in Hen.
    apply andb_true_iff in Hen. destruct Hen as [Hman Hpos].
    unfold GameClock.advanceManualTime. rewrite Hman. simpl.
    destruct (Z.gtb_spec (GameClock.timeRemaining s) 0); [|discriminate].
    split; [lia | reflexivity].
Qed.

Lemma clock_time_only_restored_by_next_quarter_witness :
  let s := GameClock.run GameClock.initialState
             [GameClock.ClickMode GameClock.manual] in
  GameClock.timeRemaining (GameClock.step s GameClock.ClickAdvance)
  <= GameClock.timeRemaining s
  /\ GameClock.currentQuarter (GameClock.step s GameClock.ClickAdvance)
     = GameClock.currentQuarter s.
Proof.
  apply clock_time_only_restored_by_next_quarter. discriminate.
Defined.

Lemma paused_ticks_do_nothing (n : nat) (s : GameClock.GameClockState) :
  GameClock.clockRunning s = false ->
  GameClock.run s (repeat GameClock.Tick n) = s.
Proof.
  intros Hp. induction n as [|n IH]; [reflexivity|].
  cbn [repeat GameClock.run fold_left].
  assert (Hs : GameClock.step s GameClock.Tick = s).
  { unfold GameClock.step, GameClock.enabled. rewrite Hp. reflexivity. }
  rewrite Hs. exact IH.
Qed.

Lemma running_ticks (n : nat) (s : GameClock.GameClockState) :
  GameClock.clockRunning s = true ->
  GameClock.isManual (GameClock.mode s) = false ->
  0 <= GameClock.timeRemaining s ->
  let d := tickDecrement (GameClock.mode s) in
  let s' := GameClock.run s (repeat GameClock.Tick n) in
  GameClock.timeRemaining s'
  = Z.max 0 (GameClock.timeRemaining s - d * Z.of_nat n)
  /\ GameClock.clockRunning s'
     = (d * Z.of_nat n <? GameClock.timeRemaining s + d)
  /\ GameClock.mode s' = GameClock.mode s
  /\ GameClock.currentQuarter s' = GameClock.currentQuarter s.
Proof.
  revert s. induction n as [|n IH]; intros s Hrun Hmode Htime; cbv zeta.
  - simpl. rewrite Hrun.
    assert (0 < tickDecrement (GameClock.mode s))
      by (destruct (GameClock.mode s); simpl; lia).
    repeat split; try lia.
    symmetry. apply Z.ltb_lt. lia.
  - cbn [repeat GameClock.run fold_left].
    assert (Hd : 0 < tickDecrement (GameClock.mode s))
      by (destruct (GameClock.mode s); simpl; lia).
    destruct (Z.leb_spec (GameClock.timeRemaining s) 0) as [Hz|Hpos].
    + assert (Hstep : GameClock.step s GameClock.Tick
                      = GameClock.pauseClock s).
      { unfold GameClock.step, GameClock.enabled, GameClock.tick.
        rewrite Hrun, Hmode. simpl.
        destruct (Z.leb_spec (GameClock.timeRemaining s) 0); [|lia].
        reflexivity. }
      rewrite Hstep.
      pose proof (paused_ticks_do_nothing n (GameClock.pauseClock s) eq_refl)
        as Hp.
      unfold GameClock.run in Hp. rewrite Hp.
      cbn [GameClock.pauseClock GameClock.timeRemaining GameClock.mode
           GameClock.clockRunning GameClock.currentQuarter].
      remember (tickDecrement (GameClock.mode s)) as d eqn:Heqd.
      assert (Hd' : d = 1 \/ d = 5)
        by (subst d; destruct (GameClock.mode s); simpl; auto).
      clear Heqd.
      repeat split; try (destruct Hd' as [-> | ->]; lia).
      symmetry. apply Z.ltb_ge. destruct Hd' as [-> | ->]; lia.
    + assert (Hstep : GameClock.step s GameClock.Tick
                      = {| GameClock.currentQuarter := GameClock.currentQuarter s;
                           GameClock.timeRemaining :=
                             Z.max 0 (GameClock.timeRemaining s
                                      - tickDecrement (GameClock.mode s));
                           GameClock.clockRunning := true;
                           GameClock.mode := GameClock.mode s |}).
      { unfold GameClock.step, GameClock.enabled, GameClock.tick.
        rewrite Hrun, Hmode. simpl.
        destruct (Z.leb_spec (GameClock.timeRemaining s) 0); [lia|].
        unfold tickDecrement.
        destruct (GameClock.mode s); reflexivity. }
      rewrite Hstep.
      match goal with
      | |- context [fold_left GameClock.step _ ?t] =>
          specialize (IH t eq_refl Hmode)
      end.
      cbn [GameClock.timeRemaining GameClock.mode GameClock.currentQuarter] in IH.
      unfold GameClock.run in IH.
      destruct IH as (Ht & Hr & Hm & Hq); [lia|].
      rewrite Ht, Hr, Hm, Hq.
      remember (tickDecrement (GameClock.mode s)) as d eqn:Heqd.
      assert (Hd' : d = 1 \/ d = 5)
        by (subst d; destruct (GameClock.mode s); simpl; auto).
      clear Heqd.
      repeat split; try (destruct Hd' as [-> | ->]; lia).
      destruct (Z.ltb_spec (d * Z.of_nat n)
                  (Z.max 0 (GameClock.timeRemaining s - d) + d));
        symmetry; [apply Z.ltb_lt | apply Z.ltb_ge];
        destruct Hd' as [-> | ->]; lia.
Qed.

(** X3: while the clock runs in live or fast mode, [n] ticks leave
    [max(0, t - d * n)] seconds, with [d] = 1 in live and 5 in fast mode;
    the clock is still running exactly while [d * n < t + d], that is, it
    pauses itself on the tick after the time has reached 0. *)
Theorem clock_ticks_clamped_then_pause
    (n : nat) (s : GameClock.GameClockState) :
  GameClock.reachable s ->
  GameClock.clockRunning s = true ->
  GameClock.mode s <> GameClock.manual ->
  let d := match GameClock.mode s with GameClock.live => 1 | _ => 5 end in
  let s' := GameClock.run s (repeat GameClock.Tick n) in
  GameClock.timeRemaining s'
  = Z.max 0 (GameClock.timeRemaining s - d * Z.of_nat n)
  /\ GameClock.clockRunning s'
     = (d * Z.of_nat n <? GameClock.timeRemaining s + d).
Proof.
  intros Hreach Hrun Hmode.
  pose proof (clock_time_nonneg s Hreach) as Hnn.
  assert (Hman : GameClock.isManual (GameClock.mode s) = false)
    by (destruct (GameClock.mode s); [reflexivity | reflexivity | contradiction]).
  destruct (running_ticks n s Hrun Hman Hnn) as (Ht & Hr & _).
  split; assumption.
Qed.

Lemma clock_ticks_clamped_then_pause_witness :
  let s := GameClock.run GameClock.initialState [GameClock.ClickStart] in
  GameClock.timeRemaining
    (GameClock.run s (repeat GameClock.Tick 601)) = 0
  /\ GameClock.clockRunning
       (GameClock.run s (repeat GameClock.Tick 601)) = false.
Proof.
  apply (clock_ticks_clamped_then_pause 601
           (GameClock.run GameClock.initialState [GameClock.ClickStart])).
  - apply clock_run_reachable, GameClock.reachable_init.
  - reflexivity.
  - discriminate.
Defined.

Lemma formattedTime_only_time (s : GameClock.GameClockState) :
  GameClockDisplay.formattedTime s
  = GameClockDisplay.formattedTime
      {| GameClock.currentQuarter := 1;
         GameClock.timeRemaining := GameClock.timeRemaining s;
         GameClock.clockRunning := false;
         GameClock.mode := GameClock.live |}.
Proof. destruct s. reflexivity. Qed.

(** X4: in every reachable clock state the displayed time has the five
    characters MM:SS, and reading the two numbers back gives the remaining
    seconds. *)
Theorem clock_display_round_trip (s : GameClock.GameClockState) :
  GameClock.reachable s ->
  String.length (GameClockDisplay.formattedTime s) = 5%nat
  /\ GameClockDisplay.readBack (GameClockDisplay.formattedTime s)
     = Some (GameClock.timeRemaining s).
Proof.
  intros Hreach.
  destruct (clock_bounds s Hreach) as [Ht _].
  assert (Hall : forallb (fun k => GameClockDisplay.displayRoundTrips
                                     (Z.of_nat k)) (seq 0 601) = true)
    by (vm_compute; reflexivity).
  rewrite forallb_forall in Hall.
  specialize (Hall (Z.to_nat (GameClock.timeRemaining s))).
  rewrite Z2Nat.id in Hall by lia.
  assert (Hin : In (Z.to_nat (GameClock.timeRemaining s)) (seq 0 601))
    by (apply in_seq; lia).
  specialize (Hall Hin).
  unfold GameClockDisplay.displayRoundTrips in Hall.
  rewrite <- formattedTime_only_time in Hall.
  apply andb_true_iff in Hall. destruct Hall as [Hlen Hback].
  split; [apply Nat.eqb_eq; exact Hlen|].
  destruct (GameClockDisplay.readBack (GameClockDisplay.formattedTime s));
    [|discriminate].
  apply Z.eqb_eq in Hback. congruence.
Qed.

Lemma clock_display_round_trip_witness :
  let s := GameClock.run GameClock.initialState
             [GameClock.ClickMode GameClock.manual; GameClock.ClickAdvance] in
  String.length (GameClockDisplay.formattedTime s) = 5%nat
  /\ GameClockDisplay.readBack (GameClockDisplay.formattedTime s)
     = Some (GameClock.timeRemaining s).
Proof.
  apply clock_display_round_trip.
  apply clock_run_reachable, GameClock.reachable_init.
Defined.

(** ** normalizeValue: range, end points, round trip *)

Lemma rescale_within (v fromMin fromMax toMin toMax : Q) :
  (fromMin < fromMax)%Q -> (toMin <= toMax)%Q ->
  (fromMin <= v)%Q -> (v <= fromMax)%Q ->
  (toMin <= (v - fromMin) / (fromMax - fromMin) * (toMax - toMin) + toMin)%Q
  /\ ((v - fromMin) / (fromMax - fromMin) * (toMax - toMin) + toMin
      <= toMax)%Q.
Proof.
  intros Hf Ht Hlo Hhi.
  assert (Hk0 : (0 <= (v - fromMin) / (fromMax - fromMin))%Q).
  { apply Qle_shift_div_l; lra. }
  assert (Hk1 : ((v - fromMin) / (fromMax - fromMin) <= 1)%Q).
  { apply Qle_shift_div_r; lra. }
  assert (Hm0 : (0 <= (v - fromMin) / (fromMax - fromMin) * (toMax - toMin))%Q).
  { apply Qmult_le_0_compat; lra. }
  assert (Hm1 : ((v - fromMin) / (fromMax - fromMin) * (toMax - toMin)
                 <= 1 * (toMax - toMin))%Q).
  { apply Qmult_le_compat_r; lra. }
  split; lra.
Qed.

Lemma normalizeValue_range (v fromMin fromMax toMin toMax : Q) :
  (fromMin < fromMax)%Q -> (toMin <= toMax)%Q ->
  (fromMin <= v)%Q -> (v <= fromMax)%Q ->
  exists out,
    CalculationUtils.normalizeValue v fromMin fromMax toMin toMax = Some out
    /\ (toMin <= out)%Q /\ (out <= toMax)%Q.
Proof.
  intros Hf Ht Hlo Hhi.
  rewrite normalizeValue_some by lra.
  eexists. split; [reflexivity|].
  apply rescale_within; assumption.
Qed.

Lemma within_checked (site : Z * Z * Z * Z) :
  In site InDoubles.callSites ->
  forallb (DoubleChecks.within site) (DoubleChecks.sourceRange site) = true.
Proof.
  intros Hsite.
  assert (Hall : forallb
                   (fun site => forallb (DoubleChecks.within site)
                                  (DoubleChecks.sourceRange site))
                   InDoubles.callSites = true) by (vm_compute; reflexivity).
  rewrite forallb_forall in Hall. apply Hall. exact Hsite.
Qed.

(** X5: in double arithmetic, at the call sites of the repository, an
    integer input inside the source range gives an output inside the
    target range, and an end point of the source range gives exactly the
    end point of the target range.  This is not so for every range: 9
    over 1..9 to 0.3..0.9 gives a double above 0.9. *)
Theorem normalizeValue_within_range :
  (forall fromMin fromMax toMin toMax v : Z,
     In (fromMin, fromMax, toMin, toMax) InDoubles.callSites ->
     fromMin <= v <= fromMax ->
     let out := InDoubles.onIntegers v fromMin fromMax toMin toMax in
     Double.leb (Double.ofZ toMin) out = true
     /\ Double.leb out (Double.ofZ toMax) = true
     /\ (v = fromMin -> out = Double.ofZ toMin)
     /\ (v = fromMax -> out = Double.ofZ toMax))
  /\ Double.ltb (Double.decimal 9 1)
       (InDoubles.normalizeValue (Double.ofZ 9) (Double.ofZ 1) (Double.ofZ 9)
          (Double.decimal 3 1) (Double.decimal 9 1))
     = true.
Proof.
  split; [|vm_compute; reflexivity].
  intros fromMin fromMax toMin toMax v Hsite Hv. cbv zeta.
  pose proof (sourceRange_covers _ _ _ _ _ v (within_checked _ Hsite) Hv)
    as Hc.
  unfold DoubleChecks.within in Hc.
  rewrite !andb_true_iff in Hc. destruct Hc as [[[Hlo Hhi] Hmin] Hmax].
  split; [exact Hlo|]. split; [exact Hhi|]. split.
  - intros ->. rewrite Z.eqb_refl in Hmin. apply identical_eq. exact Hmin.
  - intros ->. rewrite Z.eqb_refl in Hmax. apply identical_eq. exact Hmax.
Qed.

Lemma normalizeValue_within_range_witness :
  InDoubles.onIntegers 160 30 160 0 100 = Double.ofZ 100.
Proof.
  apply (proj1 normalizeValue_within_range 30 160 0 100 160).
  - right. left. reflexivity.
  - lia.
  - reflexivity.
Defined.

(** X6: exchanging the two ranges inverts [normalizeValue] only up to
    rounding.  At the ranges of the repository a rating 1..9 sent to the
    target range and back is the rating again, and so is a reading
    30..160, except 114, 116, 123 and 125, which come back one unit in
    the last place lower (114 as 113.99999999999999). *)
Theorem normalizeValue_inverse :
  (forall toMin rating : Z,
     toMin = 0 \/ toMin = 30 -> 1 <= rating <= 9 ->
     InDoubles.roundTrip rating 1 9 toMin 100 = Double.ofZ rating)
  /\ (forall reading : Z,
        30 <= reading <= 160 ->
        if DoubleChecks.losesOneUlp reading
        then exists back,
               Double.toQ (InDoubles.roundTrip reading 30 160 0 100)
               = Some back
               /\ (back == inject_Z reading - (1 # 2 ^ 46))%Q
        else InDoubles.roundTrip reading 30 160 0 100 = Double.ofZ reading).
Proof.
  split.
  - intros toMin rating HtoMin Hr. apply identical_eq.
    assert (Hall : forallb
                     (fun toMin => forallb (DoubleChecks.ratingReturns toMin)
                                     (DoubleChecks.range 1 9))
                     [0; 30] = true) by (vm_compute; reflexivity).
    rewrite forallb_forall in Hall.
    apply (range_covers (DoubleChecks.ratingReturns toMin) 1 9);
      [apply Hall; destruct HtoMin as [-> | ->]; cbn [In]; tauto | lia].
  - intros reading Hr.
    assert (Hall : forallb DoubleChecks.readingReturns
                     (DoubleChecks.range 30 131) = true)
      by (vm_compute; reflexivity).
    pose proof (range_covers _ 30 131 reading Hall ltac:(lia)) as Hc.
    unfold DoubleChecks.readingReturns in Hc.
    destruct (DoubleChecks.losesOneUlp reading).
    + destruct (Double.toQ (InDoubles.roundTrip reading 30 160 0 100))
        as [back|]; [|discriminate].
      exists back. split; [reflexivity|]. apply Qeq_bool_iff. exact Hc.
    + apply identical_eq. exact Hc.
Qed.

Lemma normalizeValue_inverse_witness :
  InDoubles.roundTrip 120 30 160 0 100 = Double.ofZ 120
  /\ exists back,
       Double.toQ (InDoubles.roundTrip 114 30 160 0 100) = Some back
       /\ (back == 114 - (1 # 2 ^ 46))%Q.
Proof.
  split.
  - apply (proj2 normalizeValue_inverse 120). lia.
  - apply (proj2 normalizeValue_inverse 114). lia.
Defined.

(** ** calculatePsychologicalState and calculateSAAValue on the ratings *)

Lemma rating_listed (z : Z) : 1 <= z <= 9 -> In z Checks.ratings.
Proof.
  intros H. unfold Checks.ratings. apply in_map_iff.
  exists (Z.to_nat z). split; [lia | apply in_seq; lia].
Qed.

Lemma answer_listed (r : SurveyResponses) :
  Spec.ratingsInRange r -> In r Checks.answers.
Proof.
  intros (Ha & Hm & Hf). destruct r as [a m f].
  cbn [emotionalArousal momentum flow] in Ha, Hm, Hf.
  unfold Checks.answers.
  apply in_flat_map. exists a. split; [apply rating_listed; exact Ha|].
  apply in_flat_map. exists m. split; [apply rating_listed; exact Hm|].
  apply in_map_iff. exists f. split; [reflexivity | apply rating_listed; exact Hf].
Qed.

(** X7: for ratings in 1..9 the psychological-state score is between 31
    and 100, so the final clamp never changes it, and it is 100 exactly
    when the arousal is in 4..7 and momentum and flow are both 9. *)
Theorem psychological_state_optimal_zone (r : SurveyResponses) :
  Spec.ratingsInRange r ->
  exists score,
    CalculationUtils.calculatePsychologicalState r = Some score
    /\ (31 <= score)%Q /\ (score <= 100)%Q
    /\ ((score == 100)%Q <->
        4 <= emotionalArousal r <= 7 /\ momentum r = 9 /\ flow r = 9).
Proof.
  intros Hr.
  assert (Hall : forallb Checks.psychologicalStateChecked Checks.answers = true)
    by (vm_compute; reflexivity).
  rewrite forallb_forall in Hall.
  specialize (Hall r (answer_listed r Hr)).
  unfold Checks.psychologicalStateChecked in Hall.
  destruct (CalculationUtils.calculatePsychologicalState r) as [score|];
    [|discriminate].
  exists score. split; [reflexivity|].
  rewrite !andb_true_iff in Hall. destruct Hall as [[Hlo Hhi] Hzone].
  apply Qle_bool_iff in Hlo, Hhi. split; [exact Hlo|]. split; [exact Hhi|].
  apply Bool.eqb_prop in Hzone. unfold Checks.inOptimalZone in Hzone.
  rewrite <- Qeq_bool_iff, Hzone, !andb_true_iff, !Z.leb_le, !Z.eqb_eq.
  tauto.
Qed.

Lemma psychological_state_optimal_zone_witness :
  exists score,
    CalculationUtils.calculatePsychologicalState
      {| emotionalArousal := 5; momentum := 9; flow := 9 |} = Some score
    /\ (score == 100)%Q.
Proof.
  destruct (psychological_state_optimal_zone
              {| emotionalArousal := 5; momentum := 9; flow := 9 |})
    as (score & Hs & _ & _ & Hiff).
  - unfold Spec.ratingsInRange; simpl; lia.
  - exists score. split; [exact Hs|]. apply Hiff. simpl. lia.
Defined.

(** X8: with ratings in 1..9 the reading computed by the utility never
    exceeds 86 U/mL: the upper clamp at 160 is never reached. *)
Theorem utils_saa_value_at_most_86 (r : SurveyResponses) (u : Q) :
  Spec.ratingsInRange r -> Spec.unitDraw u ->
  30 <= value (CalculationUtils.calculateSAAValue r u) <= 86.
Proof.
  intros (Ha & Hm & Hf) [Hu0 Hu1].
  apply inject_Z_between in Ha, Hm.
  destruct Ha as [Ha1 Ha2], Hm as [Hm1 Hm2].
  change (inject_Z 1) with 1%Q in *. change (inject_Z 9) with 9%Q in *.
  unfold CalculationUtils.calculateSAAValue.
  cbn [value].
  set (flowContribution :=
         if flow r <? 4 then inject_Z ((4 - flow r) * 3)
         else if flow r >? 7 then inject_Z ((flow r - 7) * 2)
         else inject_Z (- ((flow r - 4) * 2))).
  assert (Hflow : (flowContribution <= 9)%Q).
  { subst flowContribution. change 9%Q with (inject_Z 9).
    destruct (Z.ltb_spec (flow r) 4); [rewrite <- Zle_Qle; lia|].
    destruct (Z.gtb_spec (flow r) 7); rewrite <- Zle_Qle; lia. }
  set (arousal := (inject_Z (emotionalArousal r) * 3)%Q).
  set (factor := ((15 # 10) - inject_Z (momentum r) * (1 # 10))%Q).
  assert (Hprod : (arousal * factor <= 27 * factor)%Q).
  { apply Qmult_le_compat_r; subst arousal factor; lra. }
  assert (Hfactor : (factor <= 14 # 10)%Q) by (subst factor; lra).
  apply Math_round_bounds.
  - apply (Math_clamp_bounds 30 160). discriminate.
  - unfold Math_max, Math_min. change (inject_Z 86) with 86%Q.
    apply Q.max_lub; [discriminate|].
    eapply Qle_trans; [apply Q.le_min_r|]. lra.
Qed.

Lemma utils_saa_value_at_most_86_witness :
  30 <= value (CalculationUtils.calculateSAAValue
                 {| emotionalArousal := 9; momentum := 1; flow := 1 |}
                 (99 # 100)) <= 86.
Proof.
  apply utils_saa_value_at_most_86.
  - unfold Spec.ratingsInRange; simpl; lia.
  - split; [discriminate | reflexivity].
Defined.

(** ** Actions, counters and the performance score *)

Lemma fold_count (actions : list StatType) (acc : StatType -> Z) (t : StatType) :
  fold_left
    (fun (actionCounts : StatType -> Z) action =>
       fun t => if StatType_eq_dec t action
                then actionCounts t + 1 else actionCounts t)
    actions acc t
  = acc t + Spec.occurrences t actions.
Proof.
  revert acc. induction actions as [|a actions IH]; intros acc.
  - unfold Spec.occurrences. simpl. lia.
  - simpl fold_left. rewrite IH. unfold Spec.occurrences. simpl count_occ.
    destruct (StatType_eq_dec t a) as [E|E], (StatType_eq_dec a t) as [E'|E'];
      try congruence; lia.
Qed.

Lemma countActions_occurrences (actions : list StatType) (t : StatType) :
  PerformanceRows.countActions actions t = Spec.occurrences t actions.
Proof. unfold PerformanceRows.countActions. rewrite fold_count. lia. Qed.

Lemma occurrences_app (t : StatType) (l l' : list StatType) :
  Spec.occurrences t (l ++ l')
  = Spec.occurrences t l + Spec.occurrences t l'.
Proof. unfold Spec.occurrences. rewrite count_occ_app. lia. Qed.

Lemma occurrences_repeat (t a : StatType) (n : nat) :
  Spec.occurrences t (repeat a n)
  = if StatType_eq_dec a t then Z.of_nat n else 0.
Proof.
  unfold Spec.occurrences. induction n as [|n IH]; simpl.
  - destruct (StatType_eq_dec a t); reflexivity.
  - destruct (StatType_eq_dec a t); lia.
Qed.

(** X9: the action list that App builds from the panel's counters holds
    each tag as often as its counter says, so the table, counting them
    again, shows the counters the panel had. *)
Theorem statsToActions_round_trip (stats : StatType -> Z) (t : StatType) :
  (forall tag, 0 <= stats tag) ->
  PerformanceRows.countActions (App.statsToActions stats) t = stats t
  /\ Z.of_nat (length (App.statsToActions stats))
     = stats points + stats assists + stats rebounds + stats turnovers
       + stats goodDecisions + stats badDecisions.
Proof.
  intros Hnn. split.
  - rewrite countActions_occurrences.
    unfold App.statsToActions. cbn [flat_map].
    rewrite !occurrences_app, !occurrences_repeat.
    unfold Spec.occurrences. cbn [count_occ].
    pose proof (Hnn t).
    destruct t; simpl; lia.
  - unfold App.statsToActions. cbn [flat_map].
    rewrite !length_app, !repeat_length. cbn [length].
    pose proof (Hnn points). pose proof (Hnn assists).
    pose proof (Hnn rebounds). pose proof (Hnn turnovers).
    pose proof (Hnn goodDecisions). pose proof (Hnn badDecisions). lia.
Qed.

Lemma statsToActions_round_trip_witness :
  let stats := fun t => match t with points => 2 | turnovers => 1 | _ => 0 end in
  PerformanceRows.countActions (App.statsToActions stats) points = 2
  /\ Z.of_nat (length (App.statsToActions stats)) = 2 + 0 + 0 + 1 + 0 + 0.
Proof.
  apply (statsToActions_round_trip
           (fun t => match t with points => 2 | turnovers => 1 | _ => 0 end)).
  intros tag. destruct tag; lia.
Defined.

(** X10: the performance score does not depend on the order of the
    actions: two lists with the same tags in any order score the same. *)
Theorem performance_score_order_irrelevant (l l' : list StatType) :
  Permutation l l' ->
  CalculationUtils.calculatePerformanceScore l
  = CalculationUtils.calculatePerformanceScore l'.
Proof.
  intros Hperm. unfold CalculationUtils.calculatePerformanceScore.
  rewrite !fold_weights.
  assert (Hocc : forall t, Spec.occurrences t l = Spec.occurrences t l').
  { intros t. unfold Spec.occurrences. f_equal.
    apply Permutation_count_occ. exact Hperm. }
  unfold Spec.weightedSum. rewrite !Hocc. reflexivity.
Qed.

Lemma performance_score_order_irrelevant_witness :
  CalculationUtils.calculatePerformanceScore [turnovers; points; assists]
  = CalculationUtils.calculatePerformanceScore [points; assists; turnovers].
Proof.
  apply performance_score_order_irrelevant.
  apply Permutation_cons_append.
Defined.

(** ** Efficiency: the range of the badge *)

Lemma Qgtb_true (x y : Q) : Qgtb x y = true <-> (y < x)%Q.
Proof. unfold Qgtb. apply Qltb_true. Qed.

Lemma Qltb_false (x y : Q) : Qltb x y = false <-> (y <= x)%Q.
Proof.
  unfold Qltb. rewrite negb_false_iff. apply Qle_bool_iff.
Qed.

Lemma totalActions_nonneg (stats : PerformanceTable.TimelineStats) :
  PerformanceTable.countsNonNegative stats ->
  0 <= PerformanceTable.totalActions stats.
Proof.
  unfold PerformanceTable.countsNonNegative, PerformanceTable.totalActions.
  lia.
Qed.

(** X11: for counters that are counts, the efficiency, when it is not
    null, is a percentage between 0 and 100. *)
Theorem efficiency_is_a_percentage (stats : PerformanceTable.TimelineStats) (p : Q) :
  PerformanceTable.countsNonNegative stats ->
  PerformanceTable.efficiencyPercentage
    (PerformanceTable.calculateHollingerScore stats) = Some p ->
  (0 <= p)%Q /\ (p <= 100)%Q.
Proof.
  intros Hnn. unfold PerformanceTable.calculateHollingerScore.
  pose proof (totalActions_nonneg stats Hnn) as Htot.
  destruct (PerformanceTable.totalActions stats =? 0); [discriminate|].
  cbn [PerformanceTable.efficiencyPercentage].
  set (g := (PerformanceTable.positiveScore stats
             - PerformanceTable.negativeScore stats)%Q).
  set (scale := Math_min 1 (inject_Z (PerformanceTable.totalActions stats) / 8)).
  set (raw :=
         if Qle_bool g 0 then Math_max 0 (40 + g * 10)
         else if Qltb g PerformanceTable.SIGNIFICANT_CONTRIBUTION_THRESHOLD
              then (40 + (40 + g / PerformanceTable.SIGNIFICANT_CONTRIBUTION_THRESHOLD
                               * 40 - 40) * scale)%Q
              else Math_min 100
                     (80 + (g - PerformanceTable.SIGNIFICANT_CONTRIBUTION_THRESHOLD)
                           * 5)).
  assert (Hscale : (0 <= scale)%Q /\ (scale <= 1)%Q).
  { subst scale. unfold Math_min. split.
    - apply Q.min_glb; [discriminate|].
      apply Qle_shift_div_l; [reflexivity|].
      change (0 * 8)%Q with (inject_Z 0). rewrite <- Zle_Qle. exact Htot.
    - apply Q.le_min_l. }
  assert (Hraw : (0 <= raw)%Q /\ (raw <= 100)%Q).
  { subst raw. unfold PerformanceTable.SIGNIFICANT_CONTRIBUTION_THRESHOLD.
    destruct (Qle_bool g 0) eqn:Eg.
    - apply Qle_bool_iff in Eg. unfold Math_max. split.
      + apply Q.le_max_l.
      + apply Q.max_lub; lra.
    - assert (Hg : (0 < g)%Q).
      { apply Qnot_le_lt. intros Hle. apply Qle_bool_iff in Hle. congruence. }
      destruct (Qltb g 4) eqn:E4.
      + apply Qltb_true in E4.
        assert (Hk : (g / 4 * 4 == g)%Q) by (field; discriminate).
        remember (g / 4)%Q as k eqn:Heqk. clear Heqk.
        assert (Hx0 : (0 <= (40 + k * 40 - 40) * scale)%Q).
        { apply Qmult_le_0_compat; lra. }
        assert (Hx1 : ((40 + k * 40 - 40) * scale <= 40 * scale)%Q).
        { apply Qmult_le_compat_r; lra. }
        split; lra.
      + apply Qltb_false in E4. unfold Math_min. split.
        * apply Q.min_glb; lra.
        * apply Q.le_min_l. }
  assert (Hround : 0 <= Math_round raw <= 100).
  { apply Math_round_bounds; [change (inject_Z 0) with 0%Q
                             | change (inject_Z 100) with 100%Q]; tauto. }
  assert (Hq : (0 <= inject_Z (Math_round raw))%Q
               /\ (inject_Z (Math_round raw) <= 100)%Q).
  { change 0%Q with (inject_Z 0). change 100%Q with (inject_Z 100).
    rewrite <- !Zle_Qle. exact Hround. }
  intros Hp. injection Hp as <-.
  destruct (Qeqb (PerformanceTable.positiveScore stats) 0
            && Qgtb (PerformanceTable.negativeScore stats) 0).
  - unfold Math_max, Math_min. split.
    + apply Q.le_max_l.
    + apply Q.max_lub; [discriminate|].
      eapply Qle_trans; [apply Q.le_min_l | discriminate].
  - destruct ((PerformanceTable.totalActions stats =? 1) && Qgtb g 0).
    + unfold Math_min. split.
      * apply Q.min_glb; [tauto | discriminate].
      * eapply Qle_trans; [apply Q.le_min_r | discriminate].
    + exact Hq.
Qed.

Lemma efficiency_is_a_percentage_witness :
  exists p,
    PerformanceTable.efficiencyPercentage
      (PerformanceTable.calculateHollingerScore
         (PerformanceTable.mkTimelineStats 3 2 9 4 4 0 2 0 0)) = Some p
    /\ (0 <= p)%Q /\ (p <= 100)%Q.
Proof.
  eexists. split; [reflexivity|].
  apply (efficiency_is_a_percentage
           (PerformanceTable.mkTimelineStats 3 2 9 4 4 0 2 0 0)).
  - unfold PerformanceTable.countsNonNegative; simpl; lia.
  - reflexivity.
Defined.

(** X12: the earlier efficiency (positive actions over all actions) is 0
    for a slot without actions and otherwise a percentage between 0 and
    100; it is 100 when no turnover or bad decision was logged and 0 when
    only those were. *)
Theorem earlier_efficiency_is_a_percentage
    (stats : PerformanceTable.TimelineStats) :
  PerformanceTable.countsNonNegative stats ->
  0 <= PerformanceRows.calculateEfficiency stats <= 100
  /\ (PerformanceRows.calculateTotal stats = 0 ->
      PerformanceRows.calculateEfficiency stats = 0)
  /\ (0 < PerformanceRows.calculateTotal stats ->
      PerformanceTable.turnovers stats = 0 ->
      PerformanceTable.badDecisions stats = 0 ->
      PerformanceRows.calculateEfficiency stats = 100)
  /\ (PerformanceTable.points stats + PerformanceTable.assists stats
      + PerformanceTable.rebounds stats + PerformanceTable.goodDecisions stats
      = 0 ->
      PerformanceRows.calculateEfficiency stats = 0).
Proof.
  intros Hnn.
  unfold PerformanceTable.countsNonNegative in Hnn.
  destruct Hnn as (Hp & Ha & Hr & Ht & Hg & Hb).
  unfold PerformanceRows.calculateEfficiency, PerformanceRows.calculateTotal.
  set (pos := PerformanceTable.points stats + PerformanceTable.assists stats
              + PerformanceTable.rebounds stats
              + PerformanceTable.goodDecisions stats).
  set (tot := PerformanceTable.points stats + PerformanceTable.assists stats
              + PerformanceTable.rebounds stats + PerformanceTable.turnovers stats
              + PerformanceTable.goodDecisions stats
              + PerformanceTable.badDecisions stats).
  assert (Hpt : 0 <= pos <= tot) by (subst pos tot; lia).
  destruct (Z.eqb_spec tot 0) as [E|E].
  - repeat split; intros; lia.
  - assert (Htq : (0 < inject_Z tot)%Q).
    { change 0%Q with (inject_Z 0). rewrite <- Zlt_Qlt. lia. }
    assert (Hpq : (0 <= inject_Z pos)%Q /\ (inject_Z pos <= inject_Z tot)%Q).
    { change 0%Q with (inject_Z 0). rewrite <- !Zle_Qle. exact Hpt. }
    assert (Hk0 : (0 <= inject_Z pos / inject_Z tot)%Q).
    { apply Qle_shift_div_l; lra. }
    assert (Hk1 : (inject_Z pos / inject_Z tot <= 1)%Q).
    { apply Qle_shift_div_r; lra. }
    split; [|split; [|split]].
    + apply Math_round_bounds;
        [change (inject_Z 0) with 0%Q | change (inject_Z 100) with 100%Q]; lra.
    + intros H. contradiction.
    + intros _ Ht0 Hb0.
      assert (Heq : pos = tot) by (subst pos tot; lia).
      rewrite Heq.
      assert (H1 : (inject_Z tot / inject_Z tot * 100 == inject_Z 100)%Q).
      { change (inject_Z 100) with 100%Q. field. lra. }
      unfold Math_round. rewrite H1.
      change (inject_Z 100 + (1 # 2))%Q with (201 # 2)%Q. reflexivity.
    + intros Hpos0. subst pos. rewrite Hpos0.
      assert (H0 : (inject_Z 0 / inject_Z tot * 100 == 0)%Q).
      { change (inject_Z 0) with 0%Q. field. lra. }
      unfold Math_round. rewrite H0. reflexivity.
Qed.

Lemma earlier_efficiency_is_a_percentage_witness :
  0 <= PerformanceRows.calculateEfficiency
         (PerformanceTable.mkTimelineStats 1 1 2 0 0 1 0 0 0) <= 100.
Proof.
  apply (earlier_efficiency_is_a_percentage
           (PerformanceTable.mkTimelineStats 1 1 2 0 0 1 0 0 0)).
  unfold PerformanceTable.countsNonNegative; simpl; lia.
Defined.

(** ** generateRandomActions *)

Lemma selectAction_total (u : Q) :
  (u < 1)%Q ->
  exists action,
    EventBlockGenerator.selectAction u 0
      (combine EventBlockGenerator.possibleActions EventBlockGenerator.weights)
    = Some action.
Proof.
  intros Hu.
  cbn [EventBlockGenerator.selectAction combine
       EventBlockGenerator.possibleActions EventBlockGenerator.weights].
  repeat match goal with
         | |- context [Qle_bool u ?c] =>
             destruct (Qle_bool u c) eqn:?; [eexists; reflexivity|]
         end.
  exfalso.
  match goal with
  | H : Qle_bool u ?c = false |- _ =>
      assert (Hle : (u <= c)%Q) by lra;
      apply Qle_bool_iff in Hle; congruence
  end.
Qed.

Lemma length_flat_map_singletons {A B} (f : A -> list B) (l : list A) :
  (forall x, In x l -> length (f x) = 1%nat) ->
  length (flat_map f l) = length l.
Proof.
  induction l as [|x l IH]; intros H; [reflexivity|].
  cbn [flat_map]. rewrite length_app, H by (left; reflexivity).
  cbn [length]. rewrite IH; [reflexivity|].
  intros y Hy. apply H. right. exact Hy.
Qed.

(** X13: with draws of [Math.random()] in [0,1), every selection yields a
    tag and an event block has between 3 and 5 actions. *)
Theorem generated_actions_between_3_and_5 (rnd : nat -> Q) :
  (forall i, Spec.unitDraw (rnd i)) ->
  (3 <= length (EventBlockGenerator.generateRandomActions rnd) <= 5)%nat.
Proof.
  intros Hrnd. unfold EventBlockGenerator.generateRandomActions.
  rewrite length_flat_map_singletons.
  - rewrite length_seq. destruct (Hrnd 0%nat) as [H0 H1].
    unfold Math_floor.
    assert (Hlo : 0 <= Qfloor (rnd 0%nat * 3)).
    { rewrite <- (Qfloor_Z 0). apply Qfloor_resp_le.
      change (inject_Z 0) with 0%Q. lra. }
    assert (Hhi : Qfloor (rnd 0%nat * 3) < 3).
    { apply Qfloor_below. change (inject_Z 3) with 3%Q. lra. }
    lia.
  - intros i _. destruct (Hrnd (S i)) as [_ H1].
    destruct (selectAction_total (rnd (S i)) H1) as [a Ha].
    rewrite Ha. reflexivity.
Qed.

Lemma generated_actions_between_3_and_5_witness :
  (3 <= length (EventBlockGenerator.generateRandomActions
                  (fun i => 1 # Pos.of_nat (i + 2))) <= 5)%nat.
Proof.
  apply generated_actions_between_3_and_5.
  intros i. split.
  - discriminate.
  - unfold Qlt. simpl. lia.
Defined.

(** ** PerformanceTable: the rows *)

Lemma occurrences_total (actions : list StatType) :
  Spec.occurrences points actions + Spec.occurrences assists actions
  + Spec.occurrences rebounds actions + Spec.occurrences turnovers actions
  + Spec.occurrences goodDecisions actions
  + Spec.occurrences badDecisions actions
  = Z.of_nat (length actions).
Proof.
  unfold Spec.occurrences. induction actions as [|a actions IH]; [reflexivity|].
  destruct a; simpl count_occ; cbn [length]; lia.
Qed.

Lemma rowOf_counts (event : EventBlockGenerator.EventData) :
  PerformanceTable.countsNonNegative (PerformanceRows.rowOf event)
  /\ PerformanceRows.calculateTotal (PerformanceRows.rowOf event)
     = Z.of_nat (length (EventBlockGenerator.actions event)).
Proof.
  unfold PerformanceTable.countsNonNegative, PerformanceRows.calculateTotal,
    PerformanceRows.rowOf; simpl.
  rewrite !countActions_occurrences. split.
  - unfold Spec.occurrences. lia.
  - apply occurrences_total.
Qed.

Lemma place_length (rows : list PerformanceTable.TimelineStats)
    (event : EventBlockGenerator.EventData) :
  length (PerformanceRows.place rows event) = length rows.
Proof.
  unfold PerformanceRows.place.
  destruct (PerformanceRows.inTable event); [apply length_insert | reflexivity].
Qed.

Lemma timelineStats_length (evs : list EventBlockGenerator.EventData) :
  length (PerformanceRows.timelineStats evs) = 7%nat.
Proof.
  unfold PerformanceRows.timelineStats.
  induction evs as [|e evs IH] using rev_ind; [reflexivity|].
  rewrite fold_left_app. simpl. rewrite place_length. exact IH.
Qed.

Lemma lastFor_snoc (slot : Z) (evs : list EventBlockGenerator.EventData)
    (e : EventBlockGenerator.EventData) :
  PerformanceRows.lastFor slot (evs ++ [e])
  = if decide (EventBlockGenerator.timelinePoint e = slot)
    then Some e else PerformanceRows.lastFor slot evs.
Proof.
  unfold PerformanceRows.lastFor. rewrite filter_app.
  rewrite filter_cons, filter_nil.
  destruct (decide (EventBlockGenerator.timelinePoint e = slot)).
  - apply last_snoc.
  - rewrite app_nil_r. reflexivity.
Qed.

Lemma initialRows_lookup (i : nat) :
  (i < 7)%nat ->
  PerformanceRows.initialRows !! i = Some (PerformanceRows.defaultRow i).
Proof.
  intros Hi. do 7 (destruct i as [|i]; [reflexivity|]). lia.
Qed.

Lemma timelineStats_snoc (evs : list EventBlockGenerator.EventData)
    (e : EventBlockGenerator.EventData) :
  PerformanceRows.timelineStats (evs ++ [e])
  = PerformanceRows.place (PerformanceRows.timelineStats evs) e.
Proof.
  unfold PerformanceRows.timelineStats. rewrite fold_left_app. reflexivity.
Qed.

Lemma timelineStats_lookup (evs : list EventBlockGenerator.EventData) (i : nat) :
  (i < 7)%nat ->
  PerformanceRows.timelineStats evs !! i
  = Some (match PerformanceRows.lastFor (Z.of_nat i + 1) evs with
          | Some event => PerformanceRows.rowOf event
          | None => PerformanceRows.defaultRow i
          end).
Proof.
  intros Hi.
  induction evs as [|e evs IH] using rev_ind.
  - do 7 (destruct i as [|i]; [reflexivity|]). lia.
  - rewrite lastFor_snoc.
    unfold PerformanceRows.timelineStats in *. rewrite fold_left_app.
    cbn [fold_left]. unfold PerformanceRows.place at 1.
    pose proof (timelineStats_length evs) as Hlen.
    unfold PerformanceRows.timelineStats in Hlen.
    unfold PerformanceRows.inTable.
    destruct (Z.geb_spec (EventBlockGenerator.timelinePoint e) 1) as [H1|H1];
      destruct (Z.leb_spec (EventBlockGenerator.timelinePoint e) 7) as [H7|H7];
      cbn [andb];
      destruct (decide (EventBlockGenerator.timelinePoint e = Z.of_nat i + 1))
        as [E|E]; try lia; try exact IH.
    + replace (Z.to_nat (EventBlockGenerator.timelinePoint e - 1)) with i by lia.
      apply list_lookup_insert_eq. lia.
    + rewrite list_lookup_insert_ne by lia. exact IH.
Qed.

(** X14: the table always has seven rows; the row of slot [i + 1] shows the
    last record of the history made for that slot, whatever came before
    it, and the empty default row when there is none.  Records for a
    point outside 1..7 are not shown. *)
Theorem table_row_is_last_record
    (evs : list EventBlockGenerator.EventData) (i : nat) :
  (i < 7)%nat ->
  length (PerformanceRows.timelineStats evs) = 7%nat
  /\ PerformanceRows.timelineStats evs !! i
     = Some (match PerformanceRows.lastFor (Z.of_nat i + 1) evs with
             | Some event => PerformanceRows.rowOf event
             | None => PerformanceRows.defaultRow i
             end).
Proof.
  intros Hi. split.
  - induction evs as [|e evs IH] using rev_ind; [reflexivity|].
    rewrite timelineStats_snoc, place_length. exact IH.
  - destruct (PerformanceRows.lastFor (Z.of_nat i + 1) evs) as [event|] eqn:Hlast;
      rewrite (timelineStats_lookup evs i Hi), Hlast; reflexivity.
Qed.

Lemma table_row_is_last_record_witness :
  let first := EventBlockGenerator.mkEventData 2 1 None [points] None None None in
  let second := EventBlockGenerator.mkEventData 2 1 None [turnovers] None None None in
  PerformanceRows.timelineStats [first; second] !! 1%nat
  = Some (PerformanceRows.rowOf second).
Proof.
  apply (table_row_is_last_record
           [EventBlockGenerator.mkEventData 2 1 None [points] None None None;
            EventBlockGenerator.mkEventData 2 1 None [turnovers] None None None]
           1).
  lia.
Defined.

(** X15: every row of the table carries its own slot number, counters that
    are not negative, and a total equal to the number of actions of the
    record it shows; its efficiency badge is null exactly when the slot has
    no record or its record has no actions. *)
Theorem table_rows_well_formed
    (evs : list EventBlockGenerator.EventData) (i : nat)
    (row : PerformanceTable.TimelineStats) :
  PerformanceRows.timelineStats evs !! i = Some row ->
  PerformanceTable.timePoint row = Z.of_nat i + 1
  /\ PerformanceTable.countsNonNegative row
  /\ PerformanceRows.calculateTotal row
     = match PerformanceRows.lastFor (Z.of_nat i + 1) evs with
       | Some event => Z.of_nat (length (EventBlockGenerator.actions event))
       | None => 0
       end
  /\ (PerformanceTable.efficiencyPercentage
        (PerformanceTable.calculateHollingerScore row) = None
      <-> match PerformanceRows.lastFor (Z.of_nat i + 1) evs with
          | Some event => EventBlockGenerator.actions event = []
          | None => True
          end).
Proof.
  intros Hrow.
  assert (Hi : (i < 7)%nat).
  { rewrite <- (timelineStats_length evs). eapply lookup_lt_Some. exact Hrow. }
  pose proof (timelineStats_lookup evs i Hi) as Hlast.
  rewrite Hlast in Hrow. injection Hrow as <-.
  assert (Hnull : forall r,
            PerformanceTable.efficiencyPercentage
              (PerformanceTable.calculateHollingerScore r) = None
            <-> PerformanceRows.calculateTotal r = 0).
  { intros r. unfold PerformanceTable.calculateHollingerScore.
    change (PerformanceRows.calculateTotal r)
      with (PerformanceTable.totalActions r).
    destruct (Z.eqb_spec (PerformanceTable.totalActions r) 0);
      simpl; split; congruence. }
  rewrite Hnull.
  destruct (PerformanceRows.lastFor (Z.of_nat i + 1) evs) as [event|] eqn:El.
  - destruct (rowOf_counts event) as [Hnn Htot].
    split; [|split; [exact Hnn | split; [exact Htot|]]].
    + unfold PerformanceRows.lastFor in El.
      apply last_Some_elem_of, list_elem_of_filter in El.
      destruct El as [El _]. simpl. exact El.
    + rewrite Htot. destruct (EventBlockGenerator.actions event);
        simpl; split; intros; (discriminate || lia || reflexivity).
  - split; [reflexivity|]. split.
    + unfold PerformanceTable.countsNonNegative; simpl; lia.
    + split; [reflexivity | split; intros; reflexivity].
Qed.

Lemma table_rows_well_formed_witness :
  let event := EventBlockGenerator.mkEventData 3 2 None [points; assists]
                 None None None in
  PerformanceTable.timePoint (PerformanceRows.rowOf event) = 3
  /\ PerformanceRows.calculateTotal (PerformanceRows.rowOf event) = 2.
Proof.
  destruct (table_rows_well_formed
              [EventBlockGenerator.mkEventData 3 2 None [points; assists]
                 None None None]
              2
              (PerformanceRows.rowOf
                 (EventBlockGenerator.mkEventData 3 2 None [points; assists]
                    None None None)))
    as (Htp & _ & Htot & _).
  - reflexivity.
  - split; [exact Htp | exact Htot].
Defined.

(** ** CorrelationDashboard: what is plotted *)

Lemma performance_score_range (actions : list StatType) :
  0 <= CalculationUtils.calculatePerformanceScore actions <= 100.
Proof. unfold CalculationUtils.calculatePerformanceScore. lia. Qed.

(** X16: for a record with survey ratings in 1..9 and a reading between
    30 and 160, the four normalised series (IZOF, momentum, flow, sAA) and
    the performance score all lie in the chart's domain [0,100]. *)
Theorem dashboard_series_within_chart
    (event : EventBlockGenerator.EventData) (a : SurveyResponses) (v : Z) :
  EventBlockGenerator.surveyResponses event = Some a ->
  Spec.ratingsInRange a ->
  EventBlockGenerator.saaValue event = Some (Some (Integer v)) ->
  30 <= v <= 160 ->
  CorrelationDashboard.withinChart
    (CorrelationDashboard.correlationPoint event)
  /\ 0 <= CorrelationDashboard.performanceScore
            (CorrelationDashboard.correlationPoint event) <= 100.
Proof.
  intros Hsurvey (Ha & Hm & Hf) Hsaa Hv.
  split; [|apply performance_score_range].
  assert (Hrating : forall z, 1 <= z <= 9 ->
            exists y, CalculationUtils.normalizeValue (inject_Z z) 1 9 0 100
                      = Some y /\ (0 <= y)%Q /\ (y <= 100)%Q).
  { intros z Hz. apply inject_Z_between in Hz. destruct Hz as [Hz1 Hz9].
    destruct (normalizeValue_range (inject_Z z) 1 9 0 100)
      as (y & Hy & H0 & H1);
      try reflexivity; try discriminate; try assumption.
    exists y. repeat split; assumption. }
  intros series Hin. cbn [In] in Hin.
  unfold CorrelationDashboard.correlationPoint in Hin.
  cbn [CorrelationDashboard.izof CorrelationDashboard.momentum
       CorrelationDashboard.flow CorrelationDashboard.saa] in Hin.
  unfold CorrelationDashboard.izofOf, CorrelationDashboard.momentumOf,
    CorrelationDashboard.flowOf, CorrelationDashboard.saaOf,
    CorrelationDashboard.surveyOf, CorrelationDashboard.truthy in Hin.
  rewrite Hsurvey, Hsaa in Hin. cbn [default] in Hin.
  destruct (Z.eqb_spec v 0) as [E|_]; [lia|].
  destruct Hin as [<- | [<- | [<- | [<- | []]]]].
  - apply Hrating. exact Ha.
  - apply Hrating. exact Hm.
  - apply Hrating. exact Hf.
  - apply inject_Z_between in Hv. destruct Hv as [Hv1 Hv2].
    destruct (normalizeValue_range (inject_Z v) 30 160 0 100)
      as (y & Hy & H0 & H1);
      try reflexivity; try discriminate; try assumption.
    exists y. repeat split; assumption.
Qed.

Lemma dashboard_series_within_chart_witness :
  let event :=
    EventBlockGenerator.mkEventData 1 1 (Some 0) [points; assists; rebounds]
      (Some {| emotionalArousal := 8; momentum := 2; flow := 9 |})
      (Some (Some (Integer 70))) (Some moderate) in
  CorrelationDashboard.withinChart
    (CorrelationDashboard.correlationPoint event)
  /\ 0 <= CorrelationDashboard.performanceScore
            (CorrelationDashboard.correlationPoint event) <= 100.
Proof.
  apply (dashboard_series_within_chart
           (EventBlockGenerator.mkEventData 1 1 (Some 0)
              [points; assists; rebounds]
              (Some {| emotionalArousal := 8; momentum := 2; flow := 9 |})
              (Some (Some (Integer 70))) (Some moderate))
           {| emotionalArousal := 8; momentum := 2; flow := 9 |} 70).
  - reflexivity.
  - unfold Spec.ratingsInRange; simpl; lia.
  - reflexivity.
  - lia.
Defined.

(** X17: what the dashboard plots for a record that is incomplete or out of
    range: without survey answers the three survey series sit at -12.5,
    below the chart; a missing, NaN or zero reading plots at 0; a reading
    below 30 plots below 0 and one above 160 above 100. *)
Theorem dashboard_plots_outside_chart (event : EventBlockGenerator.EventData) :
  (EventBlockGenerator.surveyResponses event = None ->
   exists y,
     CorrelationDashboard.izofOf event = Some y
     /\ CorrelationDashboard.momentumOf event = Some y
     /\ CorrelationDashboard.flowOf event = Some y
     /\ (y == - (25 # 2))%Q)
  /\ (CorrelationDashboard.truthy (EventBlockGenerator.saaValue event) = None ->
      CorrelationDashboard.saaOf event = Some 0%Q)
  /\ (forall v,
        EventBlockGenerator.saaValue event = Some (Some (Integer v)) ->
        v <> 0 ->
        exists y,
          CorrelationDashboard.saaOf event = Some y
          /\ (v < 30 -> (y < 0)%Q) /\ (160 < v -> (100 < y)%Q)).
Proof.
  split; [|split].
  - intros Hnone.
    unfold CorrelationDashboard.izofOf, CorrelationDashboard.momentumOf,
      CorrelationDashboard.flowOf, CorrelationDashboard.surveyOf.
    rewrite Hnone. cbn [default emotionalArousal momentum flow].
    eexists. repeat split; reflexivity.
  - intros Hnone. unfold CorrelationDashboard.saaOf. rewrite Hnone. reflexivity.
  - intros v Hsaa Hv.
    unfold CorrelationDashboard.saaOf, CorrelationDashboard.truthy.
    rewrite Hsaa. destruct (Z.eqb_spec v 0) as [E|_]; [contradiction|].
    rewrite normalizeValue_some by discriminate.
    eexists. split; [reflexivity|]. split; intros Hlt.
    + assert (Hq : (inject_Z v < 30)%Q)
        by (change 30%Q with (inject_Z 30); rewrite <- Zlt_Qlt; exact Hlt).
      apply (rescale_below 30 160 0 100); [reflexivity | reflexivity | exact Hq].
    + assert (Hq : (160 < inject_Z v)%Q)
        by (change 160%Q with (inject_Z 160); rewrite <- Zlt_Qlt; exact Hlt).
      apply (rescale_above 30 160 0 100); [reflexivity | reflexivity | exact Hq].
Qed.

Lemma dashboard_plots_outside_chart_witness :
  let event :=
    EventBlockGenerator.mkEventData 1 1 (Some 0) [] None
      (Some (Some (Integer 5))) (Some low) in
  exists y,
    CorrelationDashboard.saaOf event = Some y /\ (y < 0)%Q.
Proof.
  destruct (proj2 (proj2 (dashboard_plots_outside_chart
                            (EventBlockGenerator.mkEventData 1 1 (Some 0) []
                               None (Some (Some (Integer 5))) (Some low))))
              5 eq_refl)
    as (y & Hy & Hlow & _).
  - discriminate.
  - exists y. split; [exact Hy | apply Hlow; lia].
Defined.

(** ** SAAInputModal: the inline message *)

(** X18: the inline message is only ever shown while the entry is empty:
    typing an accepted text or pressing Random removes it. *)
Theorem inline_message_only_on_empty_entry (st : SAAInputModal.State) :
  SAAInputModal.reachable st ->
  SAAInputModal.showsInlineMessage st = true ->
  SAAInputModal.saaValue st = EmptyString.
Proof.
  unfold SAAInputModal.showsInlineMessage.
  induction 1 as [|st e _ IH Hvalid]; [discriminate|].
  destruct e as [text|u|]; simpl.
  - unfold SAAInputModal.handleChange.
    destruct (SAAInputModal.isEmpty text || SAAInputModal.digitsOnly text);
      [discriminate | exact IH].
  - discriminate.
  - unfold SAAInputModal.handleSubmit.
    destruct (SAAInputModal.saaValue st) eqn:E; simpl; intros; reflexivity.
Qed.

Lemma inline_message_only_on_empty_entry_witness :
  SAAInputModal.saaValue
    (SAAInputModal.step SAAInputModal.initialState SAAInputModal.Submit)
  = EmptyString.
Proof.
  apply inline_message_only_on_empty_entry.
  - apply SAAInputModal.reachable_step;
      [apply SAAInputModal.reachable_init | exact I].
  - reflexivity.
Defined.

(** ** The page: history, pointer and counters *)

Lemma history_step (s : Simulation.State) (e : Simulation.Event) :
  exists l,
    Simulation.history (Simulation.step s e) = Simulation.history s ++ l
    /\ (length l <= 1)%nat.
Proof.
  unfold Simulation.step.
  destruct (Simulation.enabled s e); [|exists []; rewrite app_nil_r; auto].
  destruct e; simpl;
    try (exists []; rewrite app_nil_r; split; [reflexivity | simpl; lia]).
  - destruct (SAAInputModal.handleSubmit (Simulation.saaInput s))
      as [m [[v lvl]|]]; simpl.
    + eexists [_]. split; [reflexivity | simpl; lia].
    + exists []. rewrite app_nil_r. split; [reflexivity | simpl; lia].
  - unfold EventBlockGenerator.generateEventBlock.
    destruct (EventBlockGenerator.isGenerating (Simulation.generator s));
      simpl; exists []; rewrite app_nil_r; split; reflexivity || (simpl; lia).
  - destruct (Simulation.timers s !! n) as [t|];
      [|exists []; rewrite app_nil_r; split; [reflexivity | simpl; lia]].
    destruct t; simpl;
      try (exists []; rewrite app_nil_r; split; [reflexivity | simpl; lia]).
    unfold EventBlockGenerator.commit.
    destruct (EventBlockGenerator.c_currentEventData c); simpl.
    + eexists [_]. split; [reflexivity | simpl; lia].
    + exists []. rewrite app_nil_r. split; [reflexivity | simpl; lia].
Qed.

(** X19: the history is append-only: whatever events occur, the records
    already in the history stay in place, unchanged, and at most one
    record is added per event. *)
Theorem history_append_only (s : Simulation.State) (es : list Simulation.Event) :
  exists l,
    Simulation.history (Simulation.run s es) = Simulation.history s ++ l
    /\ (length l <= length es)%nat.
Proof.
  revert s. induction es as [|e es IH]; intros s.
  - exists []. rewrite app_nil_r. split; [reflexivity | simpl; lia].
  - cbn [Simulation.run fold_left].
    destruct (history_step s e) as (l1 & H1 & Hl1).
    destruct (IH (Simulation.step s e)) as (l2 & H2 & Hl2).
    exists (l1 ++ l2). unfold Simulation.run in H2.
    rewrite H2, H1, <- app_assoc. split; [reflexivity|].
    rewrite length_app. simpl. lia.
Qed.

Lemma pointer_progress (s : Simulation.State) (e : Simulation.Event) :
  Simulation.pointer s <= 7 ->
  Simulation.pointer s <= Simulation.pointer (Simulation.step s e)
  <= Simulation.pointer s + 1.
Proof.
  intros H7. unfold Simulation.step.
  destruct (Simulation.enabled s e); [|lia].
  unfold Simulation.pointer in *.
  destruct e; simpl; try lia.
  - destruct (SAAInputModal.handleSubmit (Simulation.saaInput s))
      as [m [[v lvl]|]]; simpl; lia.
  - unfold EventBlockGenerator.generateEventBlock.
    destruct (EventBlockGenerator.isGenerating (Simulation.generator s));
      simpl; lia.
  - destruct (Simulation.timers s !! n) as [t|]; [|lia].
    destruct t as [| |c|]; simpl; try lia.
    unfold EventBlockGenerator.commit.
    destruct (EventBlockGenerator.c_currentEventData c); simpl; lia.
Qed.

Lemma pendingAdvances_nonneg (ts : list Simulation.Timer) :
  0 <= Flows.pendingAdvances ts.
Proof.
  induction ts as [|t ts IH]; [reflexivity|].
  destruct t; cbn [Flows.pendingAdvances]; lia.
Qed.

Lemma pendingAdvances_snoc (ts : list Simulation.Timer) (t : Simulation.Timer) :
  Flows.pendingAdvances (ts ++ [t])
  = Flows.pendingAdvances ts + Flows.pendingAdvances [t].
Proof.
  induction ts as [|x ts IH]; [destruct t; simpl; lia|].
  destruct x; simpl in *; lia.
Qed.

Lemma pendingAdvances_delete (ts : list Simulation.Timer) (n : nat)
    (t : Simulation.Timer) :
  ts !! n = Some t ->
  Flows.pendingAdvances ts
  = Flows.pendingAdvances (delete n ts) + Flows.pendingAdvances [t].
Proof.
  revert n. induction ts as [|x ts IH]; intros n Hn; [discriminate|].
  destruct n as [|n].
  - injection Hn as ->. destruct t; simpl; lia.
  - cbn [lookup list_lookup] in Hn. specialize (IH n Hn).
    destruct x; simpl in *; lia.
Qed.

Lemma pointer_paid_step (s : Simulation.State) (e : Simulation.Event) :
  Simulation.pointer s + Flows.pendingAdvances (Simulation.timers s)
  <= Z.of_nat (length (Simulation.history s)) + 1 ->
  Simulation.pointer (Simulation.step s e)
  + Flows.pendingAdvances (Simulation.timers (Simulation.step s e))
  <= Z.of_nat (length (Simulation.history (Simulation.step s e))) + 1.
Proof.
  intros H. unfold Simulation.step.
  destruct (Simulation.enabled s e); [|exact H].
  unfold Simulation.history, Simulation.pointer, Simulation.setTimeout in *.
  destruct e; simpl; try exact H.
  - rewrite pendingAdvances_snoc. simpl. lia.
  - destruct (SAAInputModal.handleSubmit (Simulation.saaInput s))
      as [m [[v lvl]|]]; simpl; [|exact H].
    rewrite pendingAdvances_snoc, length_app. simpl. lia.
  - unfold EventBlockGenerator.generateEventBlock.
    destruct (EventBlockGenerator.isGenerating (Simulation.generator s));
      simpl; exact H.
  - rewrite pendingAdvances_snoc. simpl. lia.
  - destruct (Simulation.timers s !! n) as [t|] eqn:Ht; [|exact H].
    pose proof (pendingAdvances_delete _ _ _ Ht) as Hdel.
    destruct t as [| |c|]; simpl in *; try lia.
    unfold EventBlockGenerator.commit.
    destruct (EventBlockGenerator.c_currentEventData c); simpl;
      rewrite pendingAdvances_snoc; simpl; try rewrite length_app; simpl; lia.
Qed.

Lemma pointer_paid (s : Simulation.State) :
  Simulation.reachable s ->
  Simulation.pointer s + Flows.pendingAdvances (Simulation.timers s)
  <= Z.of_nat (length (Simulation.history s)) + 1.
Proof.
  induction 1 as [|s e _ IH]; [vm_compute; discriminate|].
  apply pointer_paid_step. exact IH.
Qed.

(** X20: the pointer starts at 1, moves only forward and by one step at a
    time, stays within 1..7, and never runs ahead of the history: it is at
    most the number of records plus one. *)
Theorem pointer_follows_history (s : Simulation.State) :
  Simulation.reachable s ->
  1 <= Simulation.pointer s <= 7
  /\ Simulation.pointer s <= Z.of_nat (length (Simulation.history s)) + 1
  /\ forall e,
       Simulation.pointer s <= Simulation.pointer (Simulation.step s e)
       <= Simulation.pointer s + 1.
Proof.
  intros Hreach. split; [apply pointer_within_timeline; exact Hreach|]. split.
  - pose proof (pointer_paid s Hreach) as H.
    pose proof (pendingAdvances_nonneg (Simulation.timers s)). lia.
  - intros e. apply pointer_progress.
    apply pointer_within_timeline. exact Hreach.
Qed.

Lemma pointer_follows_history_witness :
  let s := Simulation.run Simulation.initialState
             (Simulation.generatorCycles 2) in
  1 <= Simulation.pointer s <= 7
  /\ Simulation.pointer s <= Z.of_nat (length (Simulation.history s)) + 1.
Proof.
  destruct (pointer_follows_history
              (Simulation.run Simulation.initialState
                 (Simulation.generatorCycles 2)))
    as (H1 & H2 & _).
  - assert (Hrun : forall es s0, Simulation.reachable s0 ->
                     Simulation.reachable (Simulation.run s0 es)).
    { induction es as [|e es IH]; intros s0 Hs0; [exact Hs0|].
      apply IH, Simulation.reachable_step, Hs0. }
    apply Hrun, Simulation.reachable_init.
  - split; [exact H1 | exact H2].
Defined.

Lemma insert_slotsKept (m : gmap Z (StatType -> Z)) (k : Z) (f : StatType -> Z) :
  Flows.slotsKept m -> 1 <= k <= 7 -> (forall t, 0 <= f t) ->
  Flows.slotsKept (<[k := f]> m).
Proof.
  intros [Hdom Hnn] Hk Hf. split.
  - intros slot. rewrite lookup_insert_is_Some, Hdom.
    destruct (decide (k = slot)); subst; intuition lia.
  - intros slot c t Hc. apply lookup_insert_Some in Hc.
    destruct Hc as [[_ <-] | [_ Hc]]; [apply Hf | eapply Hnn; exact Hc].
Qed.

Lemma logAction_slotsKept (k : Z) (a : StatType) (st : PlayerPanel.State) :
  Flows.slotsKept (PlayerPanel.statsByTimeline st) ->
  Flows.slotsKept (PlayerPanel.statsByTimeline (PlayerPanel.logAction k a st)).
Proof.
  intros Hkept. unfold PlayerPanel.logAction.
  destruct (PlayerPanel.statsByTimeline st !! k) as [c|] eqn:Ek; [|exact Hkept].
  cbn [PlayerPanel.withStats PlayerPanel.statsByTimeline].
  destruct Hkept as [Hdom Hnn].
  apply insert_slotsKept; [split; assumption | |].
  - apply Hdom. rewrite Ek. eexists. reflexivity.
  - intros t. pose proof (Hnn k c t Ek).
    destruct (StatType_eq_dec t a); lia.
Qed.

Lemma fold_logAction_slotsKept (k : Z) (actions : list StatType)
    (st : PlayerPanel.State) :
  Flows.slotsKept (PlayerPanel.statsByTimeline st) ->
  Flows.slotsKept
    (PlayerPanel.statsByTimeline
       (fold_left (fun p a => PlayerPanel.logAction k a p) actions st)).
Proof.
  revert st. induction actions as [|a actions IH]; intros st H; [exact H|].
  simpl. apply IH, logAction_slotsKept, H.
Qed.

Lemma slots_step (s : Simulation.State) (e : Simulation.Event) :
  1 <= Simulation.pointer s <= 7 ->
  Flows.slotsKept (PlayerPanel.statsByTimeline (Simulation.panel s)) ->
  Flows.slotsKept
    (PlayerPanel.statsByTimeline (Simulation.panel (Simulation.step s e))).
Proof.
  intros Hp H. unfold Simulation.step.
  destruct (Simulation.enabled s e); [|exact H].
  destruct e; simpl; try exact H.
  - apply logAction_slotsKept. exact H.
  - destruct (SAAInputModal.handleSubmit (Simulation.saaInput s))
      as [m [[v lvl]|]]; simpl; [|exact H].
    apply insert_slotsKept; [exact H | exact Hp | intros t; reflexivity].
  - unfold EventBlockGenerator.generateEventBlock.
    destruct (EventBlockGenerator.isGenerating (Simulation.generator s));
      simpl; [exact H|].
    apply fold_logAction_slotsKept. exact H.
  - destruct (Simulation.timers s !! n) as [t|]; [|exact H].
    destruct t as [| |c|]; simpl; try exact H.
    unfold EventBlockGenerator.commit.
    destruct (EventBlockGenerator.c_currentEventData c); simpl; exact H.
Qed.

Lemma slots_kept (s : Simulation.State) :
  Simulation.reachable s ->
  Flows.slotsKept (PlayerPanel.statsByTimeline (Simulation.panel s)).
Proof.
  induction 1 as [|s e Hs IH].
  - split.
    + intros slot. simpl.
      rewrite !lookup_insert_is_Some, lookup_empty.
      split.
      * intros H. repeat (destruct H as [H | [_ H]]; [lia|]).
        destruct H as [x Hx]. discriminate.
      * intros H.
        assert (Hslot : slot = 1 \/ slot = 2 \/ slot = 3 \/ slot = 4
                        \/ slot = 5 \/ slot = 6 \/ slot = 7) by lia.
        destruct (decide (1 = slot)); [left; assumption | right; split; [assumption|]].
        destruct (decide (2 = slot)); [left; assumption | right; split; [assumption|]].
        destruct (decide (3 = slot)); [left; assumption | right; split; [assumption|]].
        destruct (decide (4 = slot)); [left; assumption | right; split; [assumption|]].
        destruct (decide (5 = slot)); [left; assumption | right; split; [assumption|]].
        destruct (decide (6 = slot)); [left; assumption | right; split; [assumption|]].
        destruct (decide (7 = slot)); [left; assumption | lia].
    + intros slot c t Hc. simpl in Hc.
      repeat (apply lookup_insert_Some in Hc;
              destruct Hc as [[_ <-] | [_ Hc]]; [reflexivity|]).
      rewrite lookup_empty in Hc. discriminate.
  - apply slots_step; [apply pointer_within_timeline; exact Hs | exact IH].
Qed.

Lemma simulation_run_reachable (es : list Simulation.Event) (s : Simulation.State) :
  Simulation.reachable s -> Simulation.reachable (Simulation.run s es).
Proof.
  revert s. induction es as [|e es IH]; intros s Hs; [exact Hs|].
  apply IH, Simulation.reachable_step, Hs.
Qed.

(** X21: the panel always holds counters for exactly the slots 1..7, never
    negative, and logging an action adds one to the counter of that tag in
    the current slot and changes no other counter. *)
Theorem log_action_counts_once (s : Simulation.State) (a : StatType) :
  Simulation.reachable s ->
  Flows.slotsKept (PlayerPanel.statsByTimeline (Simulation.panel s))
  /\ forall slot t,
       Flows.counters (Simulation.step s (Simulation.PanelLogAction a)) slot t
       = Flows.counters s slot t
         + (if decide (slot = Simulation.pointer s /\ t = a) then 1 else 0).
Proof.
  intros Hreach. pose proof (slots_kept s Hreach) as Hkept.
  split; [exact Hkept|].
  intros slot t. destruct Hkept as [Hdom _].
  pose proof (pointer_within_timeline s Hreach) as Hp.
  apply Hdom in Hp. destruct Hp as [c Hc].
  unfold Simulation.step, Flows.counters. cbn [Simulation.enabled Simulation.handle].
  cbn [Simulation.panel Simulation.withPanel].
  unfold PlayerPanel.logAction. rewrite Hc.
  cbn [PlayerPanel.withStats PlayerPanel.statsByTimeline].
  destruct (decide (slot = Simulation.pointer s)) as [->|Hne].
  - rewrite lookup_insert_eq, Hc. unfold default, from_option, id. cbv beta.
    destruct (StatType_eq_dec t a) as [->|Hta].
    + rewrite decide_True by (split; reflexivity). reflexivity.
    + rewrite decide_False by (intros [_ H]; contradiction). lia.
  - rewrite lookup_insert_ne by congruence.
    rewrite decide_False by (intros [H _]; contradiction). lia.
Qed.

Lemma log_action_counts_once_witness :
  let s := Simulation.run Simulation.initialState
             [Simulation.PanelLogAction points] in
  Flows.counters (Simulation.step s (Simulation.PanelLogAction points)) 1 points
  = Flows.counters s 1 points + 1.
Proof.
  apply (proj2 (log_action_counts_once
                  (Simulation.run Simulation.initialState
                     [Simulation.PanelLogAction points])
                  points
                  (simulation_run_reachable _ _ Simulation.reachable_init))
           1 points).
Defined.




(** ** Runs with the values the controls can produce *)

Lemma handleChange_ratings (q : SurveyModal.Question) (v : Z) (r : SurveyResponses) :
  Spec.ratingsInRange r -> SurveyModal.offered v ->
  Spec.ratingsInRange (SurveyModal.handleChange q v r).
Proof.
  unfold Spec.ratingsInRange, SurveyModal.offered.
  intros (Ha & Hm & Hf) Hv. destruct q; simpl; repeat split; lia.
Qed.

Lemma duration_seconds (d : Q) :
  Flows.durationOffered d -> Flows.secondsOffered (Math_round (d * 60)).
Proof.
  unfold Flows.durationOffered, Flows.secondsOffered. cbn [In].
  intros [<- | [<- | [<- | [<- | [<- | [<- | []]]]]]]; vm_compute; tauto.
Qed.

Lemma submit_clean_entry (m : SAAInputModal.State) :
  Flows.entryClean m ->
  Flows.entryClean (fst (SAAInputModal.handleSubmit m))
  /\ forall v lvl,
       snd (SAAInputModal.handleSubmit m) = Some (v, lvl) ->
       exists n,
         v = Some n /\ Spec.nonNegative n
         /\ lvl = SAAInputModal.levelOfNumber (Some n).
Proof.
  unfold Flows.entryClean, SAAInputModal.handleSubmit. intros Hclean.
  destruct (SAAInputModal.saaValue m) as [|c text] eqn:E.
  - simpl. split; [reflexivity | discriminate].
  - cbn [SAAInputModal.isEmpty fst snd SAAInputModal.saaValue orb] in *.
    split; [reflexivity|].
    intros v lvl Hsub. injection Hsub as <- <-.
    destruct (parseInt_entry _ Hclean) as (n & Hparse & _ & Hnn & _).
    exists n. rewrite Hparse. split; [reflexivity|].
    split; [exact Hnn | reflexivity].
Qed.

Lemma fold_logAction_temp (k : Z) (actions : list StatType)
    (st : PlayerPanel.State) :
  PlayerPanel.tempSurveyResponses
    (fold_left (fun p a => PlayerPanel.logAction k a p) actions st)
  = PlayerPanel.tempSurveyResponses st.
Proof.
  revert st. induction actions as [|a actions IH]; intros st; [reflexivity|].
  cbn [fold_left]. rewrite IH. unfold PlayerPanel.logAction.
  destruct (PlayerPanel.statsByTimeline st !! k); reflexivity.
Qed.

Lemma invariant_step (s : Simulation.State) (e : Simulation.Event) :
  Flows.invariant s -> Flows.validEvent e ->
  Flows.invariant (Simulation.step s e).
Proof.
  intros Hinv Hvalid. unfold Simulation.step.
  destruct (Simulation.enabled s e); [|exact Hinv].
  destruct Hinv as [Hp Hq Hps Hgs Htemp Hentry Hdur Htim Hhist Hadv].
  unfold Simulation.pointer, Simulation.history in *.
  destruct e; cbn [Simulation.handle Flows.validEvent] in *.
  - constructor; simpl; assumption.
  - pose proof (fold_logAction_temp (Simulation.pointer s) [statType]
                  (Simulation.panel s)) as Hlog.
    cbn [fold_left] in Hlog.
    constructor; cbn -[PlayerPanel.logAction]; try assumption.
    rewrite Hlog. exact Htemp.
  - constructor; simpl; assumption.
  - constructor; simpl; try assumption.
    apply handleChange_ratings; assumption.
  - constructor; unfold Simulation.pointer, Simulation.history; simpl;
      try assumption.
    + intros a Ha. injection Ha as <-. exact Hps.
    + apply Forall_app. split; [exact Htim | repeat constructor].
  - constructor; simpl; try assumption. discriminate.
  - constructor; simpl; try assumption.
    unfold Flows.entryClean, SAAInputModal.handleChange.
    destruct (SAAInputModal.isEmpty text || SAAInputModal.digitsOnly text)
      eqn:E; [exact E | exact Hentry].
  - constructor; simpl; try assumption.
    unfold Flows.entryClean. apply orb_true_iff. right.
    apply toString_table, randomValue_in_range. exact Hvalid.
  - destruct (submit_clean_entry _ Hentry) as [Hclean Hsub].
    destruct (SAAInputModal.handleSubmit (Simulation.saaInput s))
      as [m [[v lvl]|]]; cbn [fst snd] in *.
    + destruct (Hsub v lvl eq_refl) as (z & -> & Hz & ->).
      constructor; unfold Simulation.pointer, Simulation.history; simpl;
        try assumption.
      * discriminate.
      * apply Forall_app. split; [exact Htim | repeat constructor].
      * apply Forall_app. split; [exact Hhist|].
        constructor; [|constructor].
        unfold Flows.recordComplete; simpl.
        split; [exact Hp|]. split; [exact Hq|]. split; [exact Htemp|].
        exists z. split; [reflexivity|]. split; [exact Hz | reflexivity].
    + constructor; simpl; assumption.
  - constructor; simpl; try assumption. discriminate.
  - constructor; simpl; assumption.
  - unfold EventBlockGenerator.generateEventBlock.
    destruct (EventBlockGenerator.isGenerating (Simulation.generator s)).
    + constructor; simpl; assumption.
    + constructor; simpl; try assumption.
      rewrite fold_logAction_temp. exact Htemp.
  - constructor; simpl; try assumption.
    apply handleChange_ratings; assumption.
  - constructor; unfold Simulation.pointer, Simulation.history; simpl;
      try assumption.
    apply Forall_app. split; [exact Htim|].
    constructor; [|constructor]. simpl.
    pose proof (generator_saa_range _ _ Hgs Hvalid) as Hv. simpl in Hv.
    unfold Spec.ratingsInRange in Hgs.
    repeat split; try assumption; lia.
  - constructor; simpl; assumption.
  - constructor; simpl; assumption.
  - destruct (Simulation.timers s !! n) as [t|] eqn:Ht;
      [|constructor; assumption].
    pose proof (Forall_lookup_1 _ _ _ _ Htim Ht) as Hcommit.
    pose proof (Forall_delete _ _ n Htim) as Hrest.
    destruct t as [| |c|]; cbn [Simulation.fire].
    + constructor; simpl; assumption.
    + constructor; unfold Simulation.pointer; simpl; try assumption. lia.
    + simpl in Hcommit.
      destruct Hcommit as (Hcp & Hcq & Hcr & Hcv & Hcl & Hcd).
      pose proof (duration_seconds _ Hcd) as Hsecs.
      unfold EventBlockGenerator.commit.
      destruct (EventBlockGenerator.c_currentEventData c) as [p|];
        constructor; unfold Simulation.pointer, Simulation.history;
        cbn -[Math_round]; try assumption; try lia.
      * apply Forall_app. split; [exact Hrest | repeat constructor].
      * apply Forall_app. split; [exact Hhist|].
        constructor; [|constructor].
        unfold Flows.recordComplete; cbn.
        split; [exact Hcp|]. split; [exact Hcq|].
        split; [intros a Ha; injection Ha as <-; exact Hcr|].
        eexists. split; [reflexivity|]. split; [exact Hcv|].
        rewrite Hcl. reflexivity.
      * apply Forall_app. split; [exact Hadv|].
        constructor; [exact Hsecs | constructor].
      * apply Forall_app. split; [exact Hrest | repeat constructor].
      * apply Forall_app. split; [exact Hadv|].
        constructor; [exact Hsecs | constructor].
    + constructor; simpl; assumption.
Qed.

Lemma invariant_initial : Flows.invariant Simulation.initialState.
Proof.
  constructor.
  - unfold Simulation.pointer. simpl. lia.
  - simpl. lia.
  - unfold Spec.ratingsInRange. simpl. lia.
  - unfold Spec.ratingsInRange. simpl. lia.
  - discriminate.
  - reflexivity.
  - unfold Flows.durationOffered. simpl. tauto.
  - constructor.
  - constructor.
  - constructor.
Qed.

Lemma invariant_reachable (s : Simulation.State) :
  Flows.reachable s -> Flows.invariant s.
Proof.
  induction 1 as [|s e _ IH Hvalid]; [exact invariant_initial|].
  apply invariant_step; assumption.
Qed.

Lemma flows_run_reachable (es : list Simulation.Event) (s : Simulation.State) :
  Flows.reachable s -> Forall Flows.validEvent es ->
  Flows.reachable (Simulation.run s es).
Proof.
  revert s. induction es as [|e es IH]; intros s Hs Hes; [exact Hs|].
  apply Forall_cons in Hes. destruct Hes as [He Hes].
  apply IH; [apply Flows.reachable_step; assumption | exact Hes].
Qed.

(** X24: on every run whose events carry values the page can produce
    (offered ratings and durations, draws in [0,1), quarters 1..4, any
    typed text), every record of the history has a point in 1..7, a
    quarter in 1..4, ratings in 1..9 when it has survey answers, and a
    reading that is a non-negative integer or +Infinity (which a typed
    entry of enough digits gives), never null or NaN, with the level the
    thresholds give; and every advance of the clock is 60, 90, 120, 150,
    180 or 210 seconds. *)
Theorem valid_runs_keep_records_complete (s : Simulation.State) :
  Flows.reachable s ->
  Forall Flows.recordComplete (Simulation.history s)
  /\ Forall Flows.secondsOffered (Simulation.advancedSeconds s).
Proof.
  intros Hreach. destruct (invariant_reachable s Hreach).
  split; assumption.
Qed.

Lemma valid_runs_keep_records_complete_witness :
  let s := Simulation.run Simulation.initialState
             (Flows.panelSaveFlow "120" 0 ++ Flows.generatorFlow 1 (fun _ => 0%Q) 0) in
  Forall Flows.recordComplete (Simulation.history s)
  /\ Forall Flows.secondsOffered (Simulation.advancedSeconds s).
Proof.
  apply valid_runs_keep_records_complete.
  apply flows_run_reachable; [apply Flows.reachable_init|].
  repeat constructor; discriminate.
Defined.

(** ** Whole flows *)

(** X25: a full cycle of the generator, started while none is running and
    no timeout is pending, appends exactly one record: the current point
    and quarter, the time of the click, the drawn actions, the survey
    answers and the derived reading with its level.  It advances the
    pointer (up to 7), asks the clock to advance by the selected duration
    in seconds, and leaves the generator ready again; the counters logged
    during the cycle are not reset. *)
Theorem generator_flow_appends_one_record
    (s : Simulation.State) (now : Z) (rnd : nat -> Q) (u : Q) :
  Simulation.generatorIdle s = true ->
  Simulation.timers s = [] ->
  let s' := Simulation.run s (Flows.generatorFlow now rnd u) in
  let reading :=
    EventBlockGenerator.calculateSAAValue (Simulation.generatorSurvey s) u in
  Simulation.history s'
  = Simulation.history s
    ++ [{| EventBlockGenerator.timelinePoint := Simulation.pointer s;
           EventBlockGenerator.quarter := App.currentQuarter (Simulation.app s);
           EventBlockGenerator.timestamp := Some now;
           EventBlockGenerator.actions :=
             EventBlockGenerator.generateRandomActions rnd;
           EventBlockGenerator.surveyResponses :=
             Some (Simulation.generatorSurvey s);
           EventBlockGenerator.saaValue :=
             Some (Some (Integer (value reading)));
           EventBlockGenerator.saaLevel := Some (level reading) |}]
  /\ Simulation.pointer s' = Z.min (Simulation.pointer s + 1) 7
  /\ Simulation.advancedSeconds s'
     = Simulation.advancedSeconds s
       ++ [Math_round
             (EventBlockGenerator.selectedDuration (Simulation.generator s)
              * 60)]
  /\ Simulation.generatorIdle s' = true
  /\ Simulation.timers s' = []
  /\ PlayerPanel.statsByTimeline (Simulation.panel s')
     = PlayerPanel.statsByTimeline
         (Simulation.panel
            (Simulation.step s (Simulation.GeneratorClick now rnd))).
Proof.
  intros Hidle Htimers. cbv zeta.
  unfold Simulation.generatorIdle in Hidle. apply negb_true_iff in Hidle.
  destruct s as [app panel panelSurvey saaInput generator generatorSurvey
                   timers advanced].
  cbn [Simulation.generator Simulation.timers] in Hidle, Htimers.
  subst timers.
  destruct generator as [isSurveyOpen showSAA duration saaData isGenerating
                           currentEventData].
  cbn [EventBlockGenerator.isGenerating] in Hidle. subst isGenerating.
  unfold Simulation.run, Flows.generatorFlow, Simulation.history,
    Simulation.pointer, Simulation.generatorIdle.
  cbn -[Math_round EventBlockGenerator.generateRandomActions
        EventBlockGenerator.calculateSAAValue PlayerPanel.logAction Z.min].
  repeat split; reflexivity.
Qed.

Lemma generator_flow_appends_one_record_witness :
  let s' := Simulation.run Simulation.initialState
              (Flows.generatorFlow 0 (fun _ => 0%Q) (1 # 2)) in
  length (Simulation.history s') = 1%nat
  /\ Simulation.pointer s' = 2
  /\ Simulation.advancedSeconds s' = [150].
Proof.
  destruct (generator_flow_appends_one_record Simulation.initialState 0
              (fun _ => 0%Q) (1 # 2) eq_refl eq_refl)
    as (Hhist & Hptr & Hadv & _).
  cbv zeta in Hhist |- *.
  split; [rewrite Hhist; reflexivity | split; [exact Hptr | exact Hadv]].
Defined.

Lemma step_handle (s : Simulation.State) (e : Simulation.Event) :
  Simulation.enabled s e = true -> Simulation.step s e = Simulation.handle s e.
Proof. intros H. unfold Simulation.step. rewrite H. reflexivity. Qed.

Ltac handle_innermost tac :=
  match goal with
  | |- context [Simulation.step ?x ?e] =>
      lazymatch x with
      | context [Simulation.step] => fail
      | _ => rewrite (step_handle x e) by tac
      end
  end.

Ltac flow_compute :=
  cbn -[SAAInputModal.parseInt SAAInputModal.digitsOnly SAAInputModal.isEmpty
        App.statsToActions levelOf Z.min SAAInputModal.handleChange
        SAAInputModal.handleSubmit Simulation.step bool_decide].

(** The page after the save flow of the panel, field by field. *)
Lemma panel_save_flow_result
    (s : Simulation.State) (text : string) (now : Z) (reading : Num) :
  Simulation.timers s = [] ->
  Simulation.pointer s < 7 ->
  SAAInputModal.digitsOnly text = true ->
  SAAInputModal.parseInt text = Some reading ->
  let s' := Simulation.run s (Flows.panelSaveFlow text now) in
  Simulation.app s'
  = {| App.currentQuarter := App.currentQuarter (Simulation.app s);
       App.timelineEvents :=
         Simulation.history s
         ++ [{| EventBlockGenerator.timelinePoint := Simulation.pointer s;
                EventBlockGenerator.quarter :=
                  App.currentQuarter (Simulation.app s);
                EventBlockGenerator.timestamp := Some now;
                EventBlockGenerator.actions :=
                  App.statsToActions
                    (Flows.counters s (Simulation.pointer s));
                EventBlockGenerator.surveyResponses :=
                  Some (Simulation.panelSurvey s);
                EventBlockGenerator.saaValue := Some (Some reading);
                EventBlockGenerator.saaLevel :=
                  Some (SAAInputModal.levelOfNumber (Some reading)) |}];
       App.currentTimelinePoint := Simulation.pointer s + 1 |}
  /\ Simulation.panel s'
     = {| PlayerPanel.playerInfo :=
            PlayerPanel.playerInfo (Simulation.panel s);
          PlayerPanel.statsByTimeline :=
            <[Simulation.pointer s := PlayerPanel.zeroStats]>
              (PlayerPanel.statsByTimeline (Simulation.panel s));
          PlayerPanel.isSurveyOpen := false;
          PlayerPanel.isSAAInputOpen := false;
          PlayerPanel.tempSurveyResponses := None |}
  /\ Simulation.panelSurvey s' = Simulation.panelSurvey s
  /\ Simulation.saaInput s'
     = {| SAAInputModal.saaValue := EmptyString;
          SAAInputModal.isInvalid := false |}
  /\ Simulation.generator s' = Simulation.generator s
  /\ Simulation.generatorSurvey s' = Simulation.generatorSurvey s
  /\ Simulation.timers s' = []
  /\ Simulation.advancedSeconds s' = Simulation.advancedSeconds s.
Proof.
  intros Htimers Hptr Hdigits Hparse.
  destruct s as [app panel panelSurvey saaInput generator generatorSurvey
                   timers advanced].
  cbn [Simulation.timers] in Htimers. subst timers.
  unfold Simulation.pointer in Hptr. cbn [Simulation.app] in Hptr.
  assert (Hsave : PlayerPanel.isSaveDisabled (App.currentTimelinePoint app)
                  = false).
  { unfold PlayerPanel.isSaveDisabled.
    destruct (Z.geb_spec (App.currentTimelinePoint app) 7); [lia | reflexivity]. }
  assert (Haccept : SAAInputModal.isEmpty text || SAAInputModal.digitsOnly text
                    = true) by (rewrite Hdigits; apply orb_true_r).
  assert (Hnonempty : SAAInputModal.isEmpty text = false)
    by (destruct text; [discriminate | reflexivity]).
  cbv zeta.
  match goal with
  | |- Simulation.app ?r = _ /\ _ => remember r as s' eqn:Hrun
  end.
  unfold Simulation.run, Flows.panelSaveFlow in Hrun. cbn [fold_left] in Hrun.
  revert Hrun.
  handle_innermost ltac:(unfold Simulation.enabled, Simulation.pointer;
                         cbn [Simulation.app]; rewrite Hsave; reflexivity).
  flow_compute.
  handle_innermost ltac:(reflexivity).
  flow_compute.
  handle_innermost ltac:(reflexivity).
  flow_compute.
  handle_innermost ltac:(reflexivity).
  flow_compute.
  unfold SAAInputModal.handleChange. rewrite Haccept.
  handle_innermost ltac:(reflexivity).
  flow_compute.
  unfold SAAInputModal.handleSubmit. cbn [SAAInputModal.saaValue].
  rewrite Hnonempty, Hparse.
  flow_compute.
  handle_innermost ltac:(reflexivity).
  flow_compute.
  intros ->.
  unfold Simulation.history, Flows.counters.
  flow_compute.
  unfold App.advanceTimelinePoint, App.handleCompleteTimelineDataPush,
    App.pushEvent, Simulation.pointer.
  flow_compute.
  rewrite Z.min_l by lia.
  repeat split.
Qed.

(** X26: the save flow of the panel, started with the pointer below 7 and
    no timeout pending, with an all-digit reading typed in, appends
    exactly one record: the current point and quarter, the slot's counters
    turned into actions, the survey answers and what [parseInt] makes of
    the typed digits, with its level.  It then resets the slot's counters
    to zero, advances the pointer by one and leaves both modals closed. *)
Theorem panel_save_flow_appends_one_record
    (s : Simulation.State) (text : string) (now : Z) :
  Simulation.timers s = [] ->
  Simulation.pointer s < 7 ->
  SAAInputModal.digitsOnly text = true ->
  let s' := Simulation.run s (Flows.panelSaveFlow text now) in
  exists reading,
    SAAInputModal.parseInt text = Some reading
    /\ Spec.nonNegative reading
    /\ (Spec.decimalValue text < 2 ^ 53 ->
        reading = Integer (Spec.decimalValue text))
    /\ Simulation.history s'
       = Simulation.history s
         ++ [{| EventBlockGenerator.timelinePoint := Simulation.pointer s;
                EventBlockGenerator.quarter :=
                  App.currentQuarter (Simulation.app s);
                EventBlockGenerator.timestamp := Some now;
                EventBlockGenerator.actions :=
                  App.statsToActions
                    (Flows.counters s (Simulation.pointer s));
                EventBlockGenerator.surveyResponses :=
                  Some (Simulation.panelSurvey s);
                EventBlockGenerator.saaValue := Some (Some reading);
                EventBlockGenerator.saaLevel :=
                  Some (SAAInputModal.levelOfNumber (Some reading)) |}]
    /\ Simulation.pointer s' = Simulation.pointer s + 1
    /\ (forall t, Flows.counters s' (Simulation.pointer s) t = 0)
    /\ (forall slot, slot <> Simulation.pointer s ->
          Flows.counters s' slot = Flows.counters s slot)
    /\ Simulation.panelIdle s' = true
    /\ Simulation.timers s' = [].
Proof.
  intros Htimers Hptr Hdigits. cbv zeta.
  destruct (parseInt_entry text Hdigits)
    as (reading & Hparse & _ & Hnn & Hexact).
  exists reading. split; [exact Hparse|]. split; [exact Hnn|].
  split; [exact Hexact|].
  destruct (panel_save_flow_result s text now reading Htimers Hptr Hdigits
              Hparse)
    as (Happ & Hpanel & _ & _ & _ & _ & Htim & _).
  cbv zeta in Happ, Hpanel, Htim.
  split; [|split; [|split; [|split; [|split]]]].
  - unfold Simulation.history at 1. rewrite Happ. reflexivity.
  - unfold Simulation.pointer at 1. rewrite Happ. reflexivity.
  - intros t. unfold Flows.counters. rewrite Hpanel.
    cbn [PlayerPanel.statsByTimeline]. rewrite lookup_insert_eq. reflexivity.
  - intros slot Hne. unfold Flows.counters. rewrite Hpanel.
    cbn [PlayerPanel.statsByTimeline].
    rewrite lookup_insert_ne by congruence. reflexivity.
  - unfold Simulation.panelIdle. rewrite Hpanel. reflexivity.
  - exact Htim.
Qed.

Lemma panel_save_flow_appends_one_record_witness :
  let s := Simulation.run Simulation.initialState
             [Simulation.PanelLogAction points; Simulation.PanelLogAction turnovers] in
  let s' := Simulation.run s (Flows.panelSaveFlow "120" 5) in
  map EventBlockGenerator.actions (Simulation.history s') = [[points; turnovers]]
  /\ map EventBlockGenerator.saaValue (Simulation.history s')
     = [Some (Some (Integer 120))]
  /\ Simulation.pointer s' = 2.
Proof.
  destruct (panel_save_flow_appends_one_record
              (Simulation.run Simulation.initialState
                 [Simulation.PanelLogAction points;
                  Simulation.PanelLogAction turnovers])
              "120" 5 eq_refl)
    as (reading & _ & _ & Hexact & Hhist & Hptr & _).
  - vm_compute. reflexivity.
  - reflexivity.
  - rewrite Hexact in Hhist by (vm_compute; reflexivity).
    cbv zeta in Hhist |- *.
    split; [rewrite Hhist; reflexivity|].
    split; [rewrite Hhist; reflexivity | exact Hptr].
Defined.





(** X27: each submit of the generator's survey schedules its own commit,
    and the survey stays open after a submit: two submits within one
    cycle append two records for the same point, with the same actions,
    and advance the pointer twice. *)
Theorem generator_double_submit_appends_two_records
    (s : Simulation.State) (now : Z) (rnd : nat -> Q) (u1 u2 : Q) :
  Simulation.generatorIdle s = true ->
  Simulation.timers s = [] ->
  let s' := Simulation.run s
              [Simulation.GeneratorClick now rnd;
               Simulation.GeneratorSurveySubmit u1;
               Simulation.GeneratorSurveySubmit u2;
               Simulation.TimerFires 0;
               Simulation.TimerFires 0] in
  exists first second,
    Simulation.history s' = Simulation.history s ++ [first; second]
    /\ EventBlockGenerator.timelinePoint first = Simulation.pointer s
    /\ EventBlockGenerator.timelinePoint second = Simulation.pointer s
    /\ EventBlockGenerator.actions first
       = EventBlockGenerator.generateRandomActions rnd
    /\ EventBlockGenerator.actions second
       = EventBlockGenerator.generateRandomActions rnd
    /\ Simulation.pointer s'
       = Z.min (Z.min (Simulation.pointer s + 1) 7 + 1) 7.
Proof.
  intros Hidle Htimers. cbv zeta.
  unfold Simulation.generatorIdle in Hidle. apply negb_true_iff in Hidle.
  destruct s as [app panel panelSurvey saaInput generator generatorSurvey
                   timers advanced].
  cbn [Simulation.generator Simulation.timers] in Hidle, Htimers.
  subst timers.
  destruct generator as [isSurveyOpen showSAA duration saaData isGenerating
                           currentEventData].
  cbn [EventBlockGenerator.isGenerating] in Hidle. subst isGenerating.
  unfold Simulation.run. cbn [fold_left].
  do 5 (handle_innermost ltac:(reflexivity)).
  unfold Simulation.history, Simulation.pointer.
  cbn -[Math_round EventBlockGenerator.generateRandomActions
        EventBlockGenerator.calculateSAAValue PlayerPanel.logAction Z.min
        bool_decide].
  eexists. eexists. rewrite <- app_assoc. cbn [Datatypes.app].
  repeat split; reflexivity.
Qed.

Lemma generator_double_submit_appends_two_records_witness :
  let s' := Simulation.run Simulation.initialState
              [Simulation.GeneratorClick 0 (fun _ => 0%Q);
               Simulation.GeneratorSurveySubmit 0;
               Simulation.GeneratorSurveySubmit (1 # 2);
               Simulation.TimerFires 0;
               Simulation.TimerFires 0] in
  map EventBlockGenerator.timelinePoint (Simulation.history s') = [1; 1]
  /\ Simulation.pointer s' = 3.
Proof.
  destruct (generator_double_submit_appends_two_records
              Simulation.initialState 0 (fun _ => 0%Q) 0 (1 # 2)
              eq_refl eq_refl)
    as (first & second & Hhist & Hf & Hs & _ & _ & Hptr).
  cbv zeta in Hhist |- *.
  split; [rewrite Hhist; simpl; rewrite Hf, Hs; reflexivity | exact Hptr].
Defined.

(** ** PerformanceTable: the TOTAL row *)

Lemma fold_sum (f : PerformanceTable.TimelineStats -> Z)
    (rows : list PerformanceTable.TimelineStats) (acc : Z) :
  fold_left (fun sum point => sum + f point) rows acc
  = acc + foldr (fun point sum => f point + sum) 0 rows.
Proof.
  revert acc. induction rows as [|r rows IH]; intros acc; simpl; [lia|].
  rewrite IH. lia.
Qed.

Lemma foldr_sum_nonneg (f : PerformanceTable.TimelineStats -> Z)
    (rows : list PerformanceTable.TimelineStats) :
  Forall (fun r => 0 <= f r) rows ->
  0 <= foldr (fun point sum => f point + sum) 0 rows
  /\ (foldr (fun point sum => f point + sum) 0 rows = 0 <->
      Forall (fun r => f r = 0) rows).
Proof.
  induction 1 as [|r rows Hr _ [IH0 IHz]]; simpl.
  - split; [lia | split; [constructor | reflexivity]].
  - split; [lia|]. split.
    + intros Hsum. constructor; [lia | apply IHz; lia].
    + intros Hall. apply Forall_cons in Hall. destruct Hall as [Hr0 Hall].
      apply IHz in Hall. lia.
Qed.

(** X28: the TOTAL row of the table has counters that are sums of counts,
    so never negative; its total is the sum of the rows' totals; and its
    efficiency badge is null exactly when every row is empty. *)
Theorem table_total_row (evs : list EventBlockGenerator.EventData) :
  let rows := PerformanceRows.timelineStats evs in
  let total := PerformanceRows.totalStats rows in
  PerformanceTable.countsNonNegative total
  /\ PerformanceRows.calculateTotal total
     = foldr (fun point sum => PerformanceRows.calculateTotal point + sum) 0 rows
  /\ (PerformanceTable.efficiencyPercentage
        (PerformanceTable.calculateHollingerScore total) = None
      <-> Forall (fun row => PerformanceRows.calculateTotal row = 0) rows).
Proof.
  cbv zeta.
  set (rows := PerformanceRows.timelineStats evs).
  assert (Hrows : Forall PerformanceTable.countsNonNegative rows).
  { apply Forall_lookup. intros i row Hrow.
    assert (Hi : (i < 7)%nat).
    { rewrite <- (timelineStats_length evs). eapply lookup_lt_Some. exact Hrow. }
    pose proof (timelineStats_lookup evs i Hi) as Hlast.
    fold rows in Hlast. rewrite Hlast in Hrow. injection Hrow as <-.
    destruct (PerformanceRows.lastFor (Z.of_nat i + 1) evs) as [event|].
    - apply rowOf_counts.
    - unfold PerformanceTable.countsNonNegative; simpl; lia. }
  clearbody rows.
  assert (Hfield : forall f,
            (forall r, PerformanceTable.countsNonNegative r -> 0 <= f r) ->
            0 <= foldr (fun point sum => f point + sum) 0 rows).
  { intros f Hf. apply foldr_sum_nonneg.
    eapply Forall_impl; [exact Hrows | exact Hf]. }
  assert (Hsplit :
            foldr (fun point sum => PerformanceRows.calculateTotal point + sum)
              0 rows
            = foldr (fun point sum => PerformanceTable.points point + sum) 0 rows
              + foldr (fun point sum => PerformanceTable.assists point + sum) 0 rows
              + foldr (fun point sum => PerformanceTable.rebounds point + sum) 0 rows
              + foldr (fun point sum => PerformanceTable.turnovers point + sum) 0 rows
              + foldr (fun point sum => PerformanceTable.goodDecisions point + sum) 0 rows
              + foldr (fun point sum => PerformanceTable.badDecisions point + sum) 0 rows).
  { clear. induction rows as [|r rows IH]; simpl; [reflexivity|].
    rewrite IH. unfold PerformanceRows.calculateTotal. lia. }
  assert (Htotal :
            PerformanceRows.calculateTotal (PerformanceRows.totalStats rows)
            = foldr (fun point sum => PerformanceRows.calculateTotal point + sum)
                0 rows).
  { rewrite Hsplit. unfold PerformanceRows.calculateTotal at 1.
    unfold PerformanceRows.totalStats. simpl. rewrite !fold_sum. lia. }
  split; [|split; [exact Htotal|]].
  - unfold PerformanceTable.countsNonNegative, PerformanceRows.totalStats.
    simpl. rewrite !fold_sum.
    repeat split;
      (apply Z.add_nonneg_nonneg; [lia|];
       apply Hfield; unfold PerformanceTable.countsNonNegative; tauto).
  - unfold PerformanceTable.calculateHollingerScore.
    change (PerformanceTable.totalActions (PerformanceRows.totalStats rows))
      with (PerformanceRows.calculateTotal (PerformanceRows.totalStats rows)).
    rewrite Htotal.
    assert (Hnn : Forall (fun r => 0 <= PerformanceRows.calculateTotal r) rows).
    { eapply Forall_impl; [exact Hrows|].
      intros r Hr. unfold PerformanceTable.countsNonNegative in Hr.
      unfold PerformanceRows.calculateTotal. lia. }
    destruct (foldr_sum_nonneg PerformanceRows.calculateTotal rows Hnn)
      as [_ Hzero].
    destruct (Z.eqb_spec
                (foldr (fun point sum => PerformanceRows.calculateTotal point + sum)
                   0 rows) 0) as [E|E]; simpl.
    + split; [intros _; apply Hzero; exact E | reflexivity].
    + split; [discriminate | intros H; apply Hzero in H; contradiction].
Qed.

Lemma table_total_row_witness :
  let rows := PerformanceRows.timelineStats
                [EventBlockGenerator.mkEventData 1 1 None [points; turnovers]
                   None None None] in
  PerformanceRows.calculateTotal (PerformanceRows.totalStats rows) = 2.
Proof.
  destruct (table_total_row
              [EventBlockGenerator.mkEventData 1 1 None [points; turnovers]
                 None None None])
    as (_ & Htotal & _).
  cbv zeta in Htotal |- *. rewrite Htotal. reflexivity.
Defined.
